(** * file_to_md / main: conversion of course files to Markdown

    A shallow embedding of [convert_to_markdown] and its two PDF helpers
    (file_to_md.py) and of the two callers in main.py, [_load_cheatsheet]
    and [_gather_markdown_files].

    Modelling choices.
    - A Python [str] is a [string]; only code points below 256 occur, and
      [isspace] is [str.isspace] on that range.
    - A [Path] is the pair of its textual parent prefix and its final
      component; [suffix], [stem] and [with_suffix] follow pathlib (the
      suffix starts at the last dot of the name when that dot is neither
      its first nor its last character).
    - The file system is a finite map from paths to file contents; only
      regular files are recorded.  Contents are kept as the text that
      [read_text] returns and [write_text] receives.
    - Everything the code does to the outside world is recorded, in order,
      in a trace of events next to the file system.
    - An exception is a value of [exn]; a computation returns [exn + A]
      together with the world it leaves behind.
    - The optional PDF libraries, the order in which the page tasks of the
      thread pool complete, and the OCR function of openai_client are
      variables.  A call into a PDF library returns or raises: opening a
      document and reading one page can each end in an exception, which
      the code does not catch. *)

From Stdlib Require Import ZArith Ascii.
From stdpp Require Import gmap strings list sorting pretty.

(** ** Strings *)

Definition nl : string := String (Ascii.ascii_of_nat 10) "".

(** [str.isspace] on code points below 256. *)
Definition isspace (c : ascii) : bool :=
  let n := Ascii.nat_of_ascii c in
  ((9 <=? n) && (n <=? 13)) || ((28 <=? n) && (n <=? 32))
  || (n =? 133) || (n =? 160).

Fixpoint lstrip (s : string) : string :=
  match s with
  | "" => ""
  | String c r => if isspace c then lstrip r else s
  end.

Fixpoint rstrip (s : string) : string :=
  match s with
  | "" => ""
  | String c r =>
      match rstrip r with
      | "" => if isspace c then "" else String c ""
      | r' => String c r'
      end
  end.

(** [s.strip()] *)
Definition strip (s : string) : string := rstrip (lstrip s).

(** [c.lower()] on code points below 256: the letters A-Z and the
    accented capitals 192-214 and 216-222 move up by 32. *)
Definition lower_char (c : ascii) : ascii :=
  let n := Ascii.nat_of_ascii c in
  if ((65 <=? n) && (n <=? 90)) || ((192 <=? n) && (n <=? 214))
     || ((216 <=? n) && (n <=? 222))
  then Ascii.ascii_of_nat (n + 32) else c.

(** [s.lower()] *)
Fixpoint lower (s : string) : string :=
  match s with
  | "" => ""
  | String c r => String (lower_char c) (lower r)
  end.

(** [s.rfind(c)]: the index of the last occurrence, or -1. *)
Fixpoint rfind (c : ascii) (s : string) : Z :=
  match s with
  | "" => (-1)%Z
  | String a r =>
      let i := rfind c r in
      if (0 <=? i)%Z then (i + 1)%Z
      else if Ascii.eqb a c then 0%Z else (-1)%Z
  end.

(** [s[:n]] and [s[n:]] for [0 <= n]. *)
Fixpoint stake (n : nat) (s : string) : string :=
  match n, s with
  | S n', String c r => String c (stake n' r)
  | _, _ => ""
  end.

Fixpoint sdrop (n : nat) (s : string) : string :=
  match n, s with
  | S n', String _ r => sdrop n' r
  | _, _ => s
  end.

(** [sep.join(l)] *)
Fixpoint join (sep : string) (l : list string) : string :=
  match l with
  | [] => ""
  | [x] => x
  | x :: rest => x +:+ sep +:+ join sep rest
  end.

(** [all(c.isspace() for c in s)] *)
Fixpoint all_space (s : string) : bool :=
  match s with
  | "" => true
  | String c r => isspace c && all_space r
  end.

Definition head_char (s : string) : option ascii :=
  match s with "" => None | String c _ => Some c end.

Fixpoint last_char (s : string) : option ascii :=
  match s with
  | "" => None
  | String c "" => Some c
  | String _ r => last_char r
  end.

(** [needle in s], as a proposition. *)
Definition contains (s needle : string) : Prop :=
  ∃ pre post, s = pre +:+ needle +:+ post.

(** ** Paths (pathlib) *)

Record Path := mkPath { parent : string; name : string }.

#[global] Instance Path_eq_dec : EqDecision Path.
Proof. solve_decision. Defined.

#[global] Instance Path_countable : Countable Path.
Proof.
  refine (inj_countable' (λ p, (parent p, name p))
                         (λ q, mkPath (fst q) (snd q)) _).
  by intros [].
Defined.

(** [str(p)] *)
Definition str (p : Path) : string := parent p +:+ name p.

(** [d / n] *)
Definition joinpath (d : Path) (n : string) : Path :=
  mkPath (str d +:+ "/") n.

(** The split point of a name: [Some i] when [0 < i < len(name) - 1] for
    [i = name.rfind('.')]. *)
Definition suffix_index (nm : string) : option nat :=
  let i := rfind "."%char nm in
  if ((0 <? i) && (i <? Z.of_nat (String.length nm) - 1))%Z
  then Some (Z.to_nat i) else None.

(** [p.suffix] *)
Definition suffix (p : Path) : string :=
  match suffix_index (name p) with
  | Some i => sdrop i (name p)
  | None => ""
  end.

(** [p.stem] *)
Definition stem (p : Path) : string :=
  match suffix_index (name p) with
  | Some i => stake i (name p)
  | None => name p
  end.

(** The exception classes that the code names, and [Other] for an
    exception of any other class, such as the errors of pypdf, of PyMuPDF
    or of the OpenAI client, with the name of its class. *)
Inductive exn :=
  | FileNotFoundError (msg : string)
  | ValueError (msg : string)
  | RuntimeError (msg : string)
  | SystemExit (msg : string)
  | ConversionError (msg : string)
  | Other (cls : string) (msg : string).

#[global] Instance exn_eq_dec : EqDecision exn.
Proof. solve_decision. Defined.

Definition double_quote : ascii := Ascii.ascii_of_nat 34.
Definition backslash : ascii := Ascii.ascii_of_nat 92.

(** [c.isprintable()] on code points below 256. *)
Definition isprintable (c : ascii) : bool :=
  let n := Ascii.nat_of_ascii c in
  ((32 <=? n) && (n <=? 126)) || ((161 <=? n) && negb (n =? 173)).

Definition hex_digit (n : nat) : ascii :=
  Ascii.ascii_of_nat (if n <? 10 then 48 + n else 87 + n).

Fixpoint has_char (c : ascii) (s : string) : bool :=
  match s with
  | "" => false
  | String a r => Ascii.eqb a c || has_char c r
  end.

Definition repr_char (quote c : ascii) : string :=
  let n := Ascii.nat_of_ascii c in
  if Ascii.eqb c quote || Ascii.eqb c backslash then
    String backslash (String c "")
  else if n =? 9 then String backslash "t"
  else if n =? 10 then String backslash "n"
  else if n =? 13 then String backslash "r"
  else if isprintable c then String c ""
  else
    String backslash
      (String "x" (String (hex_digit (n / 16))
                     (String (hex_digit (n mod 16)) ""))).

Fixpoint repr_chars (quote : ascii) (s : string) : string :=
  match s with
  | "" => ""
  | String c r => repr_char quote c +:+ repr_chars quote r
  end.

(** [repr(s)] of a [str] on code points below 256: the text between
    single quotes, or between double quotes when it holds a single quote
    and no double quote; the quote in use and the backslash are escaped,
    tab, newline and carriage return are written with their letter, and
    any other character that is not printable as [\xhh]. *)
Definition repr (s : string) : string :=
  let quote :=
    if has_char "'" s && negb (has_char double_quote s) then double_quote
    else "'"%char in
  String quote (repr_chars quote s +:+ String quote "").

(** [repr(p)] of a path, on POSIX. *)
Definition Path_repr (p : Path) : string :=
  "PosixPath(" +:+ repr (str p) +:+ ")".

(** [p.with_suffix(".md")]: the argument is the literal [".md"] at both
    call sites, so only the empty-name check can raise. *)
Definition with_suffix_md (p : Path) : exn + Path :=
  if decide (name p = "") then
    inl (ValueError (Path_repr p +:+ " has an empty name"))
  else
    let old_suffix := suffix p in
    let name' :=
      if decide (old_suffix = "") then name p +:+ ".md"
      else stake (String.length (name p) - String.length old_suffix) (name p)
           +:+ ".md" in
    inr (mkPath (parent p) name').

(** The derived sibling: same parent, same stem, extension [.md]. *)
Definition sibling_md (p : Path) : Path :=
  mkPath (parent p) (stem p +:+ ".md").

(** ** The world: file system and trace of effects *)

Inductive event :=
  | EvReadText (p : Path)                 (* p.read_text(...) *)
  | EvWriteText (p : Path) (s : string)   (* p.write_text(s, ...) *)
  | EvQuality (s : string)                (* quality_checker(s) *)
  | EvPdfReader (p : Path)                (* PdfReader(str(p)) and its pages *)
  | EvFitzOpen (p : Path)                 (* fitz.open(str(p)) *)
  | EvOcr (page_index : nat) (image_bytes : string)
                                           (* ocr_func(image_bytes) in the task
                                              of a page that rendered *)
  | EvWarn (p : Path) (msg : string).     (* the [WARN] line of the batch *)

Record world := mkWorld { fs : gmap Path string; trace : list event }.

(** A computation: an exception or a value, and the world left behind. *)
Definition M (A : Type) : Type := world → (exn + A) * world.

#[global] Instance M_ret : MRet M := λ A a w, (inr a, w).

#[global] Instance M_bind : MBind M := λ A B f m w,
  match m w with
  | (inl e, w') => (inl e, w')
  | (inr a, w') => f a w'
  end.

Definition raise {A} (e : exn) : M A := λ w, (inl e, w).

Definition lift {A} (r : exn + A) : M A := λ w, (r, w).

Definition emit (e : event) : M unit :=
  λ w, (inr tt, mkWorld (fs w) (trace w ++ [e])).

(** [try: m  except ConversionError as exc: h(str(exc))] *)
Definition except_ConversionError {A} (m : M A) (h : string → M A) : M A :=
  λ w, match m w with
       | (inl (ConversionError msg), w') => h msg w'
       | r => r
       end.

(** [p.exists()] *)
Definition path_exists (p : Path) : M bool :=
  λ w, (inr (bool_decide (is_Some (fs w !! p))), w).

(** Opening a file for reading: its content, or FileNotFoundError. *)
Definition open_file (ev : event) (p : Path) : M string :=
  λ w, match fs w !! p with
       | Some s => (inr s, mkWorld (fs w) (trace w ++ [ev]))
       | None => (inl (FileNotFoundError (str p)), w)
       end.

(** [p.read_text(encoding="utf-8", errors="ignore")] *)
Definition read_text (p : Path) : M string := open_file (EvReadText p) p.

(** [p.write_text(s, encoding="utf-8")] *)
Definition write_text (p : Path) (s : string) : M unit :=
  λ w, (inr tt, mkWorld (<[p := s]> (fs w)) (trace w ++ [EvWriteText p s])).

Definition QualityChecker : Type := string → bool.
Definition OcrFunc : Type := string → exn + option string.

(** [quality_checker is not None and not quality_checker(text)] *)
Definition quality_rejects (quality_checker : option QualityChecker)
    (text : string) : M bool :=
  match quality_checker with
  | None => mret false
  | Some check => emit (EvQuality text);; mret (negb (check text))
  end.

(** ** The [results] dictionary of the OCR path, in insertion order *)

Definition dict : Type := list (nat * string).

(** [d[k] = v] *)
Fixpoint dict_set (k : nat) (v : string) (d : dict) : dict :=
  match d with
  | [] => [(k, v)]
  | (k', v') :: r =>
      if decide (k = k') then (k, v) :: r else (k', v') :: dict_set k v r
  end.

(** [d[k]], [None] standing for KeyError. *)
Fixpoint dict_get (k : nat) (d : dict) : option string :=
  match d with
  | [] => None
  | (k', v') :: r => if decide (k = k') then Some v' else dict_get k r
  end.

(** [sorted(d)]: the keys in ascending order. *)
Definition sorted (d : dict) : list nat := merge_sort (≤) (d.*1).

(** ** file_to_md.py *)

(** One page section as the four list items the loops append. *)
Definition section_lines (n : nat) (clean : string) : list string :=
  ["Page " +:+ pretty n; ""; clean; ""].

(** The loop [for idx, text in enumerate(page_texts, start=1)] of
    [_convert_pdf_to_markdown_text], [idx] being the current index and
    [lines] the list built so far. *)
Fixpoint text_loop (idx : nat) (page_texts : list string)
    (lines : list string) : list string :=
  match page_texts with
  | [] => lines
  | text :: rest =>
      let clean := strip text in
      if decide (clean = "") then text_loop (S idx) rest lines
      else text_loop (S idx) rest (lines ++ section_lines idx clean)
  end.

(** The loop [for page in reader.pages] with [page.extract_text() or ""],
    a page being given by what [extract_text] does on it: the first page
    on which it raises ends the loop. *)
Fixpoint extract_loop (pages : list (exn + option string))
    (page_texts : list string) : exn + list string :=
  match pages with
  | [] => inr page_texts
  | inl e :: _ => inl e
  | inr text :: rest => extract_loop rest (page_texts ++ [default "" text])
  end.

(** [_render_and_ocr(page_index)] without its effects on the trace, a
    page of the document being given by what rendering it to PNG bytes
    does ([load_page], [get_pixmap], [tobytes]): an exception of the
    rendering or of the OCR function is the outcome of the task.  The
    indices that are submitted are those of the pages. *)
Definition _render_and_ocr (doc : list (exn + string)) (ocr_func : OcrFunc)
    (page_index : nat) : exn + (nat * string) :=
  match default (inr "") (doc !! page_index) with
  | inl e => inl e
  | inr image_bytes =>
      match ocr_func image_bytes with
      | inl e => inl e
      | inr text => inr (page_index, strip (default "" text))
      end
  end.

(** The call of the OCR function that the task of a page makes: none
    when the page does not render. *)
Definition ocr_call (doc : list (exn + string)) (page_index : nat)
    : list event :=
  match default (inr "") (doc !! page_index) with
  | inl _ => []
  | inr image_bytes => [EvOcr page_index image_bytes]
  end.

(** The loop [for future in as_completed(futures)]: [future.result()]
    re-raises the exception of a failed task. *)
Fixpoint collect (completed : list (exn + (nat * string)))
    (results : dict) : exn + dict :=
  match completed with
  | [] => inr results
  | inl e :: _ => inl e
  | inr (page_index, clean) :: rest =>
      collect rest
        (if decide (clean = "") then results
         else dict_set page_index clean results)
  end.

(** The loop [for idx in sorted(results)]. *)
Fixpoint ocr_loop (keys : list nat) (results : dict)
    (lines : list string) : list string :=
  match keys with
  | [] => lines
  | idx :: rest =>
      ocr_loop rest results
        (lines ++ section_lines (idx + 1) (default "" (dict_get idx results)))
  end.

Fixpoint emit_all (evs : list event) : M unit :=
  match evs with
  | [] => mret tt
  | e :: rest => emit e;; emit_all rest
  end.

(** ** The merged document, stated page by page

    The pages of a document with their 1-based numbers and trimmed texts,
    and the lines of the sections of those whose trimmed text is not
    empty.  The loops above are compared with these below. *)

Definition numbered_from (start : nat) (texts : list string)
    : list (nat * string) :=
  zip (seq start (length texts)) (strip <$> texts).

Definition has_text (page : nat * string) : Prop := page.2 ≠ "".

#[global] Instance has_text_dec page : Decision (has_text page).
Proof. unfold has_text. apply _. Defined.

Definition page_sections (pages : list (nat * string)) : list string :=
  filter has_text pages ≫= λ page, section_lines page.1 page.2.

(** One section as text: the header, a blank line, the trimmed text, and
    the newline that the blank line after it starts from. *)
Definition section_text (page : nat * string) : string :=
  "Page " +:+ pretty page.1 +:+ nl +:+ nl +:+ page.2 +:+ nl.

Definition blank (page : nat * string) : Prop := page.2 = "".

(** The trimmed text that OCR yields for the page with 0-based index [i]
    (empty where the OCR function raises), and the pages of a document
    under OCR with their 1-based numbers. *)
Definition page_clean (images : list string) (ocr_func : OcrFunc)
    (i : nat) : string :=
  match ocr_func (default "" (images !! i)) with
  | inl _ => ""
  | inr text => strip (default "" text)
  end.

Definition ocr_pages (images : list string) (ocr_func : OcrFunc)
    : list (nat * string) :=
  (λ i, (i + 1, page_clean images ocr_func i)) <$> seq 0 (length images).

(** A page index with its trimmed text, and the indices that are kept. *)
Definition keyed (images : list string) (ocr_func : OcrFunc) (i : nat)
    : nat * string :=
  (i, page_clean images ocr_func i).

Definition kept (images : list string) (ocr_func : OcrFunc) (i : nat)
    : Prop :=
  page_clean images ocr_func i ≠ "".

#[global] Instance kept_dec images ocr_func i :
  Decision (kept images ocr_func i).
Proof. unfold kept. apply _. Defined.

(** The images of the pages of a document, when every page renders. *)
Definition rendered (doc : list (exn + string)) : option (list string) :=
  mapM (λ page, match page with
                | inl _ => None
                | inr image_bytes => Some image_bytes
                end) doc.

(** No page makes the OCR function raise. *)
Definition ocr_returns (ocr_func : OcrFunc) (image_bytes : string) : bool :=
  match ocr_func image_bytes with inl _ => false | inr _ => true end.

Definition ocr_total (images : list string) (ocr_func : OcrFunc) : Prop :=
  Forall (λ image_bytes, ocr_returns ocr_func image_bytes = true) images.

Definition quality_passes (quality_checker : option QualityChecker)
    (text : string) : bool :=
  match quality_checker with
  | None => true
  | Some check => check text
  end.

Definition quality_events (quality_checker : option QualityChecker)
    (text : string) : list event :=
  match quality_checker with
  | None => []
  | Some _ => [EvQuality text]
  end.

(** Kinds of events. *)
Definition extraction_event (e : event) : bool :=
  match e with
  | EvPdfReader _ | EvFitzOpen _ | EvOcr _ _ => true
  | _ => false
  end.

Definition ocr_event (e : event) : bool :=
  match e with EvOcr _ _ => true | _ => false end.

Definition write_event (e : event) : bool :=
  match e with EvWriteText _ _ => true | _ => false end.

(** ** The failure taxonomy of the specification

    The code has one exception class of its own, [ConversionError], and
    tells its failures apart by message.  The table lists, for a source
    path, the exceptions that the checks of file_to_md.py raise, each
    under the name the specification gives to the failure. *)

Inductive failure_kind :=
  | SourceNotFound
  | UnsupportedType
  | MissingOcrFunction
  | NoExtractableText
  | QualityCheckFailed
  | BackendUnavailable.

#[global] Instance failure_kind_eq_dec : EqDecision failure_kind.
Proof. solve_decision. Defined.

Definition failures (path : Path) : list (failure_kind * exn) :=
  [ (SourceNotFound,
      FileNotFoundError ("Source file not found: " +:+ str path));
    (UnsupportedType,
      ConversionError
        ("Unsupported file type for conversion: " +:+ lower (suffix path)));
    (MissingOcrFunction,
      ConversionError
        "OCR conversion requested but no OCR function was provided");
    (NoExtractableText,
      ConversionError ("No usable text extracted from PDF: " +:+ str path));
    (NoExtractableText,
      ConversionError ("No pages in PDF for OCR: " +:+ str path));
    (NoExtractableText,
      ConversionError ("OCR produced no content for PDF: " +:+ str path));
    (QualityCheckFailed,
      ConversionError ("Text from " +:+ str path +:+ " failed quality check"));
    (QualityCheckFailed,
      ConversionError
        ("Extracted text for " +:+ str path +:+ " failed quality check"));
    (BackendUnavailable,
      ConversionError
        "pypdf is required for PDF conversion but is not installed");
    (BackendUnavailable,
      ConversionError
        "PyMuPDF (fitz) is required for OCR-based PDF conversion but is not installed") ].

(** The message of an exception. *)
Definition message (e : exn) : string :=
  match e with
  | FileNotFoundError msg | ValueError msg | RuntimeError msg
  | SystemExit msg | ConversionError msg | Other _ msg => msg
  end.

Definition is_ConversionError (e : exn) : bool :=
  match e with ConversionError _ => true | _ => false end.

(** ** Concrete backends and worlds used in the examples *)

Module Demo.

(** Pages of a demo PDF are the [|]-separated pieces of its content. *)
Fixpoint split_bar (s : string) : list string :=
  match s with
  | "" => [""]
  | String c r =>
      if Ascii.eqb c "|" then "" :: split_bar r
      else match split_bar r with
           | [] => [String c ""]
           | x :: xs => String c x :: xs
           end
  end.

(** Stand-ins for the libraries: an empty file cannot be opened, and a
    page [#] can be neither read nor rendered. *)
Definition PdfReader (content : string)
    : exn + list (exn + option string) :=
  if decide (content = "") then
    inl (Other "EmptyFileError" "Cannot read an empty file")
  else
    inr ((λ page,
            if decide (page = "#") then
              inl (Other "PdfReadError" "Invalid content stream")
            else inr (Some page)) <$> split_bar content).

Definition pypdf : option (string → exn + list (exn + option string)) :=
  Some PdfReader.

Definition fitz_open (content : string) : exn + list (exn + string) :=
  if decide (content = "") then
    inl (Other "EmptyFileError" "Cannot open empty file")
  else
    inr ((λ page,
            if decide (page = "#") then
              inl (RuntimeError "cannot render page")
            else inr page) <$> split_bar content).

Definition fitz : option (string → exn + list (exn + string)) :=
  Some fitz_open.

(** An OCR function that reads the page back, and fails on the page
    ["!"] the way [llm_ocr] does without an API key. *)
Definition ocr : OcrFunc := λ image_bytes,
  if decide (image_bytes = "!") then
    inl (RuntimeError "OPENAI_API_KEY is not set")
  else inr (Some image_bytes).

Definition in_order : list nat → list nat := id.
Definition last_first : list nat → list nat := reverse.


Definition course_dir : Path := mkPath "course/" "CS231".
Definition cheatsheet_pdf : Path := joinpath course_dir "cheatsheet.pdf".
Definition cheatsheet_md : Path := joinpath course_dir "cheatsheet.md".
Definition notes_txt : Path := mkPath "course/CS231/lecture_notes/" "notes.txt".
Definition notes_md : Path := mkPath "course/CS231/lecture_notes/" "notes.md".
Definition scan_pdf : Path := mkPath "course/CS231/past_papers/" "scan.pdf".
Definition scan_md : Path := mkPath "course/CS231/past_papers/" "scan.md".
Definition missing_pdf : Path := mkPath "course/CS231/" "absent.pdf".

Definition world_of (files : list (Path * string)) : world :=
  mkWorld (list_to_map files) [].

(** Only the PDF cheatsheet is there. *)
Definition w_cheat : world := world_of [(cheatsheet_pdf, "alpha")].

(** The cheatsheet PDF is edited between two runs. *)
Definition edit_cheatsheet (w : world) : world :=
  mkWorld (<[cheatsheet_pdf := "beta"]> (fs w)) (trace w).

Definition w_notes : world :=
  world_of [(notes_txt, "  Intro " +:+ nl +:+ nl)].


Definition w_scan : world := world_of [(scan_pdf, "two| |five||one")].

Definition w_scan_cached : world :=
  world_of [(scan_pdf, "two| |five||one"); (scan_md, "kept")].

Definition w_blank : world := world_of [(scan_pdf, " | " +:+ nl +:+ "|")].

Definition w_broken : world := world_of [(scan_pdf, "one|!|three")].

(** A PDF file of zero bytes. *)
Definition w_empty_file : world := world_of [(scan_pdf, "")].

End Demo.

(** ** Environment variables *)

(** [os.getenv(name)] on the process environment. *)
Definition getenv (env : gmap string string) (name : string)
    : option string :=
  env !! name.

(** [os.getenv(name) or fallback]: an unset and an empty variable both
    give the fallback. *)
Definition getenv_or (env : gmap string string) (name fallback : string)
    : string :=
  match getenv env name with
  | None => fallback
  | Some value => if decide (value = "") then fallback else value
  end.

(** main.py: [_env_flag(name, default)] *)
Definition _env_flag (env : gmap string string) (name : string)
    (default : bool) : bool :=
  match getenv env name with
  | None => default
  | Some value =>
      bool_decide (lower (strip value) ∈ ["1"; "true"; "yes"; "y"])
  end.

(** ** agent.py *)

Record CourseCorpus := mkCourseCorpus {
  cheatsheet : string;
  lecture_notes : list string;
  past_papers : list string;
  assignments : list string
}.

(** [sum(1 for _ in items)] *)
Definition _safe_count (items : list string) : nat :=
  foldl (λ total _, total + 1) 0 items.

Definition check_coverage (_corpus : CourseCorpus) : string :=
  let lines : list string := [] in
  let lines := lines ++ ["# Cheatsheet Coverage Report"] in
  let lines := lines ++ [""] in
  let lines := lines ++
    ["This is a stub report. Implement LLM-based coverage analysis in `agent.check_coverage`."] in
  let lines := lines ++ [""] in
  let lines := lines ++ ["## Sources"] in
  let lines := lines ++ [""] in
  let lines := lines ++
    ["- Lecture notes files: "
     +:+ pretty (_safe_count (lecture_notes _corpus))] in
  let lines := lines ++
    ["- Past papers files: "
     +:+ pretty (_safe_count (past_papers _corpus))] in
  let lines := lines ++
    ["- Assignment question files: "
     +:+ pretty (_safe_count (assignments _corpus))] in
  let lines := lines ++ [""] in
  join nl lines.

(** ** The entry point of file_to_md.py *)

(** [_dummy_quality_checker(text)]: [bool(text.strip())] *)
Definition _dummy_quality_checker : QualityChecker :=
  λ text, bool_decide (strip text ≠ "").

(** ** openai_client.py *)

(** The client that [_build_client] constructs. *)
Record OpenAI := mkOpenAI { api_key : string; base_url : option string }.

Definition _build_client (env : gmap string string) : exn + OpenAI :=
  match getenv env "OPENAI_API_KEY" with
  | None => inl (RuntimeError "OPENAI_API_KEY is not set")
  | Some key =>
      if decide (key = "") then
        inl (RuntimeError "OPENAI_API_KEY is not set")
      else
        match getenv env "OPENAI_BASE_URL" with
        | Some url =>
            if decide (url = "") then inr (mkOpenAI key None)
            else inr (mkOpenAI key (Some url))
        | None => inr (mkOpenAI key None)
        end
  end.

Definition prompt_md : string :=
  "You are extracting text from a scanned lecture slide or exam page."
  +:+ nl +:+ nl
  +:+ "Return the visible text as clean Markdown, preserving headings and "
  +:+ "bullet points where obvious. Do not add commentary beyond what is "
  +:+ "visible in the image.".

Section Client.

(** The parsed value of TEXT_EXTRACTION_PARAMS. *)
Variable Params : Type.
(** [json.loads]: [None] stands for JSONDecodeError. *)
Variable json_loads : string → option Params.
(** [base64.b64encode(b).decode("utf-8")] *)
Variable b64encode : string → string.
(** The request [client.chat.completions.create(model, messages,
    **extra_params)] with one user message made of the prompt and the
    image URL, followed by [response.choices[0].message.content]: the
    content, or the exception that either step raises. *)
Variable create :
  OpenAI → string → string → string → Params → exn + option string.

Definition llm_ocr (env : gmap string string) : OcrFunc := λ image_bytes,
  match _build_client env with
  | inl e => inl e
  | inr client =>
      let model := getenv_or env "TEXT_EXTRACTION_MODEL" "gpt-4.1-mini" in
      let params_raw := getenv_or env "TEXT_EXTRACTION_PARAMS" "{}" in
      match json_loads params_raw with
      | None =>
          inl (RuntimeError "TEXT_EXTRACTION_PARAMS must be valid JSON")
      | Some extra_params =>
          let image_b64 := b64encode image_bytes in
          create client model prompt_md
            ("data:image/png;base64," +:+ image_b64) extra_params
      end
  end.

End Client.

(** ** What the batch makes of a listing *)

(** The suffixes that [_gather_markdown_files] lets through. *)
Definition supported (path : Path) : Prop :=
  lower (suffix path) ∈ [".md"; ".txt"; ".pdf"].

#[global] Instance supported_dec path : Decision (supported path).
Proof. unfold supported. apply _. Defined.

(** Where the Markdown of a source is found after a conversion. *)
Definition md_target (path : Path) : Path :=
  if decide (lower (suffix path) = ".md") then path else sibling_md path.

Definition warn_event (e : event) : bool :=
  match e with EvWarn _ _ => true | _ => false end.

(** Worlds for the examples of the callers. *)
Module Fixtures.

Definition readme_md : Path := mkPath "course/CS231/lecture_notes/" "a.MD".
Definition notes_txt : Path := mkPath "course/CS231/lecture_notes/" "b.txt".
Definition blank_txt : Path := mkPath "course/CS231/lecture_notes/" "c.txt".
Definition slides_pdf : Path := mkPath "course/CS231/lecture_notes/" "d.pdf".
Definition empty_pdf : Path := mkPath "course/CS231/lecture_notes/" "e.pdf".
Definition image_png : Path := mkPath "course/CS231/lecture_notes/" "f.png".
Definition image_md : Path := mkPath "course/CS231/lecture_notes/" "f.md".
Definition sheet_docx : Path := mkPath "course/CS231/lecture_notes/" "g.docx".

Definition listing : list Path :=
  [readme_md; notes_txt; blank_txt; slides_pdf; empty_pdf; image_png;
   sheet_docx].

Definition files : list (Path * string) :=
  [ (readme_md, "# Week 1");
    (notes_txt, " recap ");
    (blank_txt, "   ");
    (slides_pdf, "one|!|three");
    (empty_pdf, " | ");
    (image_png, "png");
    (image_md, "described");
    (sheet_docx, "docx") ].

Definition w_course : world := mkWorld (list_to_map files) [].

Definition course_dir : Path := mkPath "course/" "CS231".

Definition w_both : world :=
  mkWorld (list_to_map
             [ (joinpath course_dir "cheatsheet.md", "# Sheet");
               (joinpath course_dir "cheatsheet.pdf", "alpha|beta") ]) [].

Definition w_pdf_only : world :=
  mkWorld (list_to_map [(joinpath course_dir "cheatsheet.pdf", "alpha|beta")])
    [].

Definition w_blank_pdf : world :=
  mkWorld (list_to_map [(joinpath course_dir "cheatsheet.pdf", " | ")]) [].

Definition slides_txt : Path := mkPath "course/CS231/lecture_notes/" "d.txt".
Definition slides_md : Path := mkPath "course/CS231/lecture_notes/" "d.md".

(** A PDF and a text file of the same stem. *)
Definition w_twins : world :=
  mkWorld (list_to_map [(slides_pdf, "one|two"); (slides_txt, "other")]) [].

(** A PDF whose second page cannot be read, before a text file. *)
Definition damaged_pdf : Path := mkPath "course/CS231/lecture_notes/" "a.pdf".

Definition w_damaged : world :=
  mkWorld (list_to_map [(damaged_pdf, "one|#|three"); (notes_txt, " recap ")])
    [].

(** The text file of [w_course] alone. *)
Definition w_single : world :=
  mkWorld (list_to_map [(notes_txt, " recap ")]) [].

Definition reject_all : QualityChecker := λ _, false.

(** Stand-ins for [json.loads], [b64encode] and the request. *)
Definition json_loads (s : string) : option unit :=
  if decide (s = "{}") then Some tt else None.
Definition b64encode (s : string) : string := s.
Definition create (client : OpenAI) (model prompt url : string)
    (extra_params : unit) : exn + option string :=
  inr (Some url).

Definition env_on : gmap string string :=
  list_to_map [("CHEATSHEET_USE_OCR", " YES " +:+ nl)].

Definition env_no_key : gmap string string :=
  list_to_map [("OPENAI_API_KEY", ""); ("TEXT_EXTRACTION_PARAMS", "{")].

End Fixtures.

Section Converter.

(** [pypdf]: [None] when the import fails, else what [PdfReader] and
    [reader.pages] make of a file content: an exception (a file that is
    empty, damaged or encrypted), or the pages, each with what
    [page.extract_text()] does on it: an exception, a text or [None]. *)
Variable pypdf : option (string → exn + list (exn + option string)).
(** [fitz]: [None] when the import fails, else what [fitz.open] makes of
    a file content: an exception, or the pages, each with what rendering
    it at 2x zoom does: an exception or the PNG bytes. *)
Variable fitz : option (string → exn + list (exn + string)).
(** The order in which the submitted page tasks complete. *)
Variable as_completed : list nat → list nat.
(** [openai_client.llm_ocr] *)
Variable llm_ocr : OcrFunc.

Definition _convert_pdf_to_markdown_text (pdf_path : Path) : M string :=
  match pypdf with
  | None =>
      raise (ConversionError
        "pypdf is required for PDF conversion but is not installed")
  | Some PdfReader =>
      content ← open_file (EvPdfReader pdf_path) pdf_path;
      reader_pages ← lift (PdfReader content);
      page_texts ← lift (extract_loop reader_pages []);
      let lines := text_loop 1 page_texts [] in
      if decide (lines = []) then
        raise (ConversionError
          ("No usable text extracted from PDF: " +:+ str pdf_path))
      else mret (join nl lines)
  end.

Definition _convert_pdf_to_markdown_ocr (pdf_path : Path)
    (ocr_func : option OcrFunc) : M string :=
  match ocr_func with
  | None =>
      raise (ConversionError
        "OCR conversion requested but no OCR function was provided")
  | Some ocr =>
      match fitz with
      | None =>
          raise (ConversionError
            "PyMuPDF (fitz) is required for OCR-based PDF conversion but is not installed")
      | Some fitz_open =>
          content ← open_file (EvFitzOpen pdf_path) pdf_path;
          doc ← lift (fitz_open content);
          let page_count := length doc in
          if decide (page_count = 0) then
            raise (ConversionError
              ("No pages in PDF for OCR: " +:+ str pdf_path))
          else
            let order := as_completed (seq 0 page_count) in
            (* every submitted task runs, also when one of them raises *)
            emit_all (order ≫= ocr_call doc);;
            results ← lift (collect (_render_and_ocr doc ocr <$> order) []);
            if decide (results = []) then
              raise (ConversionError
                ("OCR produced no content for PDF: " +:+ str pdf_path))
            else mret (join nl (ocr_loop (sorted results) results []))
      end
  end.

Definition convert_to_markdown (path : Path)
    (quality_checker : option QualityChecker)
    (ocr_func : option OcrFunc) (use_ocr : bool) : M Path :=
  let src_path := path in
  found ← path_exists src_path;
  if negb found then
    raise (FileNotFoundError ("Source file not found: " +:+ str src_path))
  else
  let suffix := lower (suffix src_path) in
  (* Case 1: plain text files. *)
  if decide (suffix = ".md") then mret src_path
  else if decide (suffix = ".txt") then
    md_path ← lift (with_suffix_md src_path);
    reuse ← path_exists md_path;
    if (reuse : bool) then mret md_path
    else
      text ← read_text src_path;
      let markdown := strip text +:+ nl in
      bad ← quality_rejects quality_checker markdown;
      if (bad : bool) then
        raise (ConversionError
          ("Text from " +:+ str src_path +:+ " failed quality check"))
      else
        write_text md_path markdown;;
        mret md_path
  else
  (* For non-text inputs, if a sibling .md already exists, reuse it. *)
  md_path ← lift (with_suffix_md src_path);
  reuse ← path_exists md_path;
  if (reuse : bool) then mret md_path
  else
    markdown_text ←
      (if decide (suffix = ".pdf") then
         if use_ocr then _convert_pdf_to_markdown_ocr src_path ocr_func
         else _convert_pdf_to_markdown_text src_path
       else
         raise (ConversionError
           ("Unsupported file type for conversion: " +:+ suffix)));
    bad ← quality_rejects quality_checker markdown_text;
    if (bad : bool) then
      raise (ConversionError
        ("Extracted text for " +:+ str src_path +:+ " failed quality check"))
    else
      write_text md_path markdown_text;;
      mret md_path.

(** The extraction step of [convert_to_markdown] for a PDF source. *)
Definition pdf_extract (src_path : Path) (ocr_func : option OcrFunc)
    (use_ocr : bool) : M string :=
  if use_ocr then _convert_pdf_to_markdown_ocr src_path ocr_func
  else _convert_pdf_to_markdown_text src_path.

(** The pages of a PDF content with the text that the mode in use
    extracts from them; [None] where a backend or the OCR function is
    missing, where the library raises on the document or on one of its
    pages, or where the OCR function raises on a page. *)
Definition extracted_pages (content : string) (ocr_func : option OcrFunc)
    (use_ocr : bool) : option (list (nat * string)) :=
  if use_ocr then
    match ocr_func, fitz with
    | Some ocr, Some fitz_open =>
        match fitz_open content with
        | inr doc =>
            match rendered doc with
            | Some images =>
                if decide (ocr_total images ocr)
                then Some (ocr_pages images ocr) else None
            | None => None
            end
        | inl _ => None
        end
    | _, _ => None
    end
  else
    match pypdf with
    | Some PdfReader =>
        match PdfReader content with
        | inr reader_pages =>
            match extract_loop reader_pages [] with
            | inr page_texts => Some (numbered_from 1 page_texts)
            | inl _ => None
            end
        | inl _ => None
        end
    | None => None
    end.

(** The exceptions that the library of the mode in use raises on a PDF
    content: on the document, or on one of its pages. *)
Definition library_raises (content : string) (use_ocr : bool) (e : exn)
    : Prop :=
  if use_ocr then
    ∃ fitz_open, fitz = Some fitz_open
      ∧ (fitz_open content = inl e
         ∨ ∃ doc, fitz_open content = inr doc ∧ inl e ∈ doc)
  else
    ∃ PdfReader, pypdf = Some PdfReader
      ∧ (PdfReader content = inl e
         ∨ ∃ reader_pages, PdfReader content = inr reader_pages
                           ∧ inl e ∈ reader_pages).

(** The paths through [convert_to_markdown], one constructor for each:
    the conditions under which it is taken, the result and the world it
    leaves. *)
Inductive conv_case (path : Path) (qc : option QualityChecker)
    (ocr_func : option OcrFunc) (use_ocr : bool) (w : world)
    : (exn + Path) * world → Prop :=
  | Case_missing :
      fs w !! path = None →
      conv_case path qc ocr_func use_ocr w
        (inl (FileNotFoundError ("Source file not found: " +:+ str path)), w)
  | Case_markdown :
      is_Some (fs w !! path) →
      lower (suffix path) = ".md" →
      conv_case path qc ocr_func use_ocr w (inr path, w)
  | Case_empty_name :
      is_Some (fs w !! path) →
      lower (suffix path) ≠ ".md" →
      name path = "" →
      conv_case path qc ocr_func use_ocr w
        (inl (ValueError (Path_repr path +:+ " has an empty name")), w)
  | Case_reuse :
      is_Some (fs w !! path) →
      lower (suffix path) ≠ ".md" →
      name path ≠ "" →
      is_Some (fs w !! sibling_md path) →
      conv_case path qc ocr_func use_ocr w (inr (sibling_md path), w)
  | Case_txt_rejected text :
      fs w !! path = Some text →
      lower (suffix path) = ".txt" →
      fs w !! sibling_md path = None →
      quality_passes qc (strip text +:+ nl) = false →
      conv_case path qc ocr_func use_ocr w
        (inl (ConversionError
                ("Text from " +:+ str path +:+ " failed quality check")),
         mkWorld (fs w)
           (trace w ++ [EvReadText path]
              ++ quality_events qc (strip text +:+ nl)))
  | Case_txt_written text :
      fs w !! path = Some text →
      lower (suffix path) = ".txt" →
      fs w !! sibling_md path = None →
      quality_passes qc (strip text +:+ nl) = true →
      conv_case path qc ocr_func use_ocr w
        (inr (sibling_md path),
         mkWorld (<[sibling_md path := strip text +:+ nl]> (fs w))
           (trace w ++ [EvReadText path]
              ++ quality_events qc (strip text +:+ nl)
              ++ [EvWriteText (sibling_md path) (strip text +:+ nl)]))
  | Case_unsupported :
      is_Some (fs w !! path) →
      lower (suffix path) ∉ [".md"; ".txt"; ".pdf"] →
      name path ≠ "" →
      fs w !! sibling_md path = None →
      conv_case path qc ocr_func use_ocr w
        (inl (ConversionError
                ("Unsupported file type for conversion: "
                 +:+ lower (suffix path))), w)
  | Case_extract_failed e w' :
      is_Some (fs w !! path) →
      lower (suffix path) = ".pdf" →
      fs w !! sibling_md path = None →
      pdf_extract path ocr_func use_ocr w = (inl e, w') →
      conv_case path qc ocr_func use_ocr w (inl e, w')
  | Case_pdf_rejected text w' :
      is_Some (fs w !! path) →
      lower (suffix path) = ".pdf" →
      fs w !! sibling_md path = None →
      pdf_extract path ocr_func use_ocr w = (inr text, w') →
      quality_passes qc text = false →
      conv_case path qc ocr_func use_ocr w
        (inl (ConversionError
                ("Extracted text for " +:+ str path
                 +:+ " failed quality check")),
         mkWorld (fs w') (trace w' ++ quality_events qc text))
  | Case_pdf_written text w' :
      is_Some (fs w !! path) →
      lower (suffix path) = ".pdf" →
      fs w !! sibling_md path = None →
      pdf_extract path ocr_func use_ocr w = (inr text, w') →
      quality_passes qc text = true →
      conv_case path qc ocr_func use_ocr w
        (inr (sibling_md path),
         mkWorld (<[sibling_md path := text]> (fs w'))
           (trace w' ++ quality_events qc text
              ++ [EvWriteText (sibling_md path) text])).

(** ** main.py *)

(** The body of the loop of [_gather_markdown_files] for one path. *)
Definition gather_one (use_ocr : bool) (path : Path)
    (markdown_texts : list string) : M (list string) :=
  let suffix := lower (suffix path) in
  if decide (suffix ∈ [".md"; ".txt"; ".pdf"]) then
    except_ConversionError
      (md_path ← convert_to_markdown path None
                   (if use_ocr then Some llm_ocr else None)
                   (if decide (suffix = ".pdf") then use_ocr else false);
       text ← read_text md_path;
       mret (markdown_texts ++ [text]))
      (λ exc, emit (EvWarn path exc);; mret markdown_texts)
  else mret markdown_texts.

(** [_gather_markdown_files], from the regular files that
    [sorted(base_dir.rglob("*"))] lists (none when [base_dir] does not
    exist). *)
Fixpoint gather_loop (use_ocr : bool) (listing : list Path)
    (markdown_texts : list string) : M (list string) :=
  match listing with
  | [] => mret markdown_texts
  | path :: rest =>
      gather_one use_ocr path markdown_texts ≫= gather_loop use_ocr rest
  end.

Definition _gather_markdown_files (listing : list Path) (use_ocr : bool)
    : M (list string) :=
  gather_loop use_ocr listing [].

Definition _load_cheatsheet (course_dir : Path) (use_ocr : bool)
    : M string :=
  let md_path := joinpath course_dir "cheatsheet.md" in
  let pdf_path := joinpath course_dir "cheatsheet.pdf" in
  has_md ← path_exists md_path;
  if (has_md : bool) then read_text md_path
  else
    has_pdf ← path_exists pdf_path;
    if (has_pdf : bool) then
      md_converted ←
        except_ConversionError
          (convert_to_markdown pdf_path None
             (if use_ocr then Some llm_ocr else None) use_ocr)
          (λ exc, raise (SystemExit
             ("Failed to convert cheatsheet PDF: " +:+ exc)));
      read_text md_converted
    else
      raise (SystemExit
        ("No cheatsheet.md or cheatsheet.pdf found in " +:+ str course_dir)).

(** ** The entry point of file_to_md.py, continued *)

(** The body under [if __name__ == "__main__"], from the parsed
    arguments [path] and [--ocr] to the path that is printed. *)
Definition file_to_md_main (path : Path) (ocr : bool) : M Path :=
  let src := path in
  let ocr_cb := if ocr then Some llm_ocr else None in
  convert_to_markdown src (Some _dummy_quality_checker) ocr_cb ocr.

(** * Properties *)

(** ** Strings *)

Lemma app_nil (t : string) : "" +:+ t = t.
Proof. reflexivity. Qed.

Lemma app_cons (c : ascii) (s t : string) :
  String c s +:+ t = String c (s +:+ t).
Proof. reflexivity. Qed.

Ltac ssimpl := repeat (progress (rewrite ?app_cons, ?app_nil; simpl)).

Lemma app_empty_r (s : string) : s +:+ "" = s.
Proof. induction s as [|c s IH]; ssimpl; [done | by rewrite IH]. Qed.

Lemma app_assoc_s (a b c : string) : (a +:+ b) +:+ c = a +:+ b +:+ c.
Proof. induction a as [|x a IH]; ssimpl; [done | by rewrite IH]. Qed.

Lemma app_length_s (a b : string) :
  String.length (a +:+ b) = String.length a + String.length b.
Proof. induction a as [|x a IH]; ssimpl; [done | by rewrite IH]. Qed.

Lemma lstrip_split (s : string) :
  ∃ pre, s = pre +:+ lstrip s ∧ all_space pre = true.
Proof.
  induction s as [|c s (pre & Hs & Hpre)]; simpl.
  - by exists "".
  - destruct (isspace c) eqn:Hc.
    + exists (String c pre). rewrite app_cons, <- Hs. simpl.
      by rewrite Hc, Hpre.
    + by exists "".
Qed.

Lemma lstrip_head (s : string) c :
  head_char (lstrip s) = Some c → isspace c = false.
Proof.
  induction s as [|a s IH]; simpl; [done |].
  destruct (isspace a) eqn:Ha; [done |]. simpl. congruence.
Qed.

Lemma rstrip_split (s : string) :
  ∃ post, s = rstrip s +:+ post ∧ all_space post = true.
Proof.
  induction s as [|c s (post & Hs & Hpost)]; simpl.
  - by exists "".
  - destruct (rstrip s) as [|a r] eqn:Hr.
    + rewrite app_nil in Hs. subst post. destruct (isspace c) eqn:Hc.
      * exists (String c s). simpl. by rewrite Hc, Hpost.
      * exists s. done.
    + exists post. rewrite app_cons, <- Hs. done.
Qed.

Lemma rstrip_last (s : string) c :
  last_char (rstrip s) = Some c → isspace c = false.
Proof.
  induction s as [|a s IH]; simpl; [done |].
  destruct (rstrip s) as [|b r] eqn:Hr.
  - destruct (isspace a) eqn:Ha; simpl; [done | congruence].
  - intros H. apply IH. exact H.
Qed.

Lemma rstrip_head (s : string) c :
  (∀ a, head_char s = Some a → isspace a = false) →
  head_char (rstrip s) = Some c → head_char s = Some c.
Proof.
  destruct s as [|a s]; simpl; [done |]. intros Hh.
  destruct (rstrip s); [|done].
  rewrite (Hh a eq_refl). done.
Qed.

(** What [strip] returns: the text between a whitespace prefix and a
    whitespace suffix, itself neither starting nor ending in whitespace. *)
Lemma strip_spec (s : string) :
  (∃ pre post, s = pre +:+ strip s +:+ post
               ∧ all_space pre = true ∧ all_space post = true)
  ∧ (∀ c, head_char (strip s) = Some c → isspace c = false)
  ∧ (∀ c, last_char (strip s) = Some c → isspace c = false).
Proof.
  unfold strip. split; [|split].
  - destruct (lstrip_split s) as (pre & Hs & Hpre).
    destruct (rstrip_split (lstrip s)) as (post & Hl & Hpost).
    exists pre, post. split; [|done]. by rewrite <- Hl.
  - intros c Hc. apply (lstrip_head s).
    apply rstrip_head; [apply lstrip_head | done].
  - apply rstrip_last.
Qed.

(** ** Paths *)

Lemma rfind_ge (c : ascii) (s : string) : (-1 ≤ rfind c s)%Z.
Proof.
  induction s as [|a s IH]; simpl; [lia |].
  destruct (0 <=? rfind c s)%Z eqn:H; [lia |]. destruct (Ascii.eqb a c); lia.
Qed.

Lemma rfind_lt (c : ascii) (s : string) :
  (rfind c s < Z.of_nat (String.length s))%Z.
Proof.
  induction s as [|a s IH]; simpl String.length; simpl rfind; [lia |].
  destruct (0 <=? rfind c s)%Z eqn:H; [lia |]. destruct (Ascii.eqb a c); lia.
Qed.

Lemma rfind_app (c : ascii) (s t : string) :
  (0 ≤ rfind c t)%Z →
  rfind c (s +:+ t) = (Z.of_nat (String.length s) + rfind c t)%Z.
Proof.
  intros Ht. induction s as [|a s IH]; [simpl; rewrite app_nil; lia |].
  rewrite app_cons. simpl rfind. rewrite IH.
  change (String.length (String a s)) with (S (String.length s)).
  destruct (0 <=? _)%Z eqn:H; lia.
Qed.

Lemma stake_app (s t : string) : stake (String.length s) (s +:+ t) = s.
Proof.
  induction s as [|a s IH]; [by destruct t |].
  rewrite app_cons. simpl. by rewrite IH.
Qed.

Lemma sdrop_app (s t : string) : sdrop (String.length s) (s +:+ t) = t.
Proof.
  induction s as [|a s IH]; [by destruct t |]. rewrite app_cons. done.
Qed.

Lemma stake_sdrop (n : nat) (s : string) : stake n s +:+ sdrop n s = s.
Proof.
  revert s. induction n as [|n IH]; intros [|a s]; simpl; try done.
  by rewrite app_cons, IH.
Qed.

Lemma stake_length (n : nat) (s : string) :
  n ≤ String.length s → String.length (stake n s) = n.
Proof.
  revert s. induction n as [|n IH]; intros [|a s]; simpl; try lia.
  intros H. rewrite IH; lia.
Qed.

Lemma suffix_index_bound (nm : string) i :
  suffix_index nm = Some i → 0 < i ∧ i + 1 < String.length nm.
Proof.
  unfold suffix_index. case_match eqn:H; [|done]. intros [= <-].
  rewrite andb_true_iff, !Z.ltb_lt in H. pose proof (rfind_lt "." nm). lia.
Qed.

Lemma suffix_index_md (s : string) :
  s ≠ "" → suffix_index (s +:+ ".md") = Some (String.length s).
Proof.
  intros Hs. unfold suffix_index.
  rewrite rfind_app by (simpl; lia). rewrite app_length_s. simpl rfind.
  simpl String.length.
  assert (0 < String.length s) as Hpos by (destruct s; [done | simpl; lia]).
  case_match eqn:H.
  - f_equal. lia.
  - rewrite andb_false_iff, !Z.ltb_ge in H. lia.
Qed.

Lemma stem_nonempty (p : Path) : name p ≠ "" → stem p ≠ "".
Proof.
  intros Hn. unfold stem. destruct (suffix_index (name p)) as [i|] eqn:Hi; [|done].
  apply suffix_index_bound in Hi as [H1 H2].
  intros Hs. assert (H := stake_length i (name p)). rewrite Hs in H.
  simpl in H. lia.
Qed.

Lemma stem_suffix (p : Path) : stem p +:+ suffix p = name p.
Proof.
  unfold stem, suffix. destruct (suffix_index (name p)) as [i|].
  - apply stake_sdrop.
  - apply app_empty_r.
Qed.

Lemma suffix_nonempty_name (p : Path) : suffix p ≠ "" → name p ≠ "".
Proof.
  intros Hs Hn. apply Hs. unfold suffix. rewrite Hn. done.
Qed.

(** [with_suffix(".md")] keeps the parent and the stem. *)
Lemma with_suffix_md_sibling (p : Path) :
  name p ≠ "" → with_suffix_md p = inr (sibling_md p).
Proof.
  intros Hn. unfold with_suffix_md, sibling_md.
  destruct (decide (name p = "")) as [|_]; [done |]. do 2 f_equal.
  unfold suffix, stem.
  destruct (suffix_index (name p)) as [i|] eqn:Hi.
  - pose proof (suffix_index_bound _ _ Hi) as [H1 H2].
    assert (String.length (sdrop i (name p)) = String.length (name p) - i) as Hl.
    { pose proof (stake_sdrop i (name p)) as E.
      apply (f_equal String.length) in E. rewrite app_length_s in E.
      rewrite stake_length in E by lia. lia. }
    destruct (decide (sdrop i (name p) = "")) as [E|_].
    { rewrite E in Hl. simpl in Hl. lia. }
    rewrite Hl. do 2 f_equal. lia.
  - done.
Qed.

Lemma with_suffix_md_empty (p : Path) :
  name p = "" →
  with_suffix_md p = inl (ValueError (Path_repr p +:+ " has an empty name")).
Proof. intros Hn. unfold with_suffix_md. by rewrite decide_True. Qed.

Lemma sibling_md_stem (p : Path) : name p ≠ "" → stem (sibling_md p) = stem p.
Proof.
  intros Hn. unfold stem at 1. simpl.
  rewrite suffix_index_md by by apply stem_nonempty. apply stake_app.
Qed.

Lemma sibling_md_suffix (p : Path) : name p ≠ "" → suffix (sibling_md p) = ".md".
Proof.
  intros Hn. unfold suffix at 1. simpl.
  rewrite suffix_index_md by by apply stem_nonempty. apply sdrop_app.
Qed.

Lemma lower_nonempty (s : string) : lower s ≠ "" → s ≠ "".
Proof. by intros H ->. Qed.

(** ** The paths through [convert_to_markdown] *)

Lemma world_eta (w : world) : mkWorld (fs w) (trace w) = w.
Proof. by destruct w. Qed.

Lemma quality_rejects_run (qc : option QualityChecker) (text : string) w :
quality_rejects qc text w
= (inr (negb (quality_passes qc text)),
   mkWorld (fs w) (trace w ++ quality_events qc text)).
Proof.
destruct qc as [check|]; simpl.
- done.
- unfold mret, M_ret. by rewrite app_nil_r, world_eta.
Qed.

Lemma convert_to_markdown_cases path qc ocr_func use_ocr w :
  conv_case path qc ocr_func use_ocr w
    (convert_to_markdown path qc ocr_func use_ocr w).
Proof.
  unfold convert_to_markdown, mbind, M_bind, path_exists at 1; simpl.
  case_bool_decide as Hsrc; simpl.
  2:{ apply Case_missing. by apply eq_None_not_Some. }
  unfold mret at 1, M_ret.
  destruct (decide (lower (suffix path) = ".md")) as [Hmd|Hmd].
  { by apply Case_markdown. }
  destruct (decide (lower (suffix path) = ".txt")) as [Htxt|Htxt].
  - assert (name path ≠ "") as Hn.
    { apply suffix_nonempty_name, lower_nonempty. by rewrite Htxt. }
    rewrite with_suffix_md_sibling by done. unfold lift, path_exists; simpl.
    case_bool_decide as Hsib; simpl.
    { by apply Case_reuse. }
    apply eq_None_not_Some in Hsib.
    destruct Hsrc as [text Hsrc]. unfold read_text, open_file. rewrite Hsrc.
    rewrite quality_rejects_run. simpl.
    destruct (quality_passes qc (strip text +:+ nl)) eqn:Hq; simpl.
    + unfold write_text, mret, M_ret; simpl. rewrite <- !app_assoc.
      by apply Case_txt_written.
    + unfold raise. rewrite <- !app_assoc. by apply Case_txt_rejected.
  - destruct (decide (name path = "")) as [Hn|Hn].
    { rewrite with_suffix_md_empty by done. unfold lift.
      by apply Case_empty_name. }
    rewrite with_suffix_md_sibling by done. unfold lift, path_exists; simpl.
    case_bool_decide as Hsib; simpl.
    { by apply Case_reuse. }
    apply eq_None_not_Some in Hsib.
    destruct (decide (lower (suffix path) = ".pdf")) as [Hpdf|Hpdf].
    + fold (pdf_extract path ocr_func use_ocr).
      destruct (pdf_extract path ocr_func use_ocr w) as [[e|text] w'] eqn:Hx.
      { by apply Case_extract_failed. }
      rewrite quality_rejects_run. simpl.
      destruct (quality_passes qc text) eqn:Hq; simpl.
      * unfold write_text, mret, M_ret; simpl. rewrite <- !app_assoc.
        by eapply Case_pdf_written.
      * unfold raise. by eapply Case_pdf_rejected.
    + unfold raise. apply Case_unsupported; try done.
      rewrite !elem_of_cons, elem_of_nil. tauto.
Qed.


(** ** Text-layer extraction *)

Lemma numbered_from_cons start text texts :
  numbered_from start (text :: texts)
  = (start, strip text) :: numbered_from (S start) texts.
Proof. reflexivity. Qed.

Lemma page_sections_cons n clean pages :
  page_sections ((n, clean) :: pages)
  = (if decide (clean = "") then [] else section_lines n clean)
    ++ page_sections pages.
Proof.
  unfold page_sections. rewrite filter_cons. unfold has_text at 1. simpl.
  destruct (decide (clean = "")) as [->|Hc].
  - by rewrite decide_False by (intros H; by apply H).
  - by rewrite decide_True by done.
Qed.

Lemma text_loop_sections idx texts lines :
  text_loop idx texts lines
  = lines ++ page_sections (numbered_from idx texts).
Proof.
  revert idx lines. induction texts as [|text texts IH]; intros idx lines.
  - simpl. by rewrite app_nil_r.
  - simpl text_loop. rewrite numbered_from_cons, page_sections_cons.
    destruct (decide (strip text = "")); rewrite IH; [done |].
    by rewrite <- app_assoc.
Qed.

Lemma page_sections_nil pages :
  page_sections pages = [] ↔ Forall (λ page, page.2 = "") pages.
Proof.
  induction pages as [|[n clean] pages IH].
  - split; [constructor | done].
  - rewrite page_sections_cons, Forall_cons. simpl.
    destruct (decide (clean = "")) as [->|Hc]; simpl.
    + rewrite IH. tauto.
    + split; [done | tauto].
Qed.

Lemma numbered_from_blank start texts :
  Forall (λ page, page.2 = "") (numbered_from start texts)
  ↔ Forall (λ text, strip text = "") texts.
Proof.
  revert start. induction texts as [|text texts IH]; intros start.
  - split; constructor.
  - rewrite numbered_from_cons, !Forall_cons, IH. done.
Qed.

(** The loop over the pages of the reader. *)
Lemma extract_loop_acc pages acc :
  extract_loop pages acc
  = match extract_loop pages [] with
    | inl e => inl e
    | inr page_texts => inr (acc ++ page_texts)
    end.
Proof.
  revert acc. induction pages as [|[e|text] pages IH]; intros acc; simpl.
  - by rewrite app_nil_r.
  - done.
  - rewrite (IH (acc ++ _)), (IH [default "" text]).
    destruct (extract_loop pages []); [done |]. by rewrite <- app_assoc.
Qed.

Lemma extract_loop_inl pages acc e :
  extract_loop pages acc = inl e → inl e ∈ pages.
Proof.
  revert acc. induction pages as [|[e'|text] pages IH]; intros acc; simpl.
  - done.
  - intros [= ->]. by left.
  - intros ?%IH. by right.
Qed.

Lemma extract_loop_texts texts acc :
  extract_loop (inr <$> texts) acc = inr (acc ++ (default "" <$> texts)).
Proof.
  revert acc. induction texts as [|text texts IH]; intros acc; simpl.
  - by rewrite app_nil_r.
  - rewrite IH. by rewrite <- app_assoc.
Qed.

Lemma text_extract_run PdfReader content reader_pages page_texts pdf_path w :
  pypdf = Some PdfReader →
  fs w !! pdf_path = Some content →
  PdfReader content = inr reader_pages →
  extract_loop reader_pages [] = inr page_texts →
  _convert_pdf_to_markdown_text pdf_path w
  = (let lines := page_sections (numbered_from 1 page_texts) in
     if decide (lines = []) then
       inl (ConversionError
              ("No usable text extracted from PDF: " +:+ str pdf_path))
     else inr (join nl lines),
     mkWorld (fs w) (trace w ++ [EvPdfReader pdf_path])).
Proof.
  intros Hpy Hsrc Hreader Hloop. unfold _convert_pdf_to_markdown_text.
  rewrite Hpy. unfold mbind, M_bind, open_file, lift.
  rewrite Hsrc, Hreader, Hloop.
  rewrite text_loop_sections. simpl.
  by destruct (decide (page_sections _ = [])).
Qed.

(** The text path when the library raises, on the document or on the
    first page that it cannot read. *)
Lemma text_extract_raises PdfReader content pdf_path w e :
  pypdf = Some PdfReader →
  fs w !! pdf_path = Some content →
  PdfReader content = inl e
  ∨ (∃ reader_pages, PdfReader content = inr reader_pages
                     ∧ extract_loop reader_pages [] = inl e) →
  _convert_pdf_to_markdown_text pdf_path w
  = (inl e, mkWorld (fs w) (trace w ++ [EvPdfReader pdf_path])).
Proof.
  intros Hpy Hsrc Hraise. unfold _convert_pdf_to_markdown_text.
  rewrite Hpy. unfold mbind, M_bind, open_file, lift. rewrite Hsrc.
  destruct Hraise as [->|(reader_pages & -> & ->)]; done.
Qed.

Lemma text_extract_world pdf_path w r w' :
  _convert_pdf_to_markdown_text pdf_path w = (r, w') →
  fs w' = fs w
  ∧ ∃ evs, trace w' = trace w ++ evs
           ∧ Forall (λ e, extraction_event e = true ∧ ocr_event e = false) evs.
Proof.
  unfold _convert_pdf_to_markdown_text.
  destruct pypdf as [PdfReader|].
  - unfold mbind, M_bind, open_file, lift.
    destruct (fs w !! pdf_path) as [content|].
    + destruct (PdfReader content) as [e|reader_pages];
        [|destruct (extract_loop reader_pages []) as [e|page_texts];
          [|destruct (decide _)]];
        intros [= <- <-]; simpl;
        (split; [done | exists [EvPdfReader pdf_path]; by repeat constructor]).
    + intros [= <- <-]. split; [done |]. exists []. by rewrite app_nil_r.
  - intros [= <- <-]. split; [done |]. exists []. by rewrite app_nil_r.
Qed.

(** ** OCR extraction *)

Lemma emit_all_run evs w :
  emit_all evs w = (inr tt, mkWorld (fs w) (trace w ++ evs)).
Proof.
  revert w. induction evs as [|e evs IH]; intros w; simpl.
  - unfold mret, M_ret. by rewrite app_nil_r, world_eta.
  - unfold mbind, M_bind, emit. rewrite IH. simpl. by rewrite <- app_assoc.
Qed.

Lemma dict_set_fresh k v (d : dict) :
  k ∉ (d.*1) → dict_set k v d = d ++ [(k, v)].
Proof.
  induction d as [|[k' v'] d IH]; simpl; [done |].
  rewrite not_elem_of_cons. intros [Hk Hd].
  rewrite decide_False by done. by rewrite IH.
Qed.

(** A document is its images when every page renders. *)
Lemma rendered_images (doc : list (exn + string)) images :
  rendered doc = Some images ↔ doc = inr <$> images.
Proof.
  unfold rendered. revert images.
  induction doc as [|[e|img] doc IH]; intros images.
  - rewrite mapM_Some. split.
    + intros ->%Forall2_nil_inv_l. done.
    + intros E. symmetry in E. apply fmap_nil_inv in E as ->. constructor.
  - split; [done |]. by destruct images.
  - simpl. destruct (mapM _ doc) as [imgs|] eqn:Hm; simpl.
    + split.
      * intros [= <-]. rewrite fmap_cons. f_equal. by apply IH.
      * destruct images as [|img' images]; [done |]. rewrite fmap_cons.
        intros [= -> Hd]. f_equal. f_equal.
        apply IH in Hd. congruence.
    + split; [done |]. destruct images as [|img' images]; [done |].
      rewrite fmap_cons. intros [= -> Hd]. apply IH in Hd. congruence.
Qed.

Section Pages.

Variable images : list string.
Variable ocr : OcrFunc.

Lemma page_renders i :
  default (inr "") ((inr <$> images : list (exn + string)) !! i)
  = inr (default "" (images !! i)).
Proof. rewrite list_lookup_fmap. by destruct (images !! i). Qed.

Lemma task_rendered i :
  _render_and_ocr (inr <$> images) ocr i
  = match ocr (default "" (images !! i)) with
    | inl e => inl e
    | inr text => inr (i, strip (default "" text))
    end.
Proof. unfold _render_and_ocr. by rewrite page_renders. Qed.

Lemma ocr_calls_rendered (order : list nat) :
  order ≫= ocr_call (inr <$> images)
  = (λ i, EvOcr i (default "" (images !! i))) <$> order.
Proof.
  induction order as [|i order IH]; [done |].
  rewrite bind_cons, fmap_cons, IH. unfold ocr_call at 1.
  by rewrite page_renders.
Qed.

Lemma task_returns i :
  i < length images → ocr_total images ocr →
  _render_and_ocr (inr <$> images) ocr i = inr (keyed images ocr i).
Proof.
  intros Hi Hall. apply lookup_lt_is_Some in Hi as [img Himg].
  unfold ocr_total in Hall. rewrite Forall_lookup in Hall.
  specialize (Hall i img Himg). unfold ocr_returns in Hall.
  rewrite task_rendered. unfold keyed, page_clean. rewrite Himg. simpl.
  by destruct (ocr img).
Qed.

Lemma tasks_return order :
  Forall (λ i, i < length images) order → ocr_total images ocr →
  _render_and_ocr (inr <$> images) ocr <$> order
  = inr <$> (keyed images ocr <$> order).
Proof.
  intros Hlt Hall. induction Hlt as [|i order Hi _ IH]; [done |].
  rewrite !fmap_cons, IH. by rewrite task_returns.
Qed.

Lemma keyed_keys (l : list nat) : (keyed images ocr <$> l).*1 = l.
Proof. induction l as [|i l IH]; [done |]. rewrite !fmap_cons, IH. done. Qed.

Lemma collect_fresh order (acc : dict) :
  NoDup (acc.*1 ++ order) →
  collect (inr <$> (keyed images ocr <$> order)) acc
  = inr (acc ++ (keyed images ocr <$> filter (kept images ocr) order)).
Proof.
  revert acc. induction order as [|i order IH]; intros acc Hnd.
  - simpl. by rewrite app_nil_r.
  - rewrite !fmap_cons. simpl collect. rewrite filter_cons.
    assert ((i ∉ acc.*1) ∧ NoDup (acc.*1 ++ order)) as [Hi Hnd'].
    { apply NoDup_app in Hnd as (Ha & Hd & Ho). apply NoDup_cons in Ho as [? ?].
      split.
      - intros Hin. apply (Hd i Hin). by left.
      - apply NoDup_app. split_and!; [done | | done].
        intros x Hx Hx'. apply (Hd x Hx). by right. }
    destruct (decide (page_clean images ocr i = "")) as [He|He].
    + rewrite decide_False by (unfold kept; tauto). by apply IH.
    + rewrite decide_True by done. rewrite dict_set_fresh by done.
      rewrite IH.
      * by rewrite <- app_assoc.
      * rewrite fmap_app. simpl. rewrite <- app_assoc. simpl.
        apply NoDup_app in Hnd as (Ha & Hd & Ho).
        apply NoDup_app. split_and!; [done | | done].
        intros x Hx. by apply Hd.
Qed.

Lemma dict_get_keyed k (l : list nat) :
  k ∈ l →
  dict_get k (keyed images ocr <$> l) = Some (page_clean images ocr k).
Proof.
  induction l as [|i l IH]; [by intros ?%elem_of_nil |].
  rewrite fmap_cons. simpl.
  destruct (decide (k = i)) as [->|Hne]; [done |].
  intros [?|?]%elem_of_cons; [done | by apply IH].
Qed.

Lemma ocr_loop_keyed (keys l : list nat) lines :
  keys ⊆ l →
  ocr_loop keys (keyed images ocr <$> l) lines
  = lines
    ++ (keys ≫= (λ i, section_lines (i + 1) (page_clean images ocr i))).
Proof.
  revert lines. induction keys as [|i keys IH]; intros lines Hsub.
  - simpl. by rewrite app_nil_r.
  - simpl ocr_loop. rewrite IH by set_solver.
    rewrite dict_get_keyed by set_solver. simpl default.
    rewrite bind_cons. by rewrite <- app_assoc.
Qed.

Lemma page_sections_shift (l : list nat) :
  page_sections ((λ i, (i + 1, page_clean images ocr i)) <$> l)
  = filter (kept images ocr) l
    ≫= (λ i, section_lines (i + 1) (page_clean images ocr i)).
Proof.
  induction l as [|i l IH]; [done |].
  rewrite fmap_cons, page_sections_cons, filter_cons, IH.
  destruct (decide (page_clean images ocr i = "")) as [He|He].
  - by rewrite decide_False by (unfold kept; tauto).
  - rewrite decide_True by done. by rewrite bind_cons.
Qed.

End Pages.

Lemma StronglySorted_filter {A} (R : relation A) (P : A → Prop)
    `{!∀ x, Decision (P x)} (l : list A) :
  StronglySorted R l → StronglySorted R (filter P l).
Proof.
  induction 1 as [|x l Hl IH Hx]; [constructor |].
  rewrite filter_cons. destruct (decide (P x)); [|done].
  constructor; [done |]. rewrite Forall_forall in Hx |- *.
  intros y Hy%list_elem_of_filter. apply Hx. tauto.
Qed.

Lemma StronglySorted_seq start n : StronglySorted lt (seq start n).
Proof.
  revert start. induction n as [|n IH]; intros start; simpl; constructor.
  - apply IH.
  - apply Forall_seq. lia.
Qed.

Lemma StronglySorted_lt_le (l : list nat) :
  StronglySorted lt l → Sorted le l.
Proof.
  intros H. apply StronglySorted_Sorted.
  induction H as [|x l Hl IH Hx]; constructor; [done |].
  eapply Forall_impl; [exact Hx |]. simpl. lia.
Qed.

(** The keys of the results in ascending order are the kept page indices
    in page order, whatever the order of insertion. *)
Lemma sorted_keys (P : nat → Prop) `{!∀ i, Decision (P i)} order n :
  order ≡ₚ seq 0 n →
  merge_sort (≤) (filter P order) = filter P (seq 0 n).
Proof.
  intros Hperm. apply (Sorted_unique (≤)).
  - apply Sorted_merge_sort. apply _.
  - apply StronglySorted_lt_le, StronglySorted_filter, StronglySorted_seq.
  - rewrite merge_sort_Permutation. by rewrite Hperm.
Qed.

Ltac in_list :=
  repeat first [apply list_elem_of_here | apply list_elem_of_further].

Lemma bind_sections_nil (l : list nat) (f : nat → nat * string) :
  (l ≫= (λ i, section_lines (f i).1 (f i).2)) = [] ↔ l = [].
Proof. destruct l; [done |]. rewrite bind_cons. done. Qed.

(** A run of the OCR path on a document whose pages all render and on
    which no page makes the OCR function raise: the merged text is that
    of the pages in page order, for every order of completion. *)
Lemma ocr_extract_run fitz_open ocr content images pdf_path w :
  fitz = Some fitz_open →
  fs w !! pdf_path = Some content →
  fitz_open content = inr (inr <$> images) →
  as_completed (seq 0 (length images)) ≡ₚ seq 0 (length images) →
  images ≠ [] →
  ocr_total images ocr →
  _convert_pdf_to_markdown_ocr pdf_path (Some ocr) w
  = (let lines := page_sections (ocr_pages images ocr) in
     if decide (lines = []) then
       inl (ConversionError
              ("OCR produced no content for PDF: " +:+ str pdf_path))
     else inr (join nl lines),
     mkWorld (fs w)
       (trace w ++ EvFitzOpen pdf_path
          :: ((λ i, EvOcr i (default "" (images !! i)))
                <$> as_completed (seq 0 (length images))))).
Proof.
  intros Hfitz Hsrc Hopen Hperm Hpages Htotal.
  unfold _convert_pdf_to_markdown_ocr. rewrite Hfitz.
  unfold mbind, M_bind, open_file, lift. rewrite Hsrc, Hopen.
  rewrite length_fmap.
  set (order := as_completed (seq 0 (length images))) in *.
  rewrite decide_False by (by destruct images).
  rewrite emit_all_run. simpl fs. simpl trace.
  rewrite ocr_calls_rendered.
  rewrite tasks_return; [| |done].
  2:{ rewrite Hperm. apply Forall_seq. lia. }
  rewrite collect_fresh.
  2:{ simpl. rewrite Hperm. apply NoDup_seq. }
  rewrite !app_nil_l. unfold ocr_pages. rewrite page_sections_shift.
  rewrite <- app_assoc. simpl app.
  assert (filter (kept images ocr) order
          ≡ₚ filter (kept images ocr) (seq 0 (length images))) as Hkeys
    by (by rewrite Hperm).
  destruct (decide (keyed images ocr <$> filter (kept images ocr) order = []))
    as [Hnil|Hnil].
  - apply fmap_nil_inv in Hnil. rewrite Hnil in Hkeys.
    symmetry in Hkeys. apply Permutation_nil_r in Hkeys. rewrite Hkeys.
    done.
  - unfold sorted. rewrite keyed_keys.
    rewrite (sorted_keys _ _ _ Hperm).
    rewrite ocr_loop_keyed.
    2:{ intros i Hi. by rewrite Hkeys. }
    rewrite app_nil_l.
    rewrite decide_False; [done |].
    intros Hb. apply Hnil.
    destruct (filter (kept images ocr) (seq 0 (length images))) eqn:E.
    + apply Permutation_nil_r in Hkeys. by rewrite Hkeys.
    + by rewrite bind_cons in Hb.
Qed.

(** What [collect] returns when it returns. *)
Lemma collect_inr completed acc results :
  collect completed acc = inr results →
  ∃ pairs, completed = inr <$> pairs.
Proof.
  revert acc. induction completed as [|[e|[i c]] completed IH]; intros acc.
  - by exists [].
  - done.
  - simpl. intros (pairs & ->)%IH. by exists ((i, c) :: pairs).
Qed.

Lemma collect_inl completed acc e :
  collect completed acc = inl e → inl e ∈ completed.
Proof.
  revert acc. induction completed as [|[e'|[i c]] completed IH]; intros acc.
  - done.
  - simpl. intros [= ->]. by left.
  - simpl. intros ?%IH. by right.
Qed.

(** The exception of a page task is one of the rendering of a page of
    the document or one of the OCR function. *)
Lemma task_raises doc ocr i e :
  _render_and_ocr doc ocr i = inl e →
  inl e ∈ doc ∨ ∃ image_bytes, ocr image_bytes = inl e.
Proof.
  unfold _render_and_ocr.
  destruct (doc !! i) as [[e'|img]|] eqn:Hi; simpl.
  - intros [= ->]. left. by eapply list_elem_of_lookup_2.
  - destruct (ocr img) eqn:Ho; [|done]. intros [= ->]. right. eauto.
  - destruct (ocr "") eqn:Ho; [|done]. intros [= ->]. right. eauto.
Qed.

Lemma ocr_calls_events doc (order : list nat) :
  Forall (λ e, extraction_event e = true) (order ≫= ocr_call doc).
Proof.
  induction order as [|i order IH]; [constructor |].
  rewrite bind_cons. apply Forall_app_2; [|done].
  unfold ocr_call. destruct (default _ _); by repeat constructor.
Qed.

(** The exceptions and the world of a run of the OCR path. *)
Lemma ocr_extract_world pdf_path ocr_func w r w' :
  is_Some (fs w !! pdf_path) →
  _convert_pdf_to_markdown_ocr pdf_path ocr_func w = (r, w') →
  fs w' = fs w
  ∧ (∃ evs, trace w' = trace w ++ evs
            ∧ Forall (λ e, extraction_event e = true) evs
            ∧ (ocr_func = None → evs = []))
  ∧ (∀ e, r = inl e →
       (∃ k, k ∈ [MissingOcrFunction; BackendUnavailable; NoExtractableText]
             ∧ (k, e) ∈ failures pdf_path)
       ∨ (∃ content, fs w !! pdf_path = Some content
                     ∧ library_raises content true e)
       ∨ (∃ ocr image_bytes, ocr_func = Some ocr ∧ ocr image_bytes = inl e)).
Proof.
  intros [content Hsrc]. unfold _convert_pdf_to_markdown_ocr.
  assert (fs w = fs w
      ∧ (∃ evs, trace w = trace w ++ evs
            ∧ Forall (λ e, extraction_event e = true) evs
            ∧ (ocr_func = None → evs = []))) as [Hfs Hev].
  { split; [done |]. exists []. by rewrite app_nil_r. }
  destruct ocr_func as [ocr|].
  2:{ intros [= <- <-]. split_and!; [done | done |]. intros e [= <-]. left.
      exists MissingOcrFunction. split; unfold failures; in_list. }
  destruct fitz as [fitz_open|] eqn:Hfitz.
  2:{ intros [= <- <-]. split_and!; [done | done |]. intros e [= <-]. left.
      exists BackendUnavailable. split; unfold failures; in_list. }
  unfold mbind, M_bind, open_file, lift. rewrite Hsrc.
  assert (∃ evs, trace w ++ [EvFitzOpen pdf_path] = trace w ++ evs
            ∧ Forall (λ e, extraction_event e = true) evs
            ∧ (Some ocr = None → evs = [])) as Hopened.
  { exists [EvFitzOpen pdf_path]. split_and!; [done | by repeat constructor | done]. }
  destruct (fitz_open content) as [e0|doc] eqn:Hopen.
  { intros [= <- <-]. simpl. split_and!; [done | done |].
    intros e [= <-]. right. left. exists content. split; [done |].
    simpl. exists fitz_open. split; [done |]. by left. }
  destruct (decide (length doc = 0)) as [Hz|Hz].
  { intros [= <- <-]. simpl. split_and!; [done | done |].
    intros e [= <-]. left.
    exists NoExtractableText. split; unfold failures; in_list. }
  rewrite emit_all_run. simpl fs. simpl trace.
  set (order := as_completed (seq 0 (length doc))).
  set (w1 := mkWorld (fs w) ((trace w ++ [EvFitzOpen pdf_path])
             ++ (order ≫= ocr_call doc))).
  assert (fs w1 = fs w
          ∧ ∃ evs, trace w1 = trace w ++ evs
              ∧ Forall (λ e, extraction_event e = true) evs
              ∧ (Some ocr = None → evs = [])) as [Hfs1 Hev1].
  { split; [done |]. unfold w1. simpl.
    eexists. rewrite <- app_assoc. split_and!; [done | | done].
    constructor; [done |]. apply ocr_calls_events. }
  destruct (collect (_render_and_ocr doc ocr <$> order) [])
    as [e|results] eqn:Hc.
  - intros [= <- <-]. split_and!; [done | done |]. intros e' [= <-]. right.
    apply collect_inl in Hc. apply list_elem_of_fmap in Hc as (i & Hi & _).
    symmetry in Hi. apply task_raises in Hi as [Hdoc|(img & Himg)].
    + left. exists content. split; [done |]. simpl.
      exists fitz_open. split; [done |]. right. eauto.
    + right. eauto.
  - unfold raise, mret, M_ret.
    case_decide; intros [= <- <-];
      (split_and!; [done | done |]); intros e' [= <-].
    left. exists NoExtractableText. split; unfold failures; in_list.
Qed.

Lemma text_extract_failures pdf_path w e w' :
  is_Some (fs w !! pdf_path) →
  _convert_pdf_to_markdown_text pdf_path w = (inl e, w') →
  (∃ k, k ∈ [BackendUnavailable; NoExtractableText]
        ∧ (k, e) ∈ failures pdf_path)
  ∨ (∃ content, fs w !! pdf_path = Some content
                ∧ library_raises content false e).
Proof.
  intros [content Hsrc]. unfold _convert_pdf_to_markdown_text.
  destruct pypdf as [PdfReader|] eqn:Hpy.
  - unfold mbind, M_bind, open_file, lift. rewrite Hsrc.
    destruct (PdfReader content) as [e0|reader_pages] eqn:Hreader.
    { intros [= <- <-]. right. exists content. split; [done |]. simpl.
      exists PdfReader. split; [done |]. by left. }
    destruct (extract_loop reader_pages []) as [e0|page_texts] eqn:Hloop.
    { intros [= <- <-]. right. exists content. split; [done |]. simpl.
      exists PdfReader. split; [done |]. right.
      exists reader_pages. split; [done |]. by eapply extract_loop_inl. }
    destruct (decide _); [|done]. intros [= <- <-]. left.
    exists NoExtractableText. split; unfold failures; in_list.
  - intros [= <- <-]. left.
    exists BackendUnavailable. split; unfold failures; in_list.
Qed.

(** Extraction leaves the file system alone, and all it adds to the trace
    are extraction events; without OCR none of them is an OCR call. *)
Lemma pdf_extract_world path ocr_func use_ocr w r w' :
  is_Some (fs w !! path) →
  pdf_extract path ocr_func use_ocr w = (r, w') →
  fs w' = fs w
  ∧ ∃ evs, trace w' = trace w ++ evs
           ∧ Forall (λ e, extraction_event e = true) evs
           ∧ (use_ocr = false → Forall (λ e, ocr_event e = false) evs)
           ∧ (ocr_func = None → Forall (λ e, ocr_event e = false) evs).
Proof.
  intros Hsrc. unfold pdf_extract. destruct use_ocr.
  - intros (Hfs & (evs & Ht & Hev & Hnone) & _)%ocr_extract_world; [|done].
    split; [done |]. exists evs. split_and!; [done | done | done |].
    intros ->%Hnone. constructor.
  - intros (Hfs & evs & Ht & Hev)%text_extract_world.
    split; [done |]. exists evs. split_and!; [done | | |].
    + eapply Forall_impl; [exact Hev |]. simpl. tauto.
    + intros _. eapply Forall_impl; [exact Hev |]. simpl. tauto.
    + intros _. eapply Forall_impl; [exact Hev |]. simpl. tauto.
Qed.

(** The failures of the extraction step: a check of the converter, an
    exception of the library of the mode in use, or, in OCR mode, an
    exception of the OCR function. *)
Lemma pdf_extract_failures path ocr_func use_ocr w e w' :
  is_Some (fs w !! path) →
  pdf_extract path ocr_func use_ocr w = (inl e, w') →
  (∃ k, k ∈ [MissingOcrFunction; BackendUnavailable; NoExtractableText]
        ∧ (k, e) ∈ failures path)
  ∨ (∃ content, fs w !! path = Some content
                ∧ library_raises content use_ocr e)
  ∨ (use_ocr = true
     ∧ ∃ ocr image_bytes, ocr_func = Some ocr ∧ ocr image_bytes = inl e).
Proof.
  intros Hsrc. unfold pdf_extract. destruct use_ocr.
  - intros (_ & _ & He)%ocr_extract_world; [|done].
    destruct (He e eq_refl) as [?|[?|?]]; [by left | by right; left |].
    by right; right.
  - intros [(k & Hk & He)|?]%text_extract_failures; [| |done].
    + left. exists k. split; [by apply list_elem_of_further | done].
    + by right; left.
Qed.

(** ** Properties of [convert_to_markdown] *)

(** Case analysis on a run [H : convert_to_markdown ... w = (r, w')]. *)
Ltac conv_cases H :=
  match type of H with
  | convert_to_markdown ?path ?qc ?ocr ?use ?w = _ =>
      let Hc := fresh "Hcase" in
      pose proof (convert_to_markdown_cases path qc ocr use w) as Hc;
      rewrite H in Hc; inversion Hc; clear Hc; simplify_eq
  end.

(** Paths that the hypotheses at hand exclude. *)
Ltac absurd_case :=
  solve
    [ congruence
    | match goal with
      | H : is_Some ?x, H' : ?x = None |- _ =>
          rewrite H' in H; by destruct H
      end
    | match goal with
      | H : ?a ∉ _, E : ?a = _ |- _ =>
          exfalso; apply H; rewrite E; in_list
      end
    | match goal with
      | H : name ?p = "", E : lower (suffix ?p) = _ |- _ =>
          exfalso; refine (suffix_nonempty_name p _ H);
          apply lower_nonempty; rewrite E; done
      end ].

Lemma is_Some_insert_keep (m : gmap Path string) p q s :
  is_Some (m !! p) → is_Some (<[q := s]> m !! p).
Proof.
  intros Hp. destruct (decide (q = p)) as [->|Hne].
  - rewrite lookup_insert_eq. eauto.
  - by rewrite lookup_insert_ne.
Qed.

(** C7. Plain-text normalization: for a [.txt] source without a derived
    sibling whose normalized text passes the gate (or with no gate), the
    call returns the sibling [.md] path and leaves the file system with
    that one file added, its content being the source text without its
    leading and trailing whitespace followed by one newline. *)
Theorem C7_plain_text_normalization path qc ocr_func use_ocr w text :
  fs w !! path = Some text →
  lower (suffix path) = ".txt" →
  fs w !! sibling_md path = None →
  quality_passes qc (strip text +:+ nl) = true →
  ∃ w',
    convert_to_markdown path qc ocr_func use_ocr w = (inr (sibling_md path), w')
    ∧ fs w' = <[sibling_md path := strip text +:+ nl]> (fs w)
    ∧ (∃ pre post, text = pre +:+ strip text +:+ post
                   ∧ all_space pre = true ∧ all_space post = true)
    ∧ (∀ c, head_char (strip text) = Some c → isspace c = false)
    ∧ (∀ c, last_char (strip text) = Some c → isspace c = false)
    ∧ parent (sibling_md path) = parent path
    ∧ stem (sibling_md path) = stem path
    ∧ suffix (sibling_md path) = ".md".
Proof.
  intros Hsrc Htxt Hsib Hq.
  assert (name path ≠ "") as Hn.
  { apply suffix_nonempty_name, lower_nonempty. by rewrite Htxt. }
  destruct (convert_to_markdown path qc ocr_func use_ocr w) as [r w'] eqn:Hrun.
  exists w'. conv_cases Hrun; try absurd_case.
  destruct (strip_spec text) as (Hsplit & Hhead & Hlast).
  split_and!; try done.
  - by apply sibling_md_stem.
  - by apply sibling_md_suffix.
Qed.
(** What a successful call returns. *)
Lemma convert_returns path qc ocr_func use_ocr w p w' :
  convert_to_markdown path qc ocr_func use_ocr w = (inr p, w') →
  stem p = stem path
  ∧ lower (suffix p) = ".md"
  ∧ is_Some (fs w' !! p)
  ∧ (lower (suffix path) = ".md" → p = path)
  ∧ (lower (suffix path) ≠ ".md" → p = sibling_md path).
Proof.
  intros Hrun. conv_cases Hrun.
  - split_and!; done.
  - split_and!; try done.
    + by apply sibling_md_stem.
    + by rewrite sibling_md_suffix.
  - assert (name path ≠ "") as Hn.
    { apply suffix_nonempty_name, lower_nonempty. congruence. }
    split_and!; try done; try congruence.
    + by apply sibling_md_stem.
    + by rewrite sibling_md_suffix.
    + simpl. rewrite lookup_insert_eq. eauto.
  - assert (name path ≠ "") as Hn.
    { apply suffix_nonempty_name, lower_nonempty. congruence. }
    split_and!; try done; try congruence.
    + by apply sibling_md_stem.
    + by rewrite sibling_md_suffix.
    + simpl. rewrite lookup_insert_eq. eauto.
Qed.

(** C10. Return-path invariant: a successful call returns a path with the
    stem of the source whose extension, lowercased, is [.md], and a file
    is there when the call returns: the source itself for [.md] inputs,
    the derived sibling otherwise. *)
Theorem C10_return_path_invariant path qc ocr_func use_ocr w p w' :
  convert_to_markdown path qc ocr_func use_ocr w = (inr p, w') →
  stem p = stem path
  ∧ lower (suffix p) = ".md"
  ∧ is_Some (fs w' !! p)
  ∧ (lower (suffix path) = ".md" → p = path)
  ∧ (lower (suffix path) ≠ ".md" → p = sibling_md path).
Proof. apply convert_returns. Qed.

(** A successful call leaves the source in place. *)
Lemma convert_keeps_source path qc ocr_func use_ocr w p w' :
  convert_to_markdown path qc ocr_func use_ocr w = (inr p, w') →
  is_Some (fs w' !! path).
Proof.
  intros Hrun. conv_cases Hrun; try done.
  - simpl. apply is_Some_insert_keep. eauto.
  - simpl. apply is_Some_insert_keep.
    match goal with
    | H : pdf_extract _ _ _ _ = _ |- _ =>
        apply pdf_extract_world in H as [-> _]; done
    end.
Qed.

(** With the source and its sibling in place the call returns the sibling
    and leaves the world as it is. *)
Lemma convert_reuse path qc ocr_func use_ocr w :
  is_Some (fs w !! path) →
  lower (suffix path) ≠ ".md" →
  name path ≠ "" →
  is_Some (fs w !! sibling_md path) →
  convert_to_markdown path qc ocr_func use_ocr w = (inr (sibling_md path), w).
Proof.
  intros Hsrc Hmd Hn Hsib.
  destruct (convert_to_markdown path qc ocr_func use_ocr w) as [r w'] eqn:Hrun.
  conv_cases Hrun; try absurd_case; done.
Qed.

(** C6. Standard reuse: for a [.txt] or [.pdf] source whose derived
    sibling exists, the call returns the sibling path and leaves the world
    as it is: nothing is extracted, the gate is not run, nothing is
    written.  Hence after a successful first call a second call on the
    same source, with whatever gate, OCR function and mode, returns the
    same path and changes nothing. *)
Theorem C6_standard_reuse_idempotence path qc ocr_func use_ocr w :
  is_Some (fs w !! path) →
  lower (suffix path) = ".txt" ∨ lower (suffix path) = ".pdf" →
  (is_Some (fs w !! sibling_md path) →
   convert_to_markdown path qc ocr_func use_ocr w
   = (inr (sibling_md path), w))
  ∧ (∀ p w1,
       convert_to_markdown path qc ocr_func use_ocr w = (inr p, w1) →
       p = sibling_md path
       ∧ ∀ qc' ocr_func' use_ocr',
           convert_to_markdown path qc' ocr_func' use_ocr' w1 = (inr p, w1)).
Proof.
  intros Hsrc Hsuffix.
  assert (lower (suffix path) ≠ ".md") as Hmd by (destruct Hsuffix; congruence).
  assert (name path ≠ "") as Hn.
  { apply suffix_nonempty_name, lower_nonempty. destruct Hsuffix; congruence. }
  split.
  - intros Hsib. by apply convert_reuse.
  - intros p w1 Hrun.
    pose proof (convert_keeps_source _ _ _ _ _ _ _ Hrun) as Hsrc1.
    apply convert_returns in Hrun as (_ & _ & Hp & _ & Heq).
    rewrite (Heq Hmd) in *. split; [done |].
    intros qc' ocr_func' use_ocr'. by apply convert_reuse.
Qed.

(** C8. Missing OCR function: for an existing PDF source without a
    derived sibling, OCR mode without an OCR function fails with the
    missing-OCR-function error and leaves the world as it is: no page is
    rendered, no OCR is attempted, nothing is written. *)
Theorem C8_missing_ocr_function path qc w :
  is_Some (fs w !! path) →
  lower (suffix path) = ".pdf" →
  fs w !! sibling_md path = None →
  convert_to_markdown path qc None true w
  = (inl (ConversionError
            "OCR conversion requested but no OCR function was provided"), w)
  ∧ (MissingOcrFunction,
     ConversionError
       "OCR conversion requested but no OCR function was provided")
    ∈ failures path.
Proof.
  intros Hsrc Hpdf Hsib. split; [|unfold failures; in_list].
  destruct (convert_to_markdown path qc None true w) as [r w'] eqn:Hrun.
  conv_cases Hrun; try absurd_case;
    match goal with
    | H : pdf_extract _ _ _ _ = _ |- _ =>
        unfold pdf_extract, _convert_pdf_to_markdown_ocr, raise in H;
        by simplify_eq
    end.
Qed.

Lemma quality_events_no_ocr qc text :
  Forall (λ e, ocr_event e = false) (quality_events qc text).
Proof. destruct qc; by repeat constructor. Qed.

Ltac no_ocr :=
  repeat first
    [ assumption
    | apply Forall_nil_2
    | apply quality_events_no_ocr
    | apply Forall_cons_2; [done |]
    | apply Forall_app_2 ].

(** C9. The OCR function does not interfere in text-layer mode: with
    [use_ocr] false the result and the world left behind are the same for
    every [ocr_func] argument, and no OCR call is added to the trace. *)
Theorem C9_ocr_noninterference path qc w :
  (∀ ocr_func ocr_func',
     convert_to_markdown path qc ocr_func false w
     = convert_to_markdown path qc ocr_func' false w)
  ∧ (∀ ocr_func r w',
       convert_to_markdown path qc ocr_func false w = (r, w') →
       ∃ evs, trace w' = trace w ++ evs
              ∧ Forall (λ e, ocr_event e = false) evs).
Proof.
  split; [done |].
  intros ocr_func r w' Hrun.
  assert (∃ evs, trace w = trace w ++ evs
                 ∧ Forall (λ e, ocr_event e = false) evs) as Hsame.
  { exists []. by rewrite app_nil_r. }
  conv_cases Hrun; try done; simpl;
    try (eexists; split; [done |]; by no_ocr);
    match goal with
    | H : pdf_extract _ _ _ _ = _ |- _ =>
        apply pdf_extract_world in H as (_ & evs & Ht & _ & Hno & _); [|done]
    end;
    specialize (Hno eq_refl); rewrite ?Ht, <- ?app_assoc;
    eexists; (split; [done |]); by no_ocr.
Qed.



Lemma extraction_not_write evs :
  Forall (λ e, extraction_event e = true) evs →
  Forall (λ e, write_event e = false) evs.
Proof.
  intros Hall. eapply Forall_impl; [exact Hall |].
  by intros [].
Qed.


(** ** The merged text *)

Lemma join_cons2 sep x y (l : list string) :
  join sep (x :: y :: l) = x +:+ sep +:+ join sep (y :: l).
Proof. reflexivity. Qed.

Lemma page_sections_filter pages :
  page_sections pages = page_sections (filter has_text pages).
Proof.
  unfold page_sections. f_equal. symmetry.
  induction pages as [|p pages IH]; [done |].
  rewrite filter_cons. destruct (decide (has_text p)); [|done].
  rewrite !filter_cons, decide_True by done. by rewrite IH.
Qed.

Lemma join_cons sep x (l : list string) :
  join sep (x :: l)
  = match l with [] => x | _ => x +:+ sep +:+ join sep l end.
Proof. by destruct l. Qed.

Lemma join_section_lines n clean (rest : list string) :
  join nl (section_lines n clean ++ rest)
  = match rest with
    | [] => section_text (n, clean)
    | _ => section_text (n, clean) +:+ nl +:+ join nl rest
    end.
Proof.
  unfold section_lines, section_text.
  change (["Page " +:+ pretty n; ""; clean; ""] ++ rest)
    with (("Page " +:+ pretty n) :: "" :: clean :: "" :: rest).
  rewrite !join_cons2, join_cons. cbn [fst snd].
  destruct rest; rewrite ?app_nil, ?app_empty_r, ?app_assoc_s; reflexivity.
Qed.

Lemma page_sections_nil_filter pages :
  page_sections pages = [] ↔ filter has_text pages = [].
Proof.
  unfold page_sections. destruct (filter has_text pages); [done |].
  by rewrite bind_cons.
Qed.

(** The sections follow one another separated by a newline, each being
    its header, a blank line, its text and a newline. *)
Lemma join_page_sections pages :
  join nl (page_sections pages)
  = join nl (section_text <$> filter has_text pages).
Proof.
  induction pages as [|[n clean] pages IH]; [done |].
  rewrite page_sections_cons, filter_cons. unfold has_text at 1.
  cbn [snd].
  destruct (decide (clean = "")) as [->|Hc].
  - rewrite decide_False by (intros H; by apply H). exact IH.
  - rewrite decide_True by done. rewrite fmap_cons.
    rewrite join_section_lines, join_cons, IH.
    pose proof (page_sections_nil_filter pages) as Hnil.
    destruct (page_sections pages), (filter has_text pages); try done.
    + by destruct Hnil as [Hnil _]; specialize (Hnil eq_refl).
    + by destruct Hnil as [_ Hnil]; specialize (Hnil eq_refl).
Qed.
(** The extraction step on a document whose pages are known. *)
Lemma pdf_extract_pages path ocr_func use_ocr w content pages :
  fs w !! path = Some content →
  extracted_pages content ocr_func use_ocr = Some pages →
  (∀ n, as_completed (seq 0 n) ≡ₚ seq 0 n) →
  (Forall blank pages →
     ∃ e w1, pdf_extract path ocr_func use_ocr w = (inl e, w1)
             ∧ (NoExtractableText, e) ∈ failures path)
  ∧ (¬ Forall blank pages →
     ∃ w1, pdf_extract path ocr_func use_ocr w
           = (inr (join nl (page_sections pages)), w1)).
Proof.
  intros Hsrc Hpages Hperm. unfold extracted_pages, pdf_extract in *.
  destruct use_ocr.
  - destruct ocr_func as [ocr|]; [|done].
    destruct fitz as [fitz_open|] eqn:Hfitz; [|done].
    destruct (fitz_open content) as [e0|doc] eqn:Hopen; [done |].
    destruct (rendered doc) as [images|] eqn:Hdoc; [|done].
    apply rendered_images in Hdoc as ->.
    case_decide as Htotal; [|done]. injection Hpages as <-.
    destruct (decide (images = [])) as [Hnil|Hnil].
    + rewrite Hnil in *. split; [|intros Hb; exfalso; apply Hb; constructor].
      intros _. unfold _convert_pdf_to_markdown_ocr. rewrite Hfitz.
      unfold mbind, M_bind, open_file, lift. rewrite Hsrc, Hopen. simpl.
      do 2 eexists. split; [done |]. unfold failures. in_list.
    + rewrite (ocr_extract_run fitz_open ocr content images) by done.
      cbv zeta. split.
      * intros Hb. apply page_sections_nil in Hb.
        rewrite decide_True by done.
        do 2 eexists. split; [done |]. unfold failures. in_list.
      * intros Hb. rewrite decide_False by (by rewrite page_sections_nil).
        by eexists.
  - destruct pypdf as [PdfReader|] eqn:Hpy; [|done].
    destruct (PdfReader content) as [e0|reader_pages] eqn:Hreader; [done |].
    destruct (extract_loop reader_pages []) as [e0|page_texts] eqn:Hloop;
      [done |].
    injection Hpages as <-.
    rewrite (text_extract_run PdfReader content reader_pages page_texts)
      by done.
    cbv zeta. split.
    + intros Hb. apply page_sections_nil in Hb.
      rewrite decide_True by done.
      do 2 eexists. split; [done |]. unfold failures. in_list.
    + intros Hb. rewrite decide_False by (by rewrite page_sections_nil).
      by eexists.
Qed.

(** C4. Merge format and no extractable text: for a PDF without a derived
    sibling, the merged text is the sections, in page order, of exactly
    the pages whose trimmed text is not empty, each a [Page N] header
    with the 1-based page number, an empty line, the trimmed text and an
    empty line, joined by newlines; when every page is empty after
    trimming the call fails with the no-extractable-text error and writes
    nothing. *)
Theorem C4_merge_format path qc ocr_func use_ocr w content pages :
  fs w !! path = Some content →
  lower (suffix path) = ".pdf" →
  fs w !! sibling_md path = None →
  extracted_pages content ocr_func use_ocr = Some pages →
  (∀ n, as_completed (seq 0 n) ≡ₚ seq 0 n) →
  let merged := join nl (page_sections pages) in
  merged = join nl (section_text <$> filter has_text pages)
  ∧ (Forall blank pages →
       ∃ e w', convert_to_markdown path qc ocr_func use_ocr w = (inl e, w')
               ∧ (NoExtractableText, e) ∈ failures path
               ∧ fs w' = fs w
               ∧ ∃ evs, trace w' = trace w ++ evs
                        ∧ Forall (λ ev, write_event ev = false) evs)
  ∧ (¬ Forall blank pages →
       (∃ w1, pdf_extract path ocr_func use_ocr w = (inr merged, w1))
       ∧ (quality_passes qc merged = true →
            ∃ w', convert_to_markdown path qc ocr_func use_ocr w
                  = (inr (sibling_md path), w')
                  ∧ fs w' = <[sibling_md path := merged]> (fs w))).
Proof.
  intros Hsrc Hpdf Hsib Hpages Hperm merged. subst merged.
  destruct (pdf_extract_pages path ocr_func use_ocr w content pages)
    as [Hblank Hsome]; try done.
  assert (is_Some (fs w !! path)) as Hex by eauto.
  split; [apply join_page_sections |]. split.
  - intros (e & w1 & Hx & He)%Hblank.
    pose proof (pdf_extract_world _ _ _ _ _ _ Hex Hx)
      as (Hfs & evs & Ht & Hev & _).
    destruct (convert_to_markdown path qc ocr_func use_ocr w)
      as [r w'] eqn:Hrun.
    conv_cases Hrun; try absurd_case.
    exists e, w1. split_and!; try done; try congruence.
    exists evs. split; [done |]. by apply extraction_not_write.
  - intros Hb. destruct (Hsome Hb) as [w1 Hx]. split; [by exists w1 |].
    intros Hq.
    pose proof (pdf_extract_world _ _ _ _ _ _ Hex Hx) as (Hfs & _).
    destruct (convert_to_markdown path qc ocr_func use_ocr w)
      as [r w'] eqn:Hrun.
    conv_cases Hrun; try absurd_case;
      match goal with
      | H : pdf_extract _ _ _ _ = _ |- _ => rewrite Hx in H; simplify_eq
      end; try congruence.
    eexists. split; [done |]. simpl. by rewrite Hfs.
Qed.

(** ** Failures *)

Lemma contains_tail (pre s : string) : contains (pre +:+ s) s.
Proof. exists pre, "". by rewrite app_empty_r. Qed.

Lemma contains_middle (pre s post : string) : contains (pre +:+ s +:+ post) s.
Proof. by exists pre, post. Qed.

(** The entries of the table other than the missing source are
    [ConversionError]s; those for no extractable text and for a failed
    quality check name the source path. *)
Lemma failures_conversion path k e :
  (k, e) ∈ failures path →
  k ≠ SourceNotFound →
  is_ConversionError e = true
  ∧ (k = NoExtractableText ∨ k = QualityCheckFailed →
     contains (message e) (str path)).
Proof.
  unfold failures. rewrite !elem_of_cons, elem_of_nil.
  intros H Hk.
  repeat (destruct H as [H|H]; [injection H as -> ->|]); try done;
    (split; [done |]); intros [?|?]; try done; simpl;
    first [apply contains_tail | apply contains_middle].
Qed.

(** C2 (as amended). Every failure of [convert_to_markdown] is one of:
    [FileNotFoundError] naming the path, when the source does not exist;
    [ValueError], when the path has an empty final component; for a PDF,
    the exception that the PDF library of the mode in use raised on the
    document or on one of its pages, unchanged; in OCR mode, the
    exception that the injected OCR function raised, unchanged; or a
    [ConversionError] of the table, which names the source path when it
    reports no extractable text or a failed quality check.  The handler
    [except ConversionError] of the callers catches the failure when it
    is a [ConversionError] and lets it through otherwise. *)
Theorem C2_failure_taxonomy path qc ocr_func use_ocr w e w' :
  convert_to_markdown path qc ocr_func use_ocr w = (inl e, w') →
  ((fs w !! path = None
    ∧ e = FileNotFoundError ("Source file not found: " +:+ str path))
   ∨ (name path = ""
      ∧ e = ValueError (Path_repr path +:+ " has an empty name"))
   ∨ (lower (suffix path) = ".pdf"
      ∧ ∃ content, fs w !! path = Some content
                   ∧ library_raises content use_ocr e)
   ∨ (use_ocr = true
      ∧ ∃ ocr image_bytes, ocr_func = Some ocr ∧ ocr image_bytes = inl e)
   ∨ (∃ k, k ≠ SourceNotFound
           ∧ (k, e) ∈ failures path
           ∧ is_ConversionError e = true
           ∧ (k = NoExtractableText ∨ k = QualityCheckFailed →
              contains (message e) (str path))))
  ∧ ∀ A (body : Path → M A) (h : string → M A),
      except_ConversionError
        (convert_to_markdown path qc ocr_func use_ocr ≫= body) h w
      = if is_ConversionError e then h (message e) w' else (inl e, w').
Proof.
  intros Hrun. split.
  2:{ intros A body h. unfold except_ConversionError, mbind, M_bind.
      rewrite Hrun. by destruct e. }
  assert (∀ k, k ≠ SourceNotFound → (k, e) ∈ failures path →
            ∃ k, k ≠ SourceNotFound
                 ∧ (k, e) ∈ failures path
                 ∧ is_ConversionError e = true
                 ∧ (k = NoExtractableText ∨ k = QualityCheckFailed →
                    contains (message e) (str path))) as Hown.
  { intros k Hk Hin.
    destruct (failures_conversion _ _ _ Hin Hk) as [Hce Hpath].
    exists k. split_and!; done. }
  conv_cases Hrun.
  - left. done.
  - right. left. done.
  - do 4 right. apply (Hown QualityCheckFailed); [done |].
    unfold failures. in_list.
  - do 4 right. apply (Hown UnsupportedType); [done |].
    unfold failures. in_list.
  - match goal with
    | H : pdf_extract _ _ _ _ = _ |- _ =>
        apply pdf_extract_failures in H as [(k & Hk & Hin)|[Hlib|Hocr]];
          [| | |done]
    end.
    + do 4 right. apply (Hown k); [|done].
      intros ->. rewrite !elem_of_cons, elem_of_nil in Hk.
      by destruct Hk as [?|[?|[?|[]]]].
    + do 2 right. left. done.
    + do 3 right. left. done.
  - do 4 right. apply (Hown QualityCheckFailed); [done |].
    unfold failures. in_list.
Qed.

(** A run of the OCR path that returns a text: both backends were there,
    the document opened, it has pages, every page rendered, and the OCR
    function returned on every page. *)
Lemma ocr_extract_success pdf_path ocr_func w md w1 :
  (∀ n, as_completed (seq 0 n) ≡ₚ seq 0 n) →
  _convert_pdf_to_markdown_ocr pdf_path ocr_func w = (inr md, w1) →
  ∃ fitz_open ocr content images,
    fitz = Some fitz_open ∧ ocr_func = Some ocr
    ∧ fs w !! pdf_path = Some content
    ∧ fitz_open content = inr (inr <$> images)
    ∧ images ≠ []
    ∧ ocr_total images ocr.
Proof.
  intros Hperm. unfold _convert_pdf_to_markdown_ocr.
  destruct ocr_func as [ocr|]; [|done].
  destruct fitz as [fitz_open|]; [|done].
  unfold mbind, M_bind, open_file, lift.
  destruct (fs w !! pdf_path) as [content|]; [|done].
  destruct (fitz_open content) as [e0|doc] eqn:Hopen; [done |].
  case_decide as Hz; [done |].
  rewrite emit_all_run.
  destruct (collect _ _) as [e|results] eqn:Hc; [done |]. intros _.
  apply collect_inr in Hc as [pairs Hpairs].
  assert (∀ i, i < length doc →
            ∃ pair, _render_and_ocr doc ocr i = inr pair) as Htasks.
  { intros i Hi.
    assert (i ∈ as_completed (seq 0 (length doc))) as Hin.
    { rewrite Hperm. apply elem_of_seq. lia. }
    assert (_render_and_ocr doc ocr i ∈ (inr <$> pairs : list (exn + _)))
      as Htask.
    { rewrite <- Hpairs. by apply list_elem_of_fmap_2. }
    apply list_elem_of_fmap in Htask as (pair & Htask & _). eauto. }
  assert (is_Some (rendered doc)) as [images Himages].
  { unfold rendered. apply mapM_is_Some, Forall_lookup.
    intros i page Hpage.
    destruct (Htasks i) as [pair Hpair]; [by eapply lookup_lt_Some |].
    unfold _render_and_ocr in Hpair. rewrite Hpage in Hpair.
    simpl in *. destruct page; [done | eauto]. }
  apply rendered_images in Himages as ->.
  rewrite length_fmap in Hz, Htasks.
  exists fitz_open, ocr, content, images. split_and!; try done.
  { by intros ->. }
  unfold ocr_total. apply Forall_lookup. intros i img Himg.
  destruct (Htasks i) as [pair Hpair]; [by eapply lookup_lt_Some |].
  rewrite task_rendered, Himg in Hpair. simpl in Hpair.
  unfold ocr_returns. by destruct (ocr img).
Qed.

(** The page numbers of the sections ascend strictly. *)
Lemma ocr_pages_ascending images ocr :
  StronglySorted lt ((filter has_text (ocr_pages images ocr)).*1)
  ∧ Forall (λ n, 1 ≤ n ≤ length images)
      ((filter has_text (ocr_pages images ocr)).*1).
Proof using Type.
  clear pypdf fitz as_completed llm_ocr.
  assert (∀ l : list nat,
    (filter has_text ((λ i, (i + 1, page_clean images ocr i)) <$> l)).*1
    = S <$> filter (kept images ocr) l) as Hkeys.
  { induction l as [|i l IH]; [done |].
    rewrite fmap_cons, !filter_cons.
    destruct (decide (page_clean images ocr i = "")) as [He|He].
    - rewrite !decide_False by (unfold has_text, kept; simpl; tauto).
      exact IH.
    - rewrite !decide_True by done. rewrite !fmap_cons, IH. cbn [fst].
      f_equal. lia. }
  unfold ocr_pages. rewrite Hkeys. split.
  - apply StronglySorted_fmap with (R1 := lt).
    + intros x y. lia.
    + apply StronglySorted_filter, StronglySorted_seq.
  - apply Forall_fmap, Forall_forall.
    intros i [_ Hi%elem_of_seq]%list_elem_of_filter. simpl. lia.
Qed.

(** ** The cheatsheet *)

Lemma cheatsheet_sibling course_dir :
  sibling_md (joinpath course_dir "cheatsheet.pdf")
  = joinpath course_dir "cheatsheet.md".
Proof. reflexivity. Qed.

Lemma cheatsheet_pdf_suffix course_dir :
  lower (suffix (joinpath course_dir "cheatsheet.pdf")) ≠ ".md".
Proof. discriminate. Qed.

(** With [cheatsheet.md] in place [_load_cheatsheet] reads it and does
    nothing else. *)
Lemma load_cheatsheet_md course_dir use_ocr w text :
  fs w !! joinpath course_dir "cheatsheet.md" = Some text →
  _load_cheatsheet course_dir use_ocr w
  = (inr text,
     mkWorld (fs w)
       (trace w ++ [EvReadText (joinpath course_dir "cheatsheet.md")])).
Proof.
  intros Hmd. unfold _load_cheatsheet, mbind, M_bind, path_exists. simpl.
  rewrite bool_decide_eq_true_2 by eauto.
  unfold read_text, open_file. by rewrite Hmd.
Qed.

(** A run that had to convert the PDF leaves [cheatsheet.md] behind, with
    the text it returns. *)
Lemma load_cheatsheet_pdf course_dir use_ocr w text w1 :
  fs w !! joinpath course_dir "cheatsheet.md" = None →
  _load_cheatsheet course_dir use_ocr w = (inr text, w1) →
  fs w1 !! joinpath course_dir "cheatsheet.md" = Some text.
Proof.
  intros Hmd. unfold _load_cheatsheet, mbind, M_bind, path_exists. simpl.
  rewrite bool_decide_eq_false_2 by (rewrite Hmd; by intros []).
  case_bool_decide as Hpdf; [|done].
  unfold except_ConversionError.
  destruct (convert_to_markdown _ _ _ _ w) as [[e|p] w0] eqn:Hrun.
  { by destruct e. }
  apply convert_returns in Hrun as (_ & _ & [content Hp] & _ & Heq).
  rewrite (Heq (cheatsheet_pdf_suffix course_dir)), cheatsheet_sibling in *.
  unfold read_text, open_file. rewrite Hp. by intros [= <- <-].
Qed.

(** After a run of [_load_cheatsheet] that converted the PDF, a second
    run, in either mode, converts nothing: it reads the file that the
    first run wrote and returns the text of the first run. *)
Lemma load_cheatsheet_second_run course_dir use_ocr use_ocr' w text w1 :
  fs w !! joinpath course_dir "cheatsheet.md" = None →
  _load_cheatsheet course_dir use_ocr w = (inr text, w1) →
  _load_cheatsheet course_dir use_ocr' w1
  = (inr text,
     mkWorld (fs w1)
       (trace w1 ++ [EvReadText (joinpath course_dir "cheatsheet.md")])).
Proof.
  intros Hmd Hrun. apply load_cheatsheet_md.
  by eapply load_cheatsheet_pdf.
Qed.

(** * More of the code *)

(** ** Trimming and lowercasing *)

Lemma isspace_lower_char (c : ascii) : isspace (lower_char c) = isspace c.
Proof. by destruct c as [[] [] [] [] [] [] [] []]. Qed.

Lemma lstrip_lower (s : string) : lstrip (lower s) = lower (lstrip s).
Proof.
  induction s as [|c s IH]; [done |]. simpl.
  rewrite isspace_lower_char. by destruct (isspace c).
Qed.

Lemma lower_empty (s : string) : lower s = "" ↔ s = "".
Proof. by destruct s. Qed.

Lemma rstrip_lower (s : string) : rstrip (lower s) = lower (rstrip s).
Proof.
  induction s as [|c s IH]; [done |]. simpl. rewrite IH.
  destruct (rstrip s) as [|a r]; simpl.
  - rewrite isspace_lower_char. by destruct (isspace c).
  - done.
Qed.

Lemma strip_lower (s : string) : strip (lower s) = lower (strip s).
Proof. unfold strip. by rewrite lstrip_lower, rstrip_lower. Qed.

Lemma lstrip_app_space (pre s : string) :
  all_space pre = true → lstrip (pre +:+ s) = lstrip s.
Proof.
  induction pre as [|c pre IH]; [done |]. simpl.
  intros [Hc Hpre]%andb_true_iff. rewrite Hc. auto.
Qed.

Lemma rstrip_all_space (s : string) : all_space s = true → rstrip s = "".
Proof.
  induction s as [|c s IH]; [done |]. simpl.
  intros [Hc Hs]%andb_true_iff. by rewrite IH, Hc.
Qed.

Lemma rstrip_app_space (s post : string) :
  all_space post = true → rstrip (s +:+ post) = rstrip s.
Proof.
  intros Hpost. induction s as [|c s IH].
  - rewrite app_nil. by apply rstrip_all_space.
  - rewrite app_cons. simpl. by rewrite IH.
Qed.

Lemma lstrip_fixed (s : string) :
  (∀ c, head_char s = Some c → isspace c = false) → lstrip s = s.
Proof.
  destruct s as [|c s]; [done |]. simpl. intros H. by rewrite (H c).
Qed.

Lemma lstrip_rstrip (s : string) : lstrip (rstrip s) = rstrip (lstrip s).
Proof.
  induction s as [|c s IH]; [done |]. simpl.
  destruct (isspace c) eqn:Hc.
  - rewrite <- IH. destruct (rstrip s); simpl; by rewrite ?Hc.
  - simpl. destruct (rstrip s); simpl; by rewrite Hc.
Qed.

(** Whitespace around a text does not change what [strip] returns. *)
Lemma strip_pad (pre s post : string) :
  all_space pre = true → all_space post = true →
  strip (pre +:+ s +:+ post) = strip s.
Proof.
  intros Hpre Hpost. unfold strip.
  rewrite <- !lstrip_rstrip, <- app_assoc_s, rstrip_app_space by done.
  by rewrite !lstrip_rstrip, lstrip_app_space.
Qed.

Lemma strip_idem (s : string) : strip (strip s) = strip s.
Proof.
  destruct (strip_spec s) as (_ & Hhead & Hlast).
  unfold strip at 1. rewrite lstrip_fixed by done. fold (strip s).
  assert (∀ u, (∀ c, last_char u = Some c → isspace c = false) →
               rstrip u = u) as Hfix.
  { clear. induction u as [|c u IH]; [done |]. simpl. intros H.
    destruct u as [|a u].
    - simpl. by rewrite (H c).
    - rewrite IH by done. done. }
  by apply Hfix.
Qed.

Lemma strip_newline (s : string) : strip (strip s +:+ nl) = strip s.
Proof.
  rewrite <- (strip_idem s) at 2.
  rewrite <- (strip_pad "" (strip s) nl) by done. by rewrite app_nil.
Qed.

(** ** [convert_to_markdown]: what it leaves alone *)

(** What a call does to the file system. *)
Lemma convert_keeps_files path qc ocr_func use_ocr w r w' :
  convert_to_markdown path qc ocr_func use_ocr w = (r, w') →
  (∀ p s, fs w !! p = Some s → fs w' !! p = Some s)
  ∧ (fs w' = fs w
     ∨ (fs w !! sibling_md path = None
        ∧ r = inr (sibling_md path)
        ∧ ∃ text, fs w' = <[sibling_md path := text]> (fs w)))
  ∧ (∀ e, r = inl e → fs w' = fs w).
Proof.
  intros Hrun.
  assert (∀ text, fs w !! sibling_md path = None →
            ∀ p s, fs w !! p = Some s →
                   <[sibling_md path := text]> (fs w) !! p = Some s) as Hkeep.
  { intros text Hsib p s Hp. rewrite lookup_insert_ne; [done |].
    intros <-. congruence. }
  conv_cases Hrun; simpl;
    try match goal with
        | H : pdf_extract _ _ _ _ = _ |- _ =>
            apply pdf_extract_world in H as [-> _]; [|done]
        end;
    try (split_and!; [done | by left | done]).
  - split_and!; [by apply Hkeep | right; eauto | done].
  - split_and!; [by apply Hkeep | right; eauto | done].
Qed.

(** X1. [convert_to_markdown] never changes or removes a file that is
    there: whatever the outcome, every file keeps its content; the file
    system is either as before or has gained the derived sibling, which
    was not there, and then the call returned it.  A failed call leaves
    the file system as it was. *)
Theorem convert_preserves_files path qc ocr_func use_ocr w r w' :
  convert_to_markdown path qc ocr_func use_ocr w = (r, w') →
  (∀ p s, fs w !! p = Some s → fs w' !! p = Some s)
  ∧ (fs w' = fs w
     ∨ (fs w !! sibling_md path = None
        ∧ r = inr (sibling_md path)
        ∧ ∃ text, fs w' = <[sibling_md path := text]> (fs w)))
  ∧ (∀ e, r = inl e → fs w' = fs w).
Proof. apply convert_keeps_files. Qed.

(** X2. Markdown passes through: for an existing source whose extension
    is [.md] in any letter case the call returns the source path and
    leaves the world as it is, whatever the gate, the OCR function and
    the mode. *)
Theorem markdown_passthrough path qc ocr_func use_ocr w :
  is_Some (fs w !! path) →
  lower (suffix path) = ".md" →
  convert_to_markdown path qc ocr_func use_ocr w = (inr path, w).
Proof.
  intros Hsrc Hmd.
  destruct (convert_to_markdown path qc ocr_func use_ocr w) as [r w'] eqn:Hrun.
  conv_cases Hrun; try absurd_case; done.
Qed.

(** X3. Reuse comes before the type check: for an existing source whose
    extension is none of [.md], [.txt], [.pdf], a sibling [.md] that is
    there is returned as if it were derived from the source; without one
    the call fails with the unsupported-type error, which carries the
    lowercased extension; either way the world is left as it is. *)
Theorem unsupported_type path qc ocr_func use_ocr w :
  is_Some (fs w !! path) →
  ¬ supported path →
  name path ≠ "" →
  (is_Some (fs w !! sibling_md path) →
   convert_to_markdown path qc ocr_func use_ocr w
   = (inr (sibling_md path), w))
  ∧ (fs w !! sibling_md path = None →
     convert_to_markdown path qc ocr_func use_ocr w
     = (inl (ConversionError
               ("Unsupported file type for conversion: "
                +:+ lower (suffix path))), w)).
Proof.
  intros Hsrc Hsup Hn. unfold supported in Hsup.
  assert (lower (suffix path) ≠ ".md" ∧ lower (suffix path) ≠ ".txt"
          ∧ lower (suffix path) ≠ ".pdf") as (Hmd & Htxt & Hpdf).
  { split_and!; intros E; apply Hsup; rewrite E; in_list. }
  split.
  - intros Hsib. by apply convert_reuse.
  - intros Hsib.
    destruct (convert_to_markdown path qc ocr_func use_ocr w)
      as [r w'] eqn:Hrun.
    conv_cases Hrun; try absurd_case; done.
Qed.

(** X4. A missing backend is found before the file is opened: a PDF
    without derived sibling fails with the backend error of the mode in
    use, and the world is left as it is. *)
Theorem missing_backend path qc ocr w :
  is_Some (fs w !! path) →
  lower (suffix path) = ".pdf" →
  fs w !! sibling_md path = None →
  (pypdf = None →
   convert_to_markdown path qc None false w
   = (inl (ConversionError
             "pypdf is required for PDF conversion but is not installed"),
      w))
  ∧ (fitz = None →
     convert_to_markdown path qc (Some ocr) true w
     = (inl (ConversionError
               "PyMuPDF (fitz) is required for OCR-based PDF conversion but is not installed"),
        w)).
Proof.
  intros Hsrc Hpdf Hsib. split; intros Hnone.
  - destruct (convert_to_markdown path qc None false w) as [r w'] eqn:Hrun.
    conv_cases Hrun; try absurd_case;
      match goal with
      | H : pdf_extract _ _ _ _ = _ |- _ =>
          unfold pdf_extract, _convert_pdf_to_markdown_text, raise in H;
          rewrite Hnone in H; by simplify_eq
      end.
  - destruct (convert_to_markdown path qc (Some ocr) true w)
      as [r w'] eqn:Hrun.
    conv_cases Hrun; try absurd_case;
      match goal with
      | H : pdf_extract _ _ _ _ = _ |- _ =>
          unfold pdf_extract, _convert_pdf_to_markdown_ocr, raise in H;
          rewrite Hnone in H; by simplify_eq
      end.
Qed.
(** ** The OCR path: every page is attempted, a failure surfaces *)

Lemma ocr_events_imap (images : list string) :
  (λ i, EvOcr i (default "" (images !! i))) <$> seq 0 (length images)
  = imap EvOcr images.
Proof.
  apply list_eq. intros i.
  rewrite list_lookup_fmap, list_lookup_imap.
  destruct (images !! i) as [img|] eqn:Himg.
  - rewrite lookup_seq_lt by (by eapply lookup_lt_Some). simpl.
    by rewrite Himg.
  - rewrite lookup_seq_ge by (by apply lookup_ge_None). done.
Qed.

(** X5. In OCR mode every page of the document is rendered, and every
    page that renders is passed to the OCR function exactly once,
    whether the conversion succeeds or not: after the file is opened the
    trace gains the OCR calls of the page tasks, in the order of
    completion, and nothing else; for a document whose pages all render
    that is one OCR call for each page.  The file system is untouched. *)
Theorem ocr_attempts_every_page fitz_open ocr content doc pdf_path w r w' :
  fitz = Some fitz_open →
  fs w !! pdf_path = Some content →
  fitz_open content = inr doc →
  doc ≠ [] →
  (∀ n, as_completed (seq 0 n) ≡ₚ seq 0 n) →
  _convert_pdf_to_markdown_ocr pdf_path (Some ocr) w = (r, w') →
  fs w' = fs w
  ∧ ∃ evs, trace w' = trace w ++ EvFitzOpen pdf_path :: evs
           ∧ evs ≡ₚ seq 0 (length doc) ≫= ocr_call doc
           ∧ ∀ images, doc = inr <$> images → evs ≡ₚ imap EvOcr images.
Proof.
  intros Hfitz Hsrc Hopen Hne Hperm.
  unfold _convert_pdf_to_markdown_ocr. rewrite Hfitz.
  unfold mbind, M_bind, open_file, lift. rewrite Hsrc, Hopen.
  rewrite decide_False by (by destruct doc).
  rewrite emit_all_run. simpl fs. simpl trace.
  assert (as_completed (seq 0 (length doc)) ≫= ocr_call doc
          ≡ₚ seq 0 (length doc) ≫= ocr_call doc) as Hevs
    by (by rewrite Hperm).
  assert (∀ images, doc = inr <$> images →
            as_completed (seq 0 (length doc)) ≫= ocr_call doc
            ≡ₚ imap EvOcr images) as Hall.
  { intros images ->. rewrite Hevs, length_fmap.
    by rewrite ocr_calls_rendered, ocr_events_imap. }
  destruct (collect _ _) as [e|results].
  - intros [= <- <-]. simpl. split; [done |].
    eexists. rewrite <- app_assoc. split_and!; [done | exact Hevs | exact Hall].
  - unfold raise, mret, M_ret. case_decide; intros [= <- <-]; simpl;
      (split; [done |]); eexists; rewrite <- app_assoc;
      (split_and!; [done | exact Hevs | exact Hall]).
Qed.

Lemma collect_raises completed acc e0 :
  inl e0 ∈ completed → ∃ e, collect completed acc = inl e.
Proof.
  revert acc. induction completed as [|[e|[i c]] completed IH]; intros acc.
  - by intros ?%elem_of_nil.
  - intros _. by exists e.
  - intros [?|Hin]%elem_of_cons; [done |]. simpl. by apply IH.
Qed.

Lemma not_ocr_total images ocr :
  ¬ ocr_total images ocr →
  ∃ i img e, images !! i = Some img ∧ ocr img = inl e.
Proof.
  unfold ocr_total. intros Hnot.
  apply not_Forall_Exists in Hnot; [|apply _].
  apply Exists_exists in Hnot as (img & Hin & Himg).
  apply list_elem_of_lookup in Hin as [i Hi].
  simpl in Himg. unfold ocr_returns in Himg.
  destruct (ocr img) as [e|] eqn:He; [eauto | done].
Qed.

(** The OCR path when a page task raises: the exception that surfaces is
    one of a page task. *)
Lemma ocr_extract_task_raises fitz_open ocr content doc pdf_path w i e0 :
  fitz = Some fitz_open →
  fs w !! pdf_path = Some content →
  fitz_open content = inr doc →
  (∀ n, as_completed (seq 0 n) ≡ₚ seq 0 n) →
  i < length doc →
  _render_and_ocr doc ocr i = inl e0 →
  ∃ e w' j, _convert_pdf_to_markdown_ocr pdf_path (Some ocr) w = (inl e, w')
            ∧ j < length doc
            ∧ _render_and_ocr doc ocr j = inl e.
Proof.
  intros Hfitz Hsrc Hopen Hperm Hi He0.
  unfold _convert_pdf_to_markdown_ocr. rewrite Hfitz.
  unfold mbind, M_bind, open_file, lift. rewrite Hsrc, Hopen.
  rewrite decide_False by lia.
  rewrite emit_all_run.
  set (order := as_completed (seq 0 (length doc))).
  assert (inl e0 ∈ _render_and_ocr doc ocr <$> order) as Hin.
  { apply list_elem_of_fmap. exists i. split; [done |].
    unfold order. rewrite Hperm. apply elem_of_seq. lia. }
  destruct (collect_raises _ [] _ Hin) as [e He]. rewrite He.
  apply collect_inl in He. apply list_elem_of_fmap in He as (j & Hj & Hjin).
  unfold order in Hjin. rewrite Hperm in Hjin. apply elem_of_seq in Hjin.
  exists e, (mkWorld (fs w)
               ((trace w ++ [EvFitzOpen pdf_path])
                  ++ (order ≫= ocr_call doc))), j.
  split_and!; [done | lia | done].
Qed.

(** The OCR path when the OCR function raises on some page of a document
    whose pages all render. *)
Lemma ocr_extract_raises fitz_open ocr content images pdf_path w :
  fitz = Some fitz_open →
  fs w !! pdf_path = Some content →
  fitz_open content = inr (inr <$> images) →
  (∀ n, as_completed (seq 0 n) ≡ₚ seq 0 n) →
  ¬ ocr_total images ocr →
  ∃ e w', _convert_pdf_to_markdown_ocr pdf_path (Some ocr) w = (inl e, w')
          ∧ ∃ img, img ∈ images ∧ ocr img = inl e.
Proof.
  intros Hfitz Hsrc Hopen Hperm (i & img & e0 & Himg & He0)%not_ocr_total.
  destruct (ocr_extract_task_raises fitz_open ocr content (inr <$> images)
              pdf_path w i e0) as (e & w' & j & Hrun & Hj & He); try done.
  { rewrite length_fmap. by eapply lookup_lt_Some. }
  { rewrite task_rendered, Himg. simpl. by rewrite He0. }
  exists e, w'. split; [done |].
  rewrite length_fmap in Hj.
  destruct (lookup_lt_is_Some_2 images j) as [img' Himg']; [lia |].
  rewrite task_rendered, Himg' in He. simpl in He.
  exists img'. split; [by eapply list_elem_of_lookup_2 |].
  destruct (ocr img'); by simplify_eq.
Qed.

(** A conversion in which the OCR function raises. *)
Lemma convert_ocr_raises path qc fitz_open ocr content images w :
  fs w !! path = Some content →
  lower (suffix path) = ".pdf" →
  fs w !! sibling_md path = None →
  fitz = Some fitz_open →
  fitz_open content = inr (inr <$> images) →
  (∀ n, as_completed (seq 0 n) ≡ₚ seq 0 n) →
  ¬ ocr_total images ocr →
  ∃ e w',
    convert_to_markdown path qc (Some ocr) true w = (inl e, w')
    ∧ (∃ img, img ∈ images ∧ ocr img = inl e)
    ∧ fs w' = fs w.
Proof.
  intros Hsrc Hpdf Hsib Hfitz Hopen Hperm Hnot.
  destruct (ocr_extract_raises fitz_open ocr content images path w)
    as (e & w1 & Hx & Himg); try done.
  assert (is_Some (fs w !! path)) as Hex by eauto.
  destruct (convert_to_markdown path qc (Some ocr) true w) as [r w'] eqn:Hrun.
  conv_cases Hrun; try absurd_case;
    match goal with
    | H : pdf_extract _ _ _ _ = _ |- _ =>
        unfold pdf_extract in H; rewrite Hx in H; simplify_eq
    end.
  do 2 eexists. split_and!; [done | done |].
  by apply ocr_extract_world in Hx as [? _].
Qed.

(** X6. An exception of the OCR function fails the whole document: when
    the OCR function raises on some page of a PDF without derived
    sibling, whose pages all render, the OCR-mode conversion fails, for
    every order of completion, with an exception that the OCR function
    raised on a page of that document, and the file system is left as it
    was. *)
Theorem ocr_failure_propagates path qc fitz_open ocr content images w :
  fs w !! path = Some content →
  lower (suffix path) = ".pdf" →
  fs w !! sibling_md path = None →
  fitz = Some fitz_open →
  fitz_open content = inr (inr <$> images) →
  (∀ n, as_completed (seq 0 n) ≡ₚ seq 0 n) →
  ¬ ocr_total images ocr →
  ∃ e w',
    convert_to_markdown path qc (Some ocr) true w = (inl e, w')
    ∧ (∃ img, img ∈ images ∧ ocr img = inl e)
    ∧ fs w' = fs w.
Proof. apply convert_ocr_raises. Qed.

(** ** The shape of an extracted text, and the gate of the entry point *)

Lemma last_char_app (a b : string) :
  b ≠ "" → last_char (a +:+ b) = last_char b.
Proof.
  intros Hb. induction a as [|c a IH]; [done |].
  rewrite app_cons. simpl. rewrite IH.
  destruct (a +:+ b) eqn:E; [|done].
  destruct a; [by rewrite app_nil in E | by rewrite app_cons in E].
Qed.

Lemma last_char_section_text page :
  last_char (section_text page) = Some (Ascii.ascii_of_nat 10).
Proof.
  unfold section_text. rewrite <- !app_assoc_s. by rewrite last_char_app.
Qed.

Lemma join_sections_nonempty (pages : list (nat * string)) :
  pages ≠ [] → join nl (section_text <$> pages) ≠ "".
Proof.
  destruct pages as [|p pages]; [done |]. intros _.
  rewrite fmap_cons, join_cons.
  intros E. apply (f_equal String.length) in E.
  destruct (section_text <$> pages); unfold section_text in E;
    rewrite ?app_assoc_s, app_length_s in E; simpl in E; lia.
Qed.

Lemma last_char_join_sections (pages : list (nat * string)) :
  pages ≠ [] →
  last_char (join nl (section_text <$> pages))
  = Some (Ascii.ascii_of_nat 10).
Proof.
  induction pages as [|p pages IH]; [done |]. intros _.
  rewrite fmap_cons, join_cons.
  destruct pages as [|q pages].
  - apply last_char_section_text.
  - rewrite fmap_cons. rewrite <- fmap_cons.
    rewrite !last_char_app.
    + by apply IH.
    + by apply join_sections_nonempty.
    + done.
Qed.

Lemma strip_nonempty (c : ascii) (s : string) :
  isspace c = false → strip (String c s) ≠ "".
Proof.
  intros Hc. unfold strip. simpl. rewrite Hc. simpl.
  destruct (rstrip s); by rewrite ?Hc.
Qed.

(** The text of a non-empty list of sections. *)
Lemma sections_shape pages :
  page_sections pages ≠ [] →
  (∃ rest, join nl (page_sections pages) = "Page " +:+ rest)
  ∧ last_char (join nl (page_sections pages))
    = Some (Ascii.ascii_of_nat 10)
  ∧ strip (join nl (page_sections pages)) ≠ "".
Proof.
  intros Hne. rewrite join_page_sections.
  rewrite page_sections_nil_filter in Hne.
  destruct (filter has_text pages) as [|q qs] eqn:Hf; [done |].
  assert (∃ rest, join nl (section_text <$> q :: qs) = "Page " +:+ rest)
    as [rest Hrest].
  { rewrite fmap_cons, join_cons. unfold section_text.
    destruct (_ <$> qs); rewrite ?app_assoc_s; eauto. }
  split_and!.
  - eauto.
  - by apply last_char_join_sections.
  - rewrite Hrest. by apply strip_nonempty.
Qed.

(** What the extraction step returns is the text of a non-empty list of
    sections. *)
Lemma pdf_extract_sections path ocr_func use_ocr w text w1 :
  (∀ n, as_completed (seq 0 n) ≡ₚ seq 0 n) →
  pdf_extract path ocr_func use_ocr w = (inr text, w1) →
  ∃ pages, page_sections pages ≠ []
           ∧ text = join nl (page_sections pages).
Proof.
  intros Hperm. unfold pdf_extract. destruct use_ocr.
  - intros Hrun.
    destruct (ocr_extract_success _ _ _ _ _ Hperm Hrun)
      as (fitz_open & ocr & content & images
          & Hfitz & -> & Hsrc & Hopen & Hne & Htotal).
    rewrite (ocr_extract_run fitz_open ocr content images) in Hrun by done.
    cbv zeta in Hrun. case_decide; [done |]. injection Hrun as <- <-.
    eauto.
  - unfold _convert_pdf_to_markdown_text.
    destruct pypdf as [PdfReader|]; [|done].
    unfold mbind, M_bind, open_file, lift.
    destruct (fs w !! path) as [content|]; [|done].
    destruct (PdfReader content) as [e0|reader_pages]; [done |].
    destruct (extract_loop reader_pages []) as [e0|page_texts]; [done |].
    rewrite text_loop_sections, app_nil_l.
    case_decide; [done |]. intros [= <- <-]. eauto.
Qed.

(** The shape of an extracted text. *)
Lemma extracted_text_nonblank path ocr_func use_ocr w text w1 :
  (∀ n, as_completed (seq 0 n) ≡ₚ seq 0 n) →
  pdf_extract path ocr_func use_ocr w = (inr text, w1) →
  (∃ rest, text = "Page " +:+ rest)
  ∧ last_char text = Some (Ascii.ascii_of_nat 10)
  ∧ strip text ≠ "".
Proof.
  intros Hperm (pages & Hne & ->)%pdf_extract_sections; [|done].
  by apply sections_shape.
Qed.

(** X7. A text that the extraction of a PDF returns, in either mode, is
    never blank: it starts with a [Page] header, ends with a newline and
    has characters other than whitespace. *)
Theorem extracted_text_shape path ocr_func use_ocr w text w1 :
  (∀ n, as_completed (seq 0 n) ≡ₚ seq 0 n) →
  pdf_extract path ocr_func use_ocr w = (inr text, w1) →
  (∃ rest, text = "Page " +:+ rest)
  ∧ last_char text = Some (Ascii.ascii_of_nat 10)
  ∧ strip text ≠ "".
Proof. apply extracted_text_nonblank. Qed.

(** X8. The gate of the entry point of file_to_md.py never rejects a
    PDF: for a [.pdf] source the entry point returns what a call without
    any gate returns, and leaves the same file system. *)
Theorem main_gate_never_rejects_pdf path ocr w :
  (∀ n, as_completed (seq 0 n) ≡ₚ seq 0 n) →
  lower (suffix path) = ".pdf" →
  (file_to_md_main path ocr w).1
  = (convert_to_markdown path None
       (if ocr then Some llm_ocr else None) ocr w).1
  ∧ fs (file_to_md_main path ocr w).2
    = fs (convert_to_markdown path None
            (if ocr then Some llm_ocr else None) ocr w).2.
Proof.
  intros Hperm Hpdf. unfold file_to_md_main.
  set (ocr_cb := if ocr then Some llm_ocr else None).
  destruct (convert_to_markdown path (Some _dummy_quality_checker) ocr_cb
              ocr w) as [r1 w1] eqn:Hrun1.
  destruct (convert_to_markdown path None ocr_cb ocr w)
    as [r2 w2] eqn:Hrun2.
  simpl.
  conv_cases Hrun1; try absurd_case;
    conv_cases Hrun2; try absurd_case; try done;
    try match goal with
        | H : pdf_extract _ _ _ _ = _, H' : pdf_extract _ _ _ _ = _ |- _ =>
            rewrite H in H'; simplify_eq
        end;
    try done.
  (* the gate of the entry point rejected an extracted text *)
  exfalso.
  match goal with
  | H : pdf_extract _ _ _ _ = (inr ?text, _) |- _ =>
      destruct (extracted_text_nonblank _ _ _ _ _ _ Hperm H) as (_ & _ & Hs)
  end.
  match goal with
  | H : quality_passes _ _ = false |- _ =>
      simpl in H; unfold _dummy_quality_checker in H;
      by apply bool_decide_eq_false in H
  end.
Qed.

(** X9. The entry point on plain text: for a [.txt] source without a
    derived sibling, a source with nothing but whitespace fails with the
    quality-check error and nothing is written; any other source is
    written to the sibling as its trimmed text and a newline. *)
Theorem main_on_plain_text path ocr w text :
  fs w !! path = Some text →
  lower (suffix path) = ".txt" →
  fs w !! sibling_md path = None →
  (strip text = "" →
   ∃ w', file_to_md_main path ocr w
         = (inl (ConversionError
                   ("Text from " +:+ str path +:+ " failed quality check")),
            w')
         ∧ fs w' = fs w)
  ∧ (strip text ≠ "" →
     ∃ w', file_to_md_main path ocr w = (inr (sibling_md path), w')
           ∧ fs w' = <[sibling_md path := strip text +:+ nl]> (fs w)).
Proof.
  intros Hsrc Htxt Hsib. unfold file_to_md_main.
  set (ocr_cb := if ocr then Some llm_ocr else None).
  assert (quality_passes (Some _dummy_quality_checker) (strip text +:+ nl)
          = bool_decide (strip text ≠ "")) as Hgate.
  { simpl. unfold _dummy_quality_checker. by rewrite strip_newline. }
  destruct (convert_to_markdown path (Some _dummy_quality_checker) ocr_cb
              ocr w) as [r w'] eqn:Hrun.
  split; intros Hs.
  - rewrite bool_decide_eq_false_2 in Hgate by (intros H; by apply H).
    conv_cases Hrun; try absurd_case. by eexists.
  - rewrite bool_decide_eq_true_2 in Hgate by done.
    conv_cases Hrun; try absurd_case. by eexists.
Qed.

(** ** The callers in main.py *)

(** The failures of [convert_to_markdown] by kind of exception. *)
Lemma convert_fails path qc ocr_func use_ocr w e w' :
  convert_to_markdown path qc ocr_func use_ocr w = (inl e, w') →
  fs w !! path = None
  ∨ name path = ""
  ∨ (∃ msg, e = ConversionError msg)
  ∨ (lower (suffix path) = ".pdf"
     ∧ ∃ content, fs w !! path = Some content
                  ∧ library_raises content use_ocr e)
  ∨ (use_ocr = true
     ∧ ∃ ocr image_bytes, ocr_func = Some ocr ∧ ocr image_bytes = inl e).
Proof.
  intros Hrun. conv_cases Hrun; eauto 6.
  match goal with
  | H : pdf_extract _ _ _ _ = _ |- _ =>
      apply pdf_extract_failures in H as [(k & Hk & Hin)|[Hlib|Hocr]];
        [| | |done]
  end.
  - do 2 right. left.
    assert (k ≠ SourceNotFound) as Hne.
    { intros ->. rewrite !elem_of_cons, elem_of_nil in Hk.
      by destruct Hk as [?|[?|[?|[]]]]. }
    destruct (failures_conversion _ _ _ Hin Hne) as [Hce _].
    destruct e; try done. eauto.
  - do 3 right. left. done.
  - do 4 right. done.
Qed.

(** What a call adds to the trace holds no warning of the batch. *)
Lemma convert_trace path qc ocr_func use_ocr w r w' :
  convert_to_markdown path qc ocr_func use_ocr w = (r, w') →
  ∃ evs, trace w' = trace w ++ evs
         ∧ Forall (λ e, warn_event e = false) evs.
Proof.
  intros Hrun.
  assert (∀ evs, Forall (λ e, extraction_event e = true) evs →
                 Forall (λ e, warn_event e = false) evs) as Hx.
  { intros evs H. eapply Forall_impl; [exact H |]. by intros []. }
  assert (∀ text, Forall (λ e, warn_event e = false) (quality_events qc text))
    as Hq.
  { intros text. destruct qc; by repeat constructor. }
  conv_cases Hrun; simpl;
    try (exists []; split; [by rewrite app_nil_r | constructor]);
    try (eexists; split; [done |];
         repeat first [apply Forall_cons_2; [done |] | apply Forall_app_2
                      | apply Hq | apply Forall_nil_2]);
    match goal with
    | H : pdf_extract _ _ _ _ = _ |- _ =>
        apply pdf_extract_world in H as (_ & evs & Ht & Hev & _); [|done]
    end;
    rewrite ?Ht, <- ?app_assoc; eexists; (split; [done |]);
    repeat first [apply Forall_app_2 | apply Hq | by apply Hx
                 | apply Forall_cons_2; [done |] | apply Forall_nil_2].
Qed.

(** One round of the loop of [_gather_markdown_files]. *)
Lemma gather_one_run use_ocr path texts w r w' :
  is_Some (fs w !! path) →
  gather_one use_ocr path texts w = (r, w') →
  (∀ p s, fs w !! p = Some s → fs w' !! p = Some s)
  ∧ ∃ evs, trace w' = trace w ++ evs
    ∧ ((¬ supported path ∧ r = inr texts ∧ w' = w)
       ∨ (supported path
          ∧ ((∃ text, r = inr (texts ++ [text])
                      ∧ fs w' !! md_target path = Some text
                      ∧ Forall (λ e, warn_event e = false) evs)
             ∨ (r = inr texts
                ∧ ∃ evs0 msg, evs = evs0 ++ [EvWarn path msg]
                     ∧ Forall (λ e, warn_event e = false) evs0)
             ∨ (∃ e, r = inl e
                  ∧ is_ConversionError e = false
                  ∧ ((lower (suffix path) = ".pdf"
                      ∧ ∃ content, fs w !! path = Some content
                                   ∧ library_raises content use_ocr e)
                     ∨ (use_ocr = true
                        ∧ ∃ image_bytes, llm_ocr image_bytes = inl e)))))).
Proof.
  intros Hsrc. unfold gather_one.
  destruct (decide (lower (suffix path) ∈ [".md"; ".txt"; ".pdf"]))
    as [Hsup|Hsup].
  2:{ intros [= <- <-]. split; [done |]. exists [].
      split; [by rewrite app_nil_r |]. left. done. }
  assert (name path ≠ "") as Hn.
  { apply suffix_nonempty_name, lower_nonempty. intros E. rewrite E in Hsup.
    rewrite !elem_of_cons, elem_of_nil in Hsup.
    by destruct Hsup as [?|[?|[?|[]]]]. }
  unfold except_ConversionError, mbind, M_bind.
  set (ocr_cb := if use_ocr then Some llm_ocr else None).
  set (mode := if decide (lower (suffix path) = ".pdf") then use_ocr
               else false).
  destruct (convert_to_markdown path None ocr_cb mode w)
    as [[e|p] w1] eqn:Hrun.
  - (* the conversion failed *)
    pose proof (convert_keeps_files _ _ _ _ _ _ _ Hrun)
      as (Hkeep & _ & Hsame).
    pose proof (convert_trace _ _ _ _ _ _ _ Hrun) as (evs & Ht & Hev).
    assert (∀ msg, e = ConversionError msg →
              (emit (EvWarn path msg);; mret texts) w1 = (r, w') →
              (∀ p s, fs w !! p = Some s → fs w' !! p = Some s)
              ∧ ∃ evs, trace w' = trace w ++ evs
                ∧ ((¬ supported path ∧ r = inr texts ∧ w' = w)
                   ∨ (supported path
                      ∧ ((∃ text, r = inr (texts ++ [text])
                            ∧ fs w' !! md_target path = Some text
                            ∧ Forall (λ e, warn_event e = false) evs)
                         ∨ (r = inr texts
                            ∧ ∃ evs0 msg, evs = evs0 ++ [EvWarn path msg]
                                 ∧ Forall (λ e, warn_event e = false) evs0)
                         ∨ (∃ e, r = inl e
                              ∧ is_ConversionError e = false
                              ∧ ((lower (suffix path) = ".pdf"
                                  ∧ ∃ content, fs w !! path = Some content
                                       ∧ library_raises content use_ocr e)
                                 ∨ (use_ocr = true
                                    ∧ ∃ image_bytes,
                                        llm_ocr image_bytes = inl e)))))))
      as Hwarn.
    { intros msg -> . unfold emit, mret, M_ret, mbind, M_bind.
      intros [= <- <-]. simpl.
      split; [done |]. exists (evs ++ [EvWarn path msg]).
      rewrite Ht, <- app_assoc. split; [done |]. right. split; [done |].
      right. left. eauto. }
    assert (is_ConversionError e = false →
            (lower (suffix path) = ".pdf"
             ∧ ∃ content, fs w !! path = Some content
                          ∧ library_raises content use_ocr e)
            ∨ (use_ocr = true ∧ ∃ image_bytes, llm_ocr image_bytes = inl e) →
            (inl e : exn + list string, w1) = (r, w') →
            (∀ p s, fs w !! p = Some s → fs w' !! p = Some s)
            ∧ ∃ evs, trace w' = trace w ++ evs
              ∧ ((¬ supported path ∧ r = inr texts ∧ w' = w)
                 ∨ (supported path
                    ∧ ((∃ text, r = inr (texts ++ [text])
                          ∧ fs w' !! md_target path = Some text
                          ∧ Forall (λ e, warn_event e = false) evs)
                       ∨ (r = inr texts
                          ∧ ∃ evs0 msg, evs = evs0 ++ [EvWarn path msg]
                               ∧ Forall (λ e, warn_event e = false) evs0)
                       ∨ (∃ e, r = inl e
                            ∧ is_ConversionError e = false
                            ∧ ((lower (suffix path) = ".pdf"
                                ∧ ∃ content, fs w !! path = Some content
                                     ∧ library_raises content use_ocr e)
                               ∨ (use_ocr = true
                                  ∧ ∃ image_bytes,
                                      llm_ocr image_bytes = inl e)))))))
      as Hout.
    { intros Hce Hwhy [= <- <-]. split; [done |]. exists evs.
      split; [done |]. right. split; [done |]. do 2 right. eauto. }
    apply convert_fails in Hrun
      as [Hnone|[Hempty|[[msg ->]
           |[(Hpdf & content & Hcontent & Hlib)
            |(Hmode & ocr & img & Hocr & Himg)]]]].
    + rewrite Hnone in Hsrc. by destruct Hsrc.
    + done.
    + by apply (Hwarn msg).
    + assert (mode = use_ocr) as Hmode by (unfold mode; by rewrite decide_True).
      rewrite Hmode in Hlib.
      destruct e as [msg|msg|msg|msg|msg|cls msg];
        first [ by apply (Hwarn msg)
              | apply Hout; [done | left; eauto] ].
    + assert (use_ocr = true ∧ llm_ocr img = inl e) as [Hu Hllm].
      { unfold mode in Hmode. case_decide; [|done]. subst use_ocr.
        unfold ocr_cb in Hocr. by simplify_eq. }
      destruct e as [msg|msg|msg|msg|msg|cls msg];
        first [ by apply (Hwarn msg)
              | apply Hout; [done | right; eauto] ].
  - (* the conversion succeeded; the result is read back *)
    pose proof (convert_keeps_files _ _ _ _ _ _ _ Hrun) as (Hkeep & _).
    pose proof (convert_trace _ _ _ _ _ _ _ Hrun) as (evs & Ht & Hev).
    apply convert_returns in Hrun as (_ & _ & [text Hp] & Hmd & Hsib).
    assert (p = md_target path) as ->.
    { unfold md_target. case_decide; auto. }
    unfold read_text, open_file. rewrite Hp. unfold mret, M_ret.
    intros [= <- <-]. simpl. split; [done |].
    exists (evs ++ [EvReadText (md_target path)]).
    rewrite Ht, <- app_assoc. split; [done |]. right. split; [done |].
    left. exists text. split_and!; [done | done |].
    apply Forall_app_2; [done | by repeat constructor].
Qed.

Lemma no_warnings (evs : list event) :
  Forall (λ e, warn_event e = false) evs →
  filter (λ e, warn_event e = true) evs = [].
Proof.
  induction 1 as [|e evs He _ IH]; [done |].
  rewrite filter_cons, decide_False by congruence. done.
Qed.

(** The loop of [_gather_markdown_files] over files that are there. *)
Lemma gather_loop_run use_ocr listing texts w r w' :
  Forall (λ p, is_Some (fs w !! p)) listing →
  gather_loop use_ocr listing texts w = (r, w') →
  (∀ p s, fs w !! p = Some s → fs w' !! p = Some s)
  ∧ (∀ e, r = inl e →
       is_ConversionError e = false
       ∧ ((∃ path content,
             path ∈ listing ∧ lower (suffix path) = ".pdf"
             ∧ fs w !! path = Some content
             ∧ library_raises content use_ocr e)
          ∨ (use_ocr = true ∧ ∃ image_bytes, llm_ocr image_bytes = inl e)))
  ∧ (∀ texts', r = inr texts' →
       ∃ converted new evs,
         texts' = texts ++ new
         ∧ converted `sublist_of` filter supported listing
         ∧ Forall2 (λ p text, fs w' !! md_target p = Some text) converted new
         ∧ trace w' = trace w ++ evs
         ∧ length converted
           + length (filter (λ e, warn_event e = true) evs)
           = length (filter supported listing)).
Proof.
  intros Hall. revert texts w r w' Hall.
  induction listing as [|path rest IH]; intros texts w r w' Hall.
  { intros [= <- <-]. split_and!; [done | done |].
    intros texts' [= <-]. exists [], [], [].
    rewrite !app_nil_r. split_and!; by try constructor. }
  apply Forall_cons in Hall as [Hpath Hrest].
  simpl gather_loop. unfold mbind at 1, M_bind at 1.
  destruct (gather_one use_ocr path texts w) as [[e|texts1] w1] eqn:Hone.
  - (* this round fails *)
    intros [= <- <-].
    destruct (gather_one_run _ _ _ _ _ _ Hpath Hone)
      as (Hkeep & evs & Ht & [(_ & ? & _)|(_ & [(t & ? & _)|[(? & _)|He]])]);
      try done.
    destruct He as (e' & [= <-] & Hce & Hwhy).
    split_and!; [done | | done].
    intros ? [= <-]. split; [done |].
    destruct Hwhy as [(Hpdf & content & Hcontent & Hlib)|Hocr]; [|by right].
    left. exists path, content. split_and!; [by left | done..].
  - intros Hloop.
    destruct (gather_one_run _ _ _ _ _ _ Hpath Hone) as (Hkeep1 & evs1 & Ht1 & Hcase).
    assert (Forall (λ p, is_Some (fs w1 !! p)) rest) as Hrest1.
    { eapply Forall_impl; [exact Hrest |]. intros p [s Hs]. eauto. }
    destruct (IH _ _ _ _ Hrest1 Hloop) as (Hkeep2 & Hfail & Hok).
    split_and!; [by auto | |].
    { intros e He. destruct (Hfail e He) as [Hce Hwhy]. split; [done |].
      destruct Hwhy as [(p & content & Hin & Hpdf & Hcontent & Hlib)|Hocr];
        [|by right].
      left. exists p, content. split_and!; [by right | done | | done].
      rewrite Forall_forall in Hrest. destruct (Hrest p Hin) as [s Hs].
      rewrite Hs. apply Hkeep1 in Hs. congruence. }
    intros texts' ->.
    destruct (Hok _ eq_refl)
      as (converted & new & evs2 & -> & Hsub & Hcontent & Ht2 & Hcount).
    rewrite filter_cons.
    destruct Hcase as [(Hsup & [= ->] & ->)
                      |(Hsup & [(t & [= ->] & Htext & Hnowarn)
                               |[([= ->] & evs0 & msg & -> & Hnowarn)
                                |(? & ? & _)]])];
      try done.
    + (* not a supported file *)
      rewrite decide_False by done.
      exists converted, new, evs2. split_and!; done.
    + (* converted and read *)
      rewrite decide_True by done.
      exists (path :: converted), (t :: new), (evs1 ++ evs2).
      split_and!.
      * by rewrite <- app_assoc.
      * by apply sublist_skip.
      * constructor; [by apply Hkeep2 | done].
      * by rewrite Ht2, Ht1, <- app_assoc.
      * rewrite filter_app, no_warnings by done. simpl. lia.
    + (* skipped with a warning *)
      rewrite decide_True by done.
      exists converted, new, ((evs0 ++ [EvWarn path msg]) ++ evs2).
      split_and!.
      * done.
      * by apply sublist_cons.
      * done.
      * by rewrite Ht2, Ht1, <- !app_assoc.
      * rewrite !filter_app, no_warnings by done. simpl. lia.
Qed.

(** X10. [_gather_markdown_files] passes over files whose extension is
    none of [.md], [.txt], [.pdf]: the result and the world left behind
    are those of the batch on the supported files alone. *)
Theorem gather_skips_unsupported listing use_ocr w :
  _gather_markdown_files listing use_ocr w
  = _gather_markdown_files (filter supported listing) use_ocr w.
Proof.
  unfold _gather_markdown_files. generalize (@nil string) as texts.
  revert w. induction listing as [|path rest IH]; intros w texts; [done |].
  rewrite filter_cons. destruct (decide (supported path)) as [Hsup|Hsup].
  - simpl. unfold mbind, M_bind.
    destruct (gather_one use_ocr path texts w) as [[e|texts1] w1]; [done |].
    apply IH.
  - rewrite <- IH. simpl. unfold mbind, M_bind, gather_one.
    unfold supported in Hsup. by rewrite decide_False by done.
Qed.

(** X11. What can end a batch over files that are there: never a
    [ConversionError], which the handler of the loop turns into a
    warning, but only an exception that the PDF library raised on one of
    the listed PDFs or, in OCR mode, one that [llm_ocr] raised.  So in
    text-layer mode the batch returns whenever the library raises on
    none of the listed PDFs. *)
Theorem gather_failures listing use_ocr w r w' :
  Forall (λ p, is_Some (fs w !! p)) listing →
  _gather_markdown_files listing use_ocr w = (r, w') →
  (∀ e, r = inl e →
     is_ConversionError e = false
     ∧ ((∃ path content,
           path ∈ listing ∧ lower (suffix path) = ".pdf"
           ∧ fs w !! path = Some content
           ∧ library_raises content use_ocr e)
        ∨ (use_ocr = true ∧ ∃ image_bytes, llm_ocr image_bytes = inl e)))
  ∧ (use_ocr = false →
     (∀ path content e,
        path ∈ listing → lower (suffix path) = ".pdf" →
        fs w !! path = Some content → ¬ library_raises content false e) →
     ∃ texts, r = inr texts).
Proof.
  intros Hall Hrun.
  destruct (gather_loop_run _ _ _ _ _ _ Hall Hrun) as (_ & Hfail & _).
  split; [done |]. intros -> Hreads. destruct r as [e|texts]; [|eauto].
  destruct (Hfail e eq_refl)
    as [_ [(path & content & Hin & Hpdf & Hcontent & Hlib)|[? _]]];
    [|done].
  by destruct (Hreads path content e).
Qed.

(** X12. A batch never changes or removes a file that is there, whatever
    its outcome. *)
Theorem gather_preserves_files listing use_ocr w r w' :
  Forall (λ p, is_Some (fs w !! p)) listing →
  _gather_markdown_files listing use_ocr w = (r, w') →
  ∀ p s, fs w !! p = Some s → fs w' !! p = Some s.
Proof.
  intros Hall Hrun. by destruct (gather_loop_run _ _ _ _ _ _ Hall Hrun).
Qed.

(** X13. What a batch returns: the texts are, in the order of the
    listing, the Markdown found after the batch at the target of each
    file that was converted (the file itself for [.md], the derived
    sibling otherwise), and every supported file that was not converted
    left one warning. *)
Theorem gather_returns_markdown listing use_ocr w texts w' :
  Forall (λ p, is_Some (fs w !! p)) listing →
  _gather_markdown_files listing use_ocr w = (inr texts, w') →
  ∃ converted evs,
    converted `sublist_of` filter supported listing
    ∧ Forall2 (λ p text, fs w' !! md_target p = Some text) converted texts
    ∧ trace w' = trace w ++ evs
    ∧ length converted + length (filter (λ e, warn_event e = true) evs)
      = length (filter supported listing).
Proof.
  intros Hall Hrun.
  destruct (gather_loop_run _ _ _ _ _ _ Hall Hrun) as (_ & _ & Hok).
  destruct (Hok _ eq_refl) as (converted & new & evs & -> & ?).
  exists converted, evs. done.
Qed.

(** X14. [_load_cheatsheet] prefers the Markdown cheatsheet: when
    [cheatsheet.md] is there its text is returned and the only effect is
    the read of that file, in either mode and whether or not there is a
    [cheatsheet.pdf]. *)
Theorem load_cheatsheet_prefers_markdown course_dir use_ocr w text :
  fs w !! joinpath course_dir "cheatsheet.md" = Some text →
  _load_cheatsheet course_dir use_ocr w
  = (inr text,
     mkWorld (fs w)
       (trace w ++ [EvReadText (joinpath course_dir "cheatsheet.md")])).
Proof. apply load_cheatsheet_md. Qed.

(** X15. [_load_cheatsheet] lets no [ConversionError] out: when it
    fails the file system is as before, and the exception is
    [SystemExit], either for a missing cheatsheet, with the world
    untouched, or around the message of the failed conversion, or else
    it is an exception that the PDF library raised on [cheatsheet.pdf]
    or that [llm_ocr] raised in OCR mode, which passes the handler
    unchanged. *)
Theorem load_cheatsheet_failures course_dir use_ocr w e w' :
  _load_cheatsheet course_dir use_ocr w = (inl e, w') →
  fs w' = fs w
  ∧ is_ConversionError e = false
  ∧ ((fs w !! joinpath course_dir "cheatsheet.md" = None
      ∧ fs w !! joinpath course_dir "cheatsheet.pdf" = None
      ∧ e = SystemExit ("No cheatsheet.md or cheatsheet.pdf found in "
                        +:+ str course_dir)
      ∧ w' = w)
     ∨ (∃ msg, e = SystemExit ("Failed to convert cheatsheet PDF: " +:+ msg))
     ∨ (∃ content,
          fs w !! joinpath course_dir "cheatsheet.pdf" = Some content
          ∧ library_raises content use_ocr e)
     ∨ (use_ocr = true ∧ ∃ image_bytes, llm_ocr image_bytes = inl e)).
Proof.
  unfold _load_cheatsheet, mbind, M_bind, path_exists. simpl.
  case_bool_decide as Hmd.
  { destruct Hmd as [text Hmd]. unfold read_text, open_file.
    by rewrite Hmd. }
  apply eq_None_not_Some in Hmd.
  case_bool_decide as Hpdf.
  2:{ apply eq_None_not_Some in Hpdf. intros [= <- <-].
      split_and!; [done | done |]. left. done. }
  unfold except_ConversionError.
  destruct (convert_to_markdown _ _ _ _ w) as [[e0|p] w0] eqn:Hrun.
  - pose proof (convert_keeps_files _ _ _ _ _ _ _ Hrun)
      as (_ & _ & Hsame).
    specialize (Hsame _ eq_refl).
    apply convert_fails in Hrun
      as [Hnone|[Hempty|[[msg ->]
           |[(_ & content & Hcontent & Hlib)
            |(Hmode & ocr & img & Hocr & Himg)]]]].
    + rewrite Hnone in Hpdf. by destruct Hpdf.
    + done.
    + intros [= <- <-]. split_and!; [done | done |]. right. left. eauto.
    + destruct e0; intros [= <- <-]; (split_and!; [done | done |]);
        first [ by right; left; eauto | by right; right; left; eauto ].
    + rewrite Hmode in Hocr. injection Hocr as <-.
      destruct e0; intros [= <- <-]; (split_and!; [done | done |]);
        first [ by right; left; eauto | by right; right; right; eauto ].
  - apply convert_returns in Hrun as (_ & _ & [text Hp] & _).
    unfold read_text, open_file. by rewrite Hp.
Qed.

(** X16. A load that succeeded can be repeated: after it
    [cheatsheet.md] holds the text it returned, and a further load, in
    either mode, returns that text again with no effect but the read of
    that file. *)
Theorem load_cheatsheet_repeatable course_dir use_ocr use_ocr' w text w1 :
  _load_cheatsheet course_dir use_ocr w = (inr text, w1) →
  fs w1 !! joinpath course_dir "cheatsheet.md" = Some text
  ∧ _load_cheatsheet course_dir use_ocr' w1
    = (inr text,
       mkWorld (fs w1)
         (trace w1 ++ [EvReadText (joinpath course_dir "cheatsheet.md")])).
Proof.
  intros Hrun.
  assert (fs w1 !! joinpath course_dir "cheatsheet.md" = Some text) as Hmd.
  { destruct (fs w !! joinpath course_dir "cheatsheet.md") as [t|] eqn:E.
    - rewrite (load_cheatsheet_md _ _ _ _ E) in Hrun.
      by injection Hrun as <- <-.
    - by eapply load_cheatsheet_pdf. }
  split; [done | by apply load_cheatsheet_md].
Qed.

(** ** [_env_flag] *)

(** X17. [_env_flag] reads a variable up to surrounding whitespace and
    letter case, and only falls back on the default when the variable is
    not set: two settings whose values agree after lowercasing, with any
    whitespace around one of them, give the same flag, whatever the
    defaults and the rest of the environment. *)
Theorem env_flag_normalises env env' name default default'
    value value' pre post :
  all_space pre = true →
  all_space post = true →
  lower value' = lower value →
  _env_flag (<[name := pre +:+ value' +:+ post]> env) name default
  = _env_flag (<[name := value]> env') name default'
  ∧ (env !! name = None → _env_flag env name default = default).
Proof.
  intros Hpre Hpost Hlower. unfold _env_flag, getenv. split.
  - rewrite !lookup_insert_eq, strip_pad by done.
    by rewrite <- !strip_lower, Hlower.
  - by intros ->.
Qed.

(** ** agent.py *)

Lemma safe_count_length (items : list string) :
  _safe_count items = length items.
Proof.
  unfold _safe_count.
  assert (∀ n, foldl (λ total (_ : string), total + 1) n items
               = n + length items) as H.
  { induction items as [|x items IH]; intros n; simpl; [lia |].
    rewrite IH. lia. }
  apply (H 0).
Qed.

(** A decimal numeral holds no newline. *)
Lemma pretty_N_go_no_newline (x : N) (s : string) :
  ¬ contains s nl → ¬ contains (pretty_N_go x s) nl.
Proof.
  revert s. induction (N.lt_wf_0 x) as [x _ IH]; intros s Hs.
  assert (x = 0 ∨ 0 < x)%N as [->|Hx] by lia.
  - by rewrite pretty_N_go_0.
  - rewrite pretty_N_go_step by done. apply IH.
    { by apply N.div_lt. }
    intros (pre & post & E). destruct pre as [|c pre].
    + rewrite app_nil in E. unfold nl in E. rewrite app_cons in E.
      injection E as Hc _. revert Hc. unfold pretty_N_char.
      by repeat case_match.
    + rewrite app_cons in E. injection E as _ E. apply Hs. by exists pre, post.
Qed.

Lemma pretty_no_newline (n : nat) : ¬ contains (pretty n) nl.
Proof.
  unfold pretty, pretty_nat, pretty, pretty_N. case_decide.
  - intros (pre & post & E). destruct pre as [|c pre].
    + by rewrite app_nil in E.
    + rewrite app_cons in E. injection E as _ E.
      destruct pre; [by rewrite app_nil in E | by rewrite app_cons in E].
  - apply pretty_N_go_no_newline.
    intros (pre & post & E). destruct pre; [by rewrite app_nil in E |].
    by rewrite app_cons in E.
Qed.

(** Two texts that agree up to their first newline. *)
Lemma split_at_newline (a b r r' : string) :
  ¬ contains a nl → ¬ contains b nl →
  a +:+ nl +:+ r = b +:+ nl +:+ r' → a = b ∧ r = r'.
Proof.
  revert b. induction a as [|c a IH]; intros b Ha Hb E.
  - destruct b as [|d b].
    + rewrite !app_nil in E. unfold nl in E. rewrite !app_cons in E.
      by injection E.
    + exfalso. apply Hb. rewrite app_nil in E. unfold nl in E.
      rewrite !app_cons in E. injection E as <- _.
      exists "", b. by rewrite app_nil.
  - destruct b as [|d b].
    + exfalso. apply Ha. rewrite app_nil in E. unfold nl in E.
      rewrite !app_cons in E. injection E as -> _.
      exists "", a. by rewrite app_nil.
    + rewrite !app_cons in E. injection E as -> E.
      destruct (IH b) as [-> ->]; [| |done|done].
      * intros (pre & post & E'). apply Ha. exists (String d pre), post.
        by rewrite app_cons, <- E'.
      * intros (pre & post & E'). apply Hb. exists (String d pre), post.
        by rewrite app_cons, <- E'.
Qed.

(** The report as one text around the three counts. *)
Lemma check_coverage_text corpus :
  check_coverage corpus
  = ("# Cheatsheet Coverage Report" +:+ nl +:+ nl
     +:+ "This is a stub report. Implement LLM-based coverage analysis in `agent.check_coverage`."
     +:+ nl +:+ nl +:+ "## Sources" +:+ nl +:+ nl
     +:+ "- Lecture notes files: ")
    +:+ pretty (length (lecture_notes corpus)) +:+ nl
    +:+ "- Past papers files: "
    +:+ pretty (length (past_papers corpus)) +:+ nl
    +:+ "- Assignment question files: "
    +:+ pretty (length (assignments corpus)) +:+ nl.
Proof.
  unfold check_coverage. cbv zeta. rewrite !safe_count_length.
  simpl app. rewrite !join_cons2. simpl join.
  rewrite !app_assoc_s, ?app_nil, ?app_empty_r. reflexivity.
Qed.

(** X18. The report of [check_coverage] tells the three counts and
    nothing else: two corpora get the same report exactly when they have
    as many lecture notes, as many past papers and as many assignments
    as each other; the cheatsheet and the texts play no part. *)
Theorem check_coverage_counts corpus corpus' :
  check_coverage corpus = check_coverage corpus'
  ↔ length (lecture_notes corpus) = length (lecture_notes corpus')
    ∧ length (past_papers corpus) = length (past_papers corpus')
    ∧ length (assignments corpus) = length (assignments corpus').
Proof.
  rewrite !check_coverage_text. split.
  - intros E. apply (inj (String.append _)) in E.
    apply split_at_newline in E as [E1 E]; [|apply pretty_no_newline..].
    apply (inj (String.append _)) in E.
    apply split_at_newline in E as [E2 E]; [|apply pretty_no_newline..].
    apply (inj (String.append _)) in E.
    assert (pretty (length (assignments corpus))
            = pretty (length (assignments corpus'))) as E3.
    { rewrite <- (app_empty_r nl) in E.
      by apply split_at_newline in E as [E3 _];
        [|apply pretty_no_newline..]. }
    split_and!; by apply (inj pretty).
  - by intros (-> & -> & ->).
Qed.

(** ** Sources that share a derived file, and locality *)

(** X19. Sources with the same parent and stem share one derived file:
    once a source that is not Markdown has been converted, a call on
    another existing source of the same stem, with whatever extension
    other than [.md], gate, OCR function and mode, does not read that
    source; it returns the derived file of the first and leaves the
    world as it is. *)
Theorem same_stem_sources_share path path' qc ocr_func use_ocr
    qc' ocr_func' use_ocr' w p w1 :
  parent path' = parent path →
  stem path' = stem path →
  lower (suffix path) ≠ ".md" →
  lower (suffix path') ≠ ".md" →
  name path' ≠ "" →
  is_Some (fs w !! path') →
  convert_to_markdown path qc ocr_func use_ocr w = (inr p, w1) →
  convert_to_markdown path' qc' ocr_func' use_ocr' w1 = (inr p, w1).
Proof.
  intros Hparent Hstem Hmd Hmd' Hn' [s Hsrc'] Hrun.
  assert (sibling_md path' = sibling_md path) as Hsib.
  { unfold sibling_md. by rewrite Hparent, Hstem. }
  pose proof (convert_keeps_files _ _ _ _ _ _ _ Hrun) as (Hkeep & _).
  apply convert_returns in Hrun as (_ & _ & Hp & _ & Heq).
  rewrite (Heq Hmd) in *. rewrite <- Hsib in *.
  apply convert_reuse; eauto.
Qed.

(** The extraction step looks at the source and at nothing else. *)
Lemma pdf_extract_local path ocr_func use_ocr w1 w2 :
  fs w1 !! path = fs w2 !! path →
  (pdf_extract path ocr_func use_ocr w1).1
  = (pdf_extract path ocr_func use_ocr w2).1.
Proof.
  intros Hsame. unfold pdf_extract.
  destruct use_ocr.
  - unfold _convert_pdf_to_markdown_ocr.
    destruct ocr_func as [ocr|]; [|done].
    destruct fitz as [fitz_open|]; [|done].
    unfold mbind, M_bind, open_file, lift. rewrite Hsame.
    destruct (fs w2 !! path) as [content|]; [|done].
    destruct (fitz_open content) as [e0|doc]; [done |].
    case_decide; [done |]. rewrite !emit_all_run.
    destruct (collect _ _); [done |]. by case_decide.
  - unfold _convert_pdf_to_markdown_text.
    destruct pypdf as [PdfReader|]; [|done].
    unfold mbind, M_bind, open_file, lift. rewrite Hsame.
    destruct (fs w2 !! path) as [content|]; [|done].
    destruct (PdfReader content) as [e0|reader_pages]; [done |].
    destruct (extract_loop reader_pages []) as [e0|page_texts]; [done |].
    by case_decide.
Qed.

(** X20. The outcome of a call depends on two files only: in two worlds
    that agree on the source and on its derived sibling, the call
    returns the same result and leaves the same content, or none, at the
    sibling; any other path holds after the call what it held before. *)
Theorem convert_local path qc ocr_func use_ocr w1 w2 :
  fs w1 !! path = fs w2 !! path →
  fs w1 !! sibling_md path = fs w2 !! sibling_md path →
  (convert_to_markdown path qc ocr_func use_ocr w1).1
  = (convert_to_markdown path qc ocr_func use_ocr w2).1
  ∧ fs (convert_to_markdown path qc ocr_func use_ocr w1).2
      !! sibling_md path
    = fs (convert_to_markdown path qc ocr_func use_ocr w2).2
        !! sibling_md path
  ∧ ∀ p, p ≠ sibling_md path →
         fs (convert_to_markdown path qc ocr_func use_ocr w1).2 !! p
         = fs w1 !! p.
Proof.
  intros Hsrc Hsib.
  pose proof (pdf_extract_local path ocr_func use_ocr w1 w2 Hsrc) as Hx.
  destruct (convert_to_markdown path qc ocr_func use_ocr w1)
    as [r1 w1'] eqn:Hrun1.
  destruct (convert_to_markdown path qc ocr_func use_ocr w2)
    as [r2 w2'] eqn:Hrun2.
  simpl. split_and!.
  - conv_cases Hrun1; rewrite ?Hsrc, ?Hsib in *;
      conv_cases Hrun2; try absurd_case; try done;
      try match goal with
          | H : pdf_extract _ _ _ w1 = _, H' : pdf_extract _ _ _ w2 = _ |- _ =>
              rewrite H, H' in Hx; simpl in Hx; simplify_eq
          end;
      try done; try congruence.
  - conv_cases Hrun1; rewrite ?Hsrc, ?Hsib in *;
      conv_cases Hrun2; try absurd_case; simpl; try done;
      try match goal with
          | H : pdf_extract _ _ _ w1 = _, H' : pdf_extract _ _ _ w2 = _,
            Hex2 : is_Some (fs w2 !! path) |- _ =>
              assert (is_Some (fs w1 !! path)) as Hex1 by (by rewrite Hsrc);
              pose proof (pdf_extract_world _ _ _ _ _ _ Hex1 H) as [Hf1 _];
              pose proof (pdf_extract_world _ _ _ _ _ _ Hex2 H') as [Hf2 _];
              rewrite H, H' in Hx; simpl in Hx; simplify_eq
          end;
      rewrite ?Hf1, ?Hf2, ?lookup_insert_eq; try done; try congruence.
  - intros p Hp.
    destruct (convert_keeps_files _ _ _ _ _ _ _ Hrun1)
      as (_ & [->|(_ & _ & text & ->)] & _); [done |].
    by rewrite lookup_insert_ne.
Qed.

(** ** A PDF that the library cannot read *)

Lemma extract_loop_first texts e rest acc :
  extract_loop ((inr <$> texts) ++ inl e :: rest) acc = inl e.
Proof.
  revert acc. induction texts as [|text texts IH]; intros acc; [done |].
  rewrite fmap_cons. simpl. apply IH.
Qed.

(** A conversion whose extraction step is known. *)
Lemma convert_extract_failed path qc ocr_func use_ocr w e w1 :
  is_Some (fs w !! path) →
  lower (suffix path) = ".pdf" →
  fs w !! sibling_md path = None →
  pdf_extract path ocr_func use_ocr w = (inl e, w1) →
  convert_to_markdown path qc ocr_func use_ocr w = (inl e, w1).
Proof.
  intros Hsrc Hpdf Hsib Hx.
  destruct (convert_to_markdown path qc ocr_func use_ocr w) as [r w'] eqn:Hrun.
  conv_cases Hrun; try absurd_case;
    match goal with
    | H : pdf_extract _ _ _ _ = _ |- _ => rewrite Hx in H; by simplify_eq
    end.
Qed.

(** The text-layer conversion of a PDF on which pypdf raises. *)
Lemma convert_unreadable path qc ocr_func PdfReader content e w :
  fs w !! path = Some content →
  lower (suffix path) = ".pdf" →
  fs w !! sibling_md path = None →
  pypdf = Some PdfReader →
  PdfReader content = inl e
  ∨ (∃ texts rest, PdfReader content = inr ((inr <$> texts) ++ inl e :: rest)) →
  convert_to_markdown path qc ocr_func false w
  = (inl e, mkWorld (fs w) (trace w ++ [EvPdfReader path])).
Proof.
  intros Hsrc Hpdf Hsib Hpy Hraise.
  apply convert_extract_failed; eauto.
  unfold pdf_extract. apply (text_extract_raises PdfReader content); try done.
  destruct Hraise as [?|(texts & rest & Hreader)]; [by left |].
  right. eexists. split; [done |]. apply extract_loop_first.
Qed.

(** X22. An exception of the PDF library fails the conversion and comes
    out unchanged.  For a PDF without derived sibling: in text-layer
    mode, when pypdf raises on the document or on a page, the pages
    before it being read, the call fails with that exception after
    opening the file; in OCR mode, when PyMuPDF raises on opening the
    document, the call fails with that exception before any OCR call;
    and when a page does not render, the call fails, for every order of
    completion, with an exception of the rendering of a page or of the
    OCR function.  The file system is left as it was. *)
Theorem library_failure_propagates path qc content w :
  fs w !! path = Some content →
  lower (suffix path) = ".pdf" →
  fs w !! sibling_md path = None →
  (∀ PdfReader e ocr_func,
     pypdf = Some PdfReader →
     PdfReader content = inl e
     ∨ (∃ texts rest,
          PdfReader content = inr ((inr <$> texts) ++ inl e :: rest)) →
     convert_to_markdown path qc ocr_func false w
     = (inl e, mkWorld (fs w) (trace w ++ [EvPdfReader path])))
  ∧ (∀ fitz_open e ocr,
       fitz = Some fitz_open →
       fitz_open content = inl e →
       convert_to_markdown path qc (Some ocr) true w
       = (inl e, mkWorld (fs w) (trace w ++ [EvFitzOpen path])))
  ∧ (∀ fitz_open doc e0 ocr,
       fitz = Some fitz_open →
       fitz_open content = inr doc →
       inl e0 ∈ doc →
       (∀ n, as_completed (seq 0 n) ≡ₚ seq 0 n) →
       ∃ e w',
         convert_to_markdown path qc (Some ocr) true w = (inl e, w')
         ∧ fs w' = fs w
         ∧ (inl e ∈ doc ∨ ∃ image_bytes, ocr image_bytes = inl e)).
Proof.
  intros Hsrc Hpdf Hsib.
  assert (is_Some (fs w !! path)) as Hex by eauto.
  split_and!.
  - intros PdfReader e ocr_func Hpy Hraise.
    by apply (convert_unreadable _ _ _ PdfReader content).
  - intros fitz_open e ocr Hfitz Hopen.
    apply convert_extract_failed; try done.
    unfold pdf_extract, _convert_pdf_to_markdown_ocr. rewrite Hfitz.
    unfold mbind, M_bind, open_file, lift. by rewrite Hsrc, Hopen.
  - intros fitz_open doc e0 ocr Hfitz Hopen Hin Hperm.
    apply list_elem_of_lookup in Hin as [i Hi].
    destruct (ocr_extract_task_raises fitz_open ocr content doc path w i e0)
      as (e & w' & j & Hrun & Hj & He); try done.
    { by eapply lookup_lt_Some. }
    { unfold _render_and_ocr. by rewrite Hi. }
    exists e, w'. split_and!.
    + by apply convert_extract_failed.
    + by apply ocr_extract_world in Hrun as [? _].
    + by apply task_raises in He.
Qed.

(** X23. A PDF that pypdf cannot read ends the callers in main.py: when
    pypdf raises, on the document or on a page, an exception that is not
    a [ConversionError], a text-layer batch that comes to that PDF stops
    with that exception, the files listed after it are not looked at,
    and [_load_cheatsheet] on such a [cheatsheet.pdf] fails with that
    exception and not with [SystemExit]; the handlers
    [except ConversionError] of both let it through. *)
Theorem unreadable_pdf_ends_batch path PdfReader content e w :
  fs w !! path = Some content →
  lower (suffix path) = ".pdf" →
  fs w !! sibling_md path = None →
  pypdf = Some PdfReader →
  PdfReader content = inl e
  ∨ (∃ texts rest,
       PdfReader content = inr ((inr <$> texts) ++ inl e :: rest)) →
  is_ConversionError e = false →
  let w' := mkWorld (fs w) (trace w ++ [EvPdfReader path]) in
  (∀ rest, _gather_markdown_files (path :: rest) false w = (inl e, w'))
  ∧ (∀ course_dir,
       path = joinpath course_dir "cheatsheet.pdf" →
       _load_cheatsheet course_dir false w = (inl e, w')).
Proof.
  intros Hsrc Hpdf Hsib Hpy Hraise Hce w'.
  pose proof (convert_unreadable path None None PdfReader content e w
                Hsrc Hpdf Hsib Hpy Hraise) as Hrun.
  split.
  - intros rest. unfold _gather_markdown_files. simpl gather_loop.
    unfold mbind at 1, M_bind at 1. unfold gather_one.
    rewrite decide_True by (rewrite Hpdf; in_list).
    rewrite decide_True by done.
    unfold except_ConversionError, mbind, M_bind. rewrite Hrun.
    by destruct e.
  - intros course_dir ->. rewrite cheatsheet_sibling in Hsib.
    unfold _load_cheatsheet, mbind, M_bind, path_exists. simpl.
    rewrite bool_decide_eq_false_2 by (rewrite Hsib; by intros []).
    rewrite bool_decide_eq_true_2 by eauto.
    unfold except_ConversionError. rewrite Hrun.
    by destruct e.
Qed.

End Converter.

(** ** Independence of the order in which page tasks complete *)

Ltac in_list :=
  repeat first [apply list_elem_of_here | apply list_elem_of_further].

Ltac absurd_case :=
  solve
    [ congruence
    | match goal with
      | H : is_Some ?x, H' : ?x = None |- _ =>
          rewrite H' in H; by destruct H
      end
    | match goal with
      | H : ?a ∉ _, E : ?a = _ |- _ =>
          exfalso; apply H; rewrite E; in_list
      end
    | match goal with
      | H : name ?p = "", E : lower (suffix ?p) = _ |- _ =>
          exfalso; refine (suffix_nonempty_name p _ H);
          apply lower_nonempty; rewrite E; done
      end ].

Ltac conv_cases_in H :=
  match type of H with
  | convert_to_markdown ?py ?fz ?sched ?path ?qc ?ocr ?use ?w = _ =>
      let Hc := fresh "Hcase" in
      pose proof (convert_to_markdown_cases py fz sched path qc ocr use w)
        as Hc;
      rewrite H in Hc; inversion Hc; clear Hc; simplify_eq
  end.

(** The sections of a document under OCR: the pages on which the OCR
    function returned a text that is not empty after trimming, each with
    its 1-based number and that text. *)
Lemma ocr_pages_member images ocr n text :
  ocr_total images ocr →
  (n, text) ∈ filter has_text (ocr_pages images ocr)
  ↔ text ≠ "" ∧ 1 ≤ n
    ∧ ∃ image_bytes raw,
        images !! (n - 1) = Some image_bytes
        ∧ ocr image_bytes = inr raw
        ∧ text = strip (default "" raw).
Proof.
  intros Htotal. rewrite list_elem_of_filter. unfold has_text, ocr_pages.
  cbn [snd]. rewrite list_elem_of_fmap. split.
  - intros (Hne & i & [= -> ->] & Hi%elem_of_seq).
    split; [done |]. split; [lia |].
    replace (i + 1 - 1) with i by lia.
    destruct (lookup_lt_is_Some_2 images i) as [img Himg]; [lia |].
    unfold ocr_total in Htotal. rewrite Forall_lookup in Htotal.
    specialize (Htotal i img Himg). unfold ocr_returns in Htotal.
    destruct (ocr img) as [e|raw] eqn:Ho; [done |].
    exists img, raw. split_and!; try done.
    unfold page_clean. rewrite Himg. simpl. by rewrite Ho.
  - intros (Hne & Hn & img & raw & Himg & Ho & ->). split; [done |].
    exists (n - 1). split.
    + f_equal; [lia |]. unfold page_clean. rewrite Himg. simpl.
      by rewrite Ho.
    + apply elem_of_seq. apply lookup_lt_Some in Himg. lia.
Qed.

(** The OCR path on a document whose pages render and are read by the
    OCR function, some of them with text: the merged text, for every
    order of completion. *)
Lemma ocr_extract_merged fitz sched fitz_open ocr content images path w :
  (∀ n, sched (seq 0 n) ≡ₚ seq 0 n) →
  fitz = Some fitz_open →
  fs w !! path = Some content →
  fitz_open content = inr (inr <$> images) →
  ocr_total images ocr →
  filter has_text (ocr_pages images ocr) ≠ [] →
  ∃ w1,
    _convert_pdf_to_markdown_ocr fitz sched path (Some ocr) w
    = (inr (join nl (section_text
                       <$> filter has_text (ocr_pages images ocr))), w1)
    ∧ fs w1 = fs w.
Proof.
  intros Hperm Hfitz Hsrc Hopen Htotal Hne.
  assert (images ≠ []) as Himages by (by intros ->).
  rewrite (ocr_extract_run fitz sched fitz_open ocr content images)
    by done.
  cbv zeta. rewrite decide_False by (by rewrite page_sections_nil_filter).
  rewrite join_page_sections. by eexists.
Qed.

(** An OCR conversion that returns a text, under some order of
    completion. *)
Lemma ocr_extract_order fitz sched sched' path ocr_func w md w1 :
  (∀ n, sched (seq 0 n) ≡ₚ seq 0 n) →
  (∀ n, sched' (seq 0 n) ≡ₚ seq 0 n) →
  _convert_pdf_to_markdown_ocr fitz sched path ocr_func w = (inr md, w1) →
  ∃ fitz_open ocr content images,
    fitz = Some fitz_open ∧ ocr_func = Some ocr
    ∧ fs w !! path = Some content
    ∧ fitz_open content = inr (inr <$> images)
    ∧ ocr_total images ocr
    ∧ md = join nl (section_text
                      <$> filter has_text (ocr_pages images ocr))
    ∧ filter has_text (ocr_pages images ocr) ≠ []
    ∧ ∃ w2, _convert_pdf_to_markdown_ocr fitz sched' path ocr_func w
            = (inr md, w2)
            ∧ fs w2 = fs w1.
Proof.
  intros Hperm Hperm' Hrun.
  destruct (ocr_extract_success fitz sched _ _ _ _ _ Hperm Hrun)
    as (fitz_open & ocr & content & images
        & -> & -> & Hsrc & Hopen & Hne & Htotal).
  rewrite (ocr_extract_run _ sched fitz_open ocr content images) in Hrun
    by done.
  rewrite (ocr_extract_run _ sched' fitz_open ocr content images) by done.
  cbv zeta in *. case_decide as Hnil; [done |]. injection Hrun as <- <-.
  exists fitz_open, ocr, content, images.
  split_and!; try done.
  - apply join_page_sections.
  - by rewrite <- page_sections_nil_filter.
  - by eexists.
Qed.

(** C3. Page-order determinism under OCR.  For a document whose pages
    render to images on each of which the OCR function returns, at least
    one with text, the OCR path returns, for every order in which the
    page tasks complete, one and the same merged text: the sections
    [Page N], empty line, trimmed text, empty line of exactly the pages
    whose trimmed OCR text is not empty, N being the 1-based page number,
    in strictly ascending order of N.  Every OCR-mode extraction that
    returns a text is of that kind, so it returns the same text under
    any other order of completion; and a conversion that succeeds under
    one order succeeds under any other with the same returned path and
    the same file system. *)
Theorem C3_page_order_determinism pypdf fitz sched sched'
    path qc ocr_func w :
  (∀ n, sched (seq 0 n) ≡ₚ seq 0 n) →
  (∀ n, sched' (seq 0 n) ≡ₚ seq 0 n) →
  (∀ fitz_open ocr content images,
     fitz = Some fitz_open →
     fs w !! path = Some content →
     fitz_open content = inr (inr <$> images) →
     ocr_total images ocr →
     let sections := filter has_text (ocr_pages images ocr) in
     StronglySorted lt (sections.*1)
     ∧ (∀ n text,
          (n, text) ∈ sections
          ↔ text ≠ "" ∧ 1 ≤ n
            ∧ ∃ image_bytes raw,
                images !! (n - 1) = Some image_bytes
                ∧ ocr image_bytes = inr raw
                ∧ text = strip (default "" raw))
     ∧ (sections ≠ [] →
        ∃ w1 w2,
          _convert_pdf_to_markdown_ocr fitz sched path (Some ocr) w
          = (inr (join nl (section_text <$> sections)), w1)
          ∧ _convert_pdf_to_markdown_ocr fitz sched' path (Some ocr) w
            = (inr (join nl (section_text <$> sections)), w2)
          ∧ fs w1 = fs w ∧ fs w2 = fs w))
  ∧ (∀ md w1,
       _convert_pdf_to_markdown_ocr fitz sched path ocr_func w
       = (inr md, w1) →
       ∃ fitz_open ocr content images,
         fitz = Some fitz_open ∧ ocr_func = Some ocr
         ∧ fs w !! path = Some content
         ∧ fitz_open content = inr (inr <$> images)
         ∧ ocr_total images ocr
         ∧ md = join nl (section_text
                           <$> filter has_text (ocr_pages images ocr))
         ∧ filter has_text (ocr_pages images ocr) ≠ []
         ∧ ∃ w2, _convert_pdf_to_markdown_ocr fitz sched' path ocr_func w
                 = (inr md, w2)
                 ∧ fs w2 = fs w1)
  ∧ (∀ p w1,
       convert_to_markdown pypdf fitz sched path qc ocr_func true w
       = (inr p, w1) →
       ∃ w2, convert_to_markdown pypdf fitz sched' path qc ocr_func true w
             = (inr p, w2)
             ∧ fs w2 = fs w1).
Proof.
  intros Hperm Hperm'. split_and!.
  { intros fitz_open ocr content images Hfitz Hsrc Hopen Htotal sections.
    subst sections. split_and!.
    - apply ocr_pages_ascending.
    - intros n text. by apply ocr_pages_member.
    - intros Hne.
      destruct (ocr_extract_merged fitz sched fitz_open ocr content images
                  path w) as (w1 & Hrun1 & Hfs1); try done.
      destruct (ocr_extract_merged fitz sched' fitz_open ocr content images
                  path w) as (w2 & Hrun2 & Hfs2); try done.
      by exists w1, w2. }
  { intros md w1. by apply ocr_extract_order. }
  intros p w1 Hrun.
  destruct (convert_to_markdown pypdf fitz sched' path qc ocr_func true w)
    as [r2 w2] eqn:Hrun'.
  exists w2.
  conv_cases_in Hrun;
    try match goal with
        | H : pdf_extract _ _ sched _ _ _ _ = (inr _, _) |- _ =>
            unfold pdf_extract in H;
            destruct (ocr_extract_order _ _ sched' _ _ _ _ _ Hperm Hperm' H)
              as (? & ? & ? & ? & _ & _ & _ & _ & _ & _ & _
                  & w3 & Hx' & Hfs')
        end;
    conv_cases_in Hrun'; try absurd_case; try done;
    try match goal with
        | H : pdf_extract _ _ sched' _ _ _ _ = _ |- _ =>
            unfold pdf_extract in H; rewrite Hx' in H; simplify_eq
        end;
    try congruence.
  simpl. by rewrite Hfs'.
Qed.

(** ** The properties on concrete documents *)

Module Examples.

Import Demo.

(** C1 (the code against its own documentation).  [_load_cheatsheet]
    promises to convert the PDF afresh on every run.  The first run on a
    course with only [cheatsheet.pdf] extracts the text and writes
    [cheatsheet.md]; the PDF is then edited; the second run extracts
    nothing and returns the text of the first run, read from the file the
    first run left behind.  A direct call of [convert_to_markdown] on the
    PDF in that world returns the sibling and leaves the world alone. *)
Lemma C1_second_run_reads_derived_copy :
  let load := _load_cheatsheet pypdf fitz in_order ocr course_dir false in
  let first := load w_cheat in
  let edited := edit_cheatsheet first.2 in
  let second := load edited in
  fs w_cheat !! cheatsheet_md = None
  ∧ first.1 = inr ("Page 1" +:+ nl +:+ nl +:+ "alpha" +:+ nl)
  ∧ trace first.2
    = [EvPdfReader cheatsheet_pdf;
       EvWriteText cheatsheet_md ("Page 1" +:+ nl +:+ nl +:+ "alpha" +:+ nl);
       EvReadText cheatsheet_md]
  ∧ fs edited !! cheatsheet_pdf = Some "beta"
  ∧ second.1 = inr ("Page 1" +:+ nl +:+ nl +:+ "alpha" +:+ nl)
  ∧ trace second.2 = trace first.2 ++ [EvReadText cheatsheet_md]
  ∧ convert_to_markdown pypdf fitz in_order cheatsheet_pdf None None false
      edited
    = (inr cheatsheet_md, edited).
Proof. vm_compute. repeat split. Qed.

(** C2 as stated fails: a missing source raises [FileNotFoundError], and
    an exception of the OCR function leaves [convert_to_markdown] as it
    is, here the [RuntimeError] of [llm_ocr]; neither is a
    [ConversionError], and the second one ends the batch. *)
Lemma C2_counterexample :
  (convert_to_markdown pypdf fitz in_order missing_pdf None None false w_scan).1
  = inl (FileNotFoundError
           "Source file not found: course/CS231/absent.pdf")
  ∧ is_ConversionError
      (FileNotFoundError "Source file not found: course/CS231/absent.pdf")
    = false
  ∧ (convert_to_markdown pypdf fitz in_order scan_pdf None (Some ocr) true
       w_broken).1
    = inl (RuntimeError "OPENAI_API_KEY is not set")
  ∧ is_ConversionError (RuntimeError "OPENAI_API_KEY is not set") = false
  ∧ (_gather_markdown_files pypdf fitz in_order ocr [scan_pdf] true
       w_broken).1
    = inl (RuntimeError "OPENAI_API_KEY is not set").
Proof. vm_compute. repeat split. Qed.

Lemma in_order_perm n : in_order (seq 0 n) ≡ₚ seq 0 n.
Proof. reflexivity. Defined.

Lemma last_first_perm n : last_first (seq 0 n) ≡ₚ seq 0 n.
Proof. apply reverse_Permutation. Defined.

Lemma C2_witness :
  except_ConversionError
    (convert_to_markdown pypdf fitz in_order scan_pdf None None false
       ≫= read_text)
    (λ exc, emit (EvWarn scan_pdf exc);; mret "") w_empty_file
  = (inl (Other "EmptyFileError" "Cannot read an empty file"),
     mkWorld (fs w_empty_file) [EvPdfReader scan_pdf]).
Proof.
  apply (proj2 (C2_failure_taxonomy pypdf fitz in_order scan_pdf None None
                  false w_empty_file
                  (Other "EmptyFileError" "Cannot read an empty file")
                  (mkWorld (fs w_empty_file) [EvPdfReader scan_pdf])
                  ltac:(vm_compute; reflexivity))
           string read_text (λ exc, emit (EvWarn scan_pdf exc);; mret "")).
Defined.

Lemma ocr_reads_scan :
  ocr_total ["two"; " "; "five"; ""; "one"] ocr.
Proof. repeat constructor. Defined.

Lemma C3_witness :
  ∃ w1 w2,
    _convert_pdf_to_markdown_ocr fitz in_order scan_pdf (Some ocr) w_scan
    = (inr (join nl ["Page 1"; ""; "two"; ""; "Page 3"; ""; "five"; "";
                     "Page 5"; ""; "one"; ""]), w1)
    ∧ _convert_pdf_to_markdown_ocr fitz last_first scan_pdf (Some ocr) w_scan
      = (inr (join nl ["Page 1"; ""; "two"; ""; "Page 3"; ""; "five"; "";
                       "Page 5"; ""; "one"; ""]), w2)
    ∧ fs w1 = fs w_scan ∧ fs w2 = fs w_scan.
Proof.
  refine (proj2 (proj2 (proj1 (C3_page_order_determinism pypdf fitz in_order
            last_first scan_pdf None (Some ocr) w_scan
            in_order_perm last_first_perm)
            _ ocr "two| |five||one" ["two"; " "; "five"; ""; "one"]
            eq_refl _ _ ocr_reads_scan)) _);
    [vm_compute; reflexivity | vm_compute; reflexivity | discriminate].
Defined.

Lemma C4_witness :
  ∃ w',
    convert_to_markdown pypdf fitz in_order scan_pdf None None false w_scan
    = (inr scan_md, w')
    ∧ fs w'
      = <[scan_md :=
            join nl ["Page 1"; ""; "two"; ""; "Page 3"; ""; "five"; "";
                     "Page 5"; ""; "one"; ""]]> (fs w_scan).
Proof.
  refine (proj2 (proj2 (proj2 (C4_merge_format pypdf fitz in_order scan_pdf
            None None false w_scan "two| |five||one"
            [(1, "two"); (2, ""); (3, "five"); (4, ""); (5, "one")]
            _ _ _ _ in_order_perm)) _) _);
    try (vm_compute; reflexivity).
  intros H. apply Forall_cons_1 in H as [H _]. discriminate H.
Defined.


Lemma C6_witness :
  convert_to_markdown pypdf fitz in_order scan_pdf None None false
    w_scan_cached
  = (inr scan_md, w_scan_cached).
Proof.
  apply (proj1 (C6_standard_reuse_idempotence pypdf fitz in_order scan_pdf
                  None None false w_scan_cached
                  ltac:(vm_compute; eexists; reflexivity)
                  ltac:(right; vm_compute; reflexivity))).
  vm_compute. eexists. reflexivity.
Defined.

Lemma C7_witness :
  ∃ w',
    convert_to_markdown pypdf fitz in_order notes_txt None None false w_notes
    = (inr notes_md, w')
    ∧ fs w' = <[notes_md := "Intro" +:+ nl]> (fs w_notes).
Proof.
  destruct (C7_plain_text_normalization pypdf fitz in_order notes_txt None
              None false w_notes ("  Intro " +:+ nl +:+ nl))
    as (w' & Hrun & Hfs & _); try (vm_compute; reflexivity).
  exists w'. split; [exact Hrun | exact Hfs].
Defined.

Lemma C8_witness :
  convert_to_markdown pypdf fitz in_order scan_pdf None None true w_scan
  = (inl (ConversionError
            "OCR conversion requested but no OCR function was provided"),
     w_scan).
Proof.
  apply (proj1 (C8_missing_ocr_function pypdf fitz in_order scan_pdf None
                  w_scan
                  ltac:(vm_compute; eexists; reflexivity)
                  ltac:(vm_compute; reflexivity)
                  ltac:(vm_compute; reflexivity))).
Defined.

Lemma C10_witness :
  stem notes_md = stem notes_txt
  ∧ lower (suffix notes_md) = ".md"
  ∧ is_Some
      (fs (convert_to_markdown pypdf fitz in_order notes_txt None None false
             w_notes).2 !! notes_md).
Proof.
  destruct (C10_return_path_invariant pypdf fitz in_order notes_txt None None
              false w_notes notes_md
              (convert_to_markdown pypdf fitz in_order notes_txt None None
                 false w_notes).2
              ltac:(vm_compute; reflexivity))
    as (Hstem & Hsuffix & Hfile & _).
  split_and!; assumption.
Defined.

End Examples.

(** ** [llm_ocr] without an API key *)

Section NoKey.

Variable Params : Type.
Variable json_loads : string → option Params.
Variable b64encode : string → string.
Variable create :
  OpenAI → string → string → string → Params → exn + option string.

Lemma llm_ocr_no_key env image_bytes :
  getenv_or env "OPENAI_API_KEY" "" = "" →
  llm_ocr Params json_loads b64encode create env image_bytes
  = inl (RuntimeError "OPENAI_API_KEY is not set").
Proof.
  unfold llm_ocr, _build_client, getenv_or.
  destruct (getenv env "OPENAI_API_KEY") as [key|]; [|done].
  by case_decide.
Qed.

(** X21. Without an API key, OCR mode cannot convert anything: with
    OPENAI_API_KEY unset or empty, the OCR-mode conversion of a PDF
    without derived sibling that has pages, all of which render, fails
    with the [RuntimeError] of [_build_client], whatever the other
    settings, the request function and the order of completion, and the
    file system is left as it was. *)
Theorem ocr_without_api_key pypdf fitz as_completed env path qc fitz_open
    content images w :
  getenv_or env "OPENAI_API_KEY" "" = "" →
  fs w !! path = Some content →
  lower (suffix path) = ".pdf" →
  fs w !! sibling_md path = None →
  fitz = Some fitz_open →
  fitz_open content = inr (inr <$> images) →
  images ≠ [] →
  (∀ n, as_completed (seq 0 n) ≡ₚ seq 0 n) →
  ∃ w',
    convert_to_markdown pypdf fitz as_completed path qc
      (Some (llm_ocr Params json_loads b64encode create env)) true w
    = (inl (RuntimeError "OPENAI_API_KEY is not set"), w')
    ∧ fs w' = fs w.
Proof.
  intros Hkey Hsrc Hpdf Hsib Hfitz Hopen Hpages Hperm.
  destruct (convert_ocr_raises pypdf fitz as_completed path qc fitz_open
              (llm_ocr Params json_loads b64encode create env) content
              images w)
    as (e & w' & Hrun & (img & _ & Himg) & Hfs); try done.
  - unfold ocr_total. destruct images as [|img imgs]; [done |].
    intros [Himg _]%Forall_cons. unfold ocr_returns in Himg.
    by rewrite llm_ocr_no_key in Himg.
  - rewrite llm_ocr_no_key in Himg by done. injection Himg as <-.
    by exists w'.
Qed.

End NoKey.

(** ** More of the code on concrete documents *)

Module MoreExamples.

Import Demo Fixtures.

Lemma in_order_permutation n : in_order (seq 0 n) ≡ₚ seq 0 n.
Proof. reflexivity. Defined.

Ltac by_decide := apply (bool_decide_unpack _); vm_compute; exact I.

Ltac side :=
  first [ apply in_order_permutation
        | intros n; apply reverse_Permutation
        | vm_compute; reflexivity
        | discriminate
        | by_decide ].

Lemma convert_preserves_files_witness :
  fs (convert_to_markdown pypdf fitz in_order Fixtures.notes_txt None None
        false w_course).2 !! blank_txt
  = Some "   ".
Proof.
  refine (proj1 (convert_preserves_files pypdf fitz in_order
                   Fixtures.notes_txt None None false w_course _ _ _)
            blank_txt "   " _);
    vm_compute; reflexivity.
Defined.

Lemma markdown_passthrough_witness :
  convert_to_markdown pypdf fitz in_order readme_md (Some reject_all)
    (Some ocr) true w_course
  = (inr readme_md, w_course).
Proof.
  apply markdown_passthrough; [by_decide | vm_compute; reflexivity].
Defined.

Lemma unsupported_type_witness :
  convert_to_markdown pypdf fitz in_order image_png None None false w_course
  = (inr image_md, w_course).
Proof.
  apply (proj1 (unsupported_type pypdf fitz in_order image_png None None
                  false w_course
                  ltac:(by_decide) ltac:(by_decide) ltac:(by_decide))).
  by_decide.
Defined.

Lemma missing_backend_witness :
  convert_to_markdown None fitz in_order slides_pdf None None false w_course
  = (inl (ConversionError
            "pypdf is required for PDF conversion but is not installed"),
     w_course).
Proof.
  apply (proj1 (missing_backend None fitz in_order slides_pdf None ocr
                  w_course
                  ltac:(by_decide) ltac:(vm_compute; reflexivity)
                  ltac:(vm_compute; reflexivity))).
  reflexivity.
Defined.

Lemma ocr_attempts_every_page_witness :
  ∃ evs,
    trace (_convert_pdf_to_markdown_ocr fitz last_first slides_pdf (Some ocr)
             w_course).2
    = trace w_course ++ EvFitzOpen slides_pdf :: evs
    ∧ evs ≡ₚ [EvOcr 0 "one"; EvOcr 1 "!"; EvOcr 2 "three"].
Proof.
  destruct (ocr_attempts_every_page fitz last_first fitz_open ocr
              "one|!|three" [inr "one"; inr "!"; inr "three"] slides_pdf
              w_course
              (_convert_pdf_to_markdown_ocr fitz last_first slides_pdf
                 (Some ocr) w_course).1
              (_convert_pdf_to_markdown_ocr fitz last_first slides_pdf
                 (Some ocr) w_course).2
              eq_refl ltac:(vm_compute; reflexivity)
              ltac:(vm_compute; reflexivity) ltac:(discriminate)
              ltac:(intros n; apply reverse_Permutation)
              ltac:(vm_compute; reflexivity))
    as (_ & evs & Htrace & _ & Hall).
  exists evs. split; [exact Htrace |].
  exact (Hall ["one"; "!"; "three"] eq_refl).
Defined.

Lemma ocr_failure_propagates_witness :
  ∃ e w',
    convert_to_markdown pypdf fitz in_order slides_pdf None (Some ocr) true
      w_course
    = (inl e, w')
    ∧ (∃ img, img ∈ ["one"; "!"; "three"] ∧ ocr img = inl e)
    ∧ fs w' = fs w_course.
Proof.
  apply (ocr_failure_propagates pypdf fitz in_order slides_pdf None
           fitz_open ocr "one|!|three" ["one"; "!"; "three"] w_course);
    side.
Defined.

Lemma extracted_text_shape_witness :
  last_char
    (join nl ["Page 1"; ""; "one"; ""; "Page 2"; ""; "!"; "";
              "Page 3"; ""; "three"; ""])
  = Some (Ascii.ascii_of_nat 10).
Proof.
  refine (proj1 (proj2 (extracted_text_shape pypdf fitz in_order slides_pdf
                          None false w_course _
                          (pdf_extract pypdf fitz in_order slides_pdf None
                             false w_course).2
                          in_order_permutation _))).
  vm_compute. reflexivity.
Defined.

Lemma main_gate_never_rejects_pdf_witness :
  (file_to_md_main pypdf fitz in_order ocr slides_pdf false w_course).1
  = (convert_to_markdown pypdf fitz in_order slides_pdf None None false
       w_course).1.
Proof.
  apply (proj1 (main_gate_never_rejects_pdf pypdf fitz in_order ocr
                  slides_pdf false w_course in_order_permutation
                  ltac:(vm_compute; reflexivity))).
Defined.

Lemma main_on_plain_text_witness :
  ∃ w',
    file_to_md_main pypdf fitz in_order ocr blank_txt false w_course
    = (inl (ConversionError
              ("Text from " +:+ str blank_txt +:+ " failed quality check")),
       w')
    ∧ fs w' = fs w_course.
Proof.
  apply (proj1 (main_on_plain_text pypdf fitz in_order ocr blank_txt false
                  w_course "   "
                  ltac:(vm_compute; reflexivity)
                  ltac:(vm_compute; reflexivity)
                  ltac:(vm_compute; reflexivity))).
  vm_compute. reflexivity.
Defined.

Lemma files_there :
  Forall (λ p, is_Some (fs w_course !! p)) listing.
Proof. by_decide. Defined.

(** pypdf reads every PDF of the listing. *)
Lemma course_pdfs_read path content e :
  path ∈ listing →
  lower (suffix path) = ".pdf" →
  fs w_course !! path = Some content →
  ¬ library_raises pypdf fitz content false e.
Proof.
  intros Hin Hpdf Hcontent (reader & Hpy & Hraise).
  injection Hpy as <-.
  unfold listing in Hin. rewrite !elem_of_cons, elem_of_nil in Hin.
  destruct Hin as [->|[->|[->|[->|[->|[->|[->|[]]]]]]]];
    try discriminate Hpdf;
    vm_compute in Hcontent; injection Hcontent as <-;
    (destruct Hraise as [H|(reader_pages & H & Hpage)];
     [discriminate H |]);
    vm_compute in H; injection H as <-;
    rewrite !elem_of_cons, elem_of_nil in Hpage;
    repeat (destruct Hpage as [Hpage|Hpage]; [discriminate Hpage |]);
    destruct Hpage.
Qed.

Lemma gather_failures_witness :
  ∃ texts,
    (_gather_markdown_files pypdf fitz in_order ocr listing false
       w_course).1
    = inr texts.
Proof.
  apply (proj2 (gather_failures pypdf fitz in_order ocr listing
                  false w_course _
                  (_gather_markdown_files pypdf fitz in_order ocr listing
                     false w_course).2
                  files_there ltac:(vm_compute; reflexivity))
           eq_refl course_pdfs_read).
Defined.

Lemma gather_preserves_files_witness :
  fs (_gather_markdown_files pypdf fitz in_order ocr listing true
        w_course).2 !! sheet_docx
  = Some "docx".
Proof.
  refine (gather_preserves_files pypdf fitz in_order ocr listing true
            w_course _ _ files_there _ sheet_docx "docx" _);
    vm_compute; reflexivity.
Defined.

Lemma gather_returns_markdown_witness :
  ∃ converted evs,
    converted `sublist_of` filter supported listing
    ∧ Forall2
        (λ p text,
           fs (_gather_markdown_files pypdf fitz in_order ocr listing false
                 w_course).2 !! md_target p
           = Some text)
        converted
        ["# Week 1"; "recap" +:+ nl; nl;
         join nl ["Page 1"; ""; "one"; ""; "Page 2"; ""; "!"; "";
                  "Page 3"; ""; "three"; ""]]
    ∧ trace (_gather_markdown_files pypdf fitz in_order ocr listing false
               w_course).2
      = trace w_course ++ evs
    ∧ length converted + length (filter (λ e, warn_event e = true) evs)
      = length (filter supported listing).
Proof.
  apply (gather_returns_markdown pypdf fitz in_order ocr listing false
           w_course); [apply files_there | vm_compute; reflexivity].
Defined.

Lemma load_cheatsheet_prefers_markdown_witness :
  _load_cheatsheet pypdf fitz in_order ocr Fixtures.course_dir true w_both
  = (inr "# Sheet",
     mkWorld (fs w_both)
       (trace w_both
          ++ [EvReadText (joinpath Fixtures.course_dir "cheatsheet.md")])).
Proof.
  apply load_cheatsheet_prefers_markdown. vm_compute. reflexivity.
Defined.

Lemma load_cheatsheet_failures_witness :
  fs (_load_cheatsheet pypdf fitz in_order ocr Fixtures.course_dir false
        w_blank_pdf).2
  = fs w_blank_pdf.
Proof.
  refine (proj1 (load_cheatsheet_failures pypdf fitz in_order ocr
                   Fixtures.course_dir false w_blank_pdf
                   (SystemExit
                      "Failed to convert cheatsheet PDF: No usable text extracted from PDF: course/CS231/cheatsheet.pdf")
                   _ _)).
  vm_compute. reflexivity.
Defined.

Lemma load_cheatsheet_repeatable_witness :
  fs (_load_cheatsheet pypdf fitz in_order ocr Fixtures.course_dir false
        w_pdf_only).2 !! joinpath Fixtures.course_dir "cheatsheet.md"
  = Some (join nl ["Page 1"; ""; "alpha"; ""; "Page 2"; ""; "beta"; ""]).
Proof.
  refine (proj1 (load_cheatsheet_repeatable pypdf fitz in_order ocr
                   Fixtures.course_dir false true w_pdf_only _ _ _)).
  vm_compute. reflexivity.
Defined.

Lemma env_flag_normalises_witness :
  _env_flag (<["CHEATSHEET_USE_OCR" := " " +:+ "YES" +:+ nl]> ∅)
    "CHEATSHEET_USE_OCR" false
  = _env_flag (<["CHEATSHEET_USE_OCR" := "yes"]> ∅)
      "CHEATSHEET_USE_OCR" true.
Proof.
  apply (proj1 (env_flag_normalises ∅ ∅ "CHEATSHEET_USE_OCR" false true
                  "yes" "YES" " " nl eq_refl eq_refl eq_refl)).
Defined.

Lemma same_stem_sources_share_witness :
  convert_to_markdown pypdf fitz in_order slides_txt None None false
    (convert_to_markdown pypdf fitz in_order slides_pdf None None false
       w_twins).2
  = (inr slides_md,
     (convert_to_markdown pypdf fitz in_order slides_pdf None None false
        w_twins).2).
Proof.
  apply (same_stem_sources_share pypdf fitz in_order slides_pdf slides_txt
           None None false None None false w_twins);
    side.
Defined.

Lemma convert_local_witness :
  (convert_to_markdown pypdf fitz in_order Fixtures.notes_txt None None
     false w_course).1
  = (convert_to_markdown pypdf fitz in_order Fixtures.notes_txt None None
       false w_single).1.
Proof.
  apply (proj1 (convert_local pypdf fitz in_order Fixtures.notes_txt None
                  None false w_course w_single
                  ltac:(vm_compute; reflexivity)
                  ltac:(vm_compute; reflexivity))).
Defined.

Lemma ocr_without_api_key_witness :
  ∃ w',
    convert_to_markdown pypdf fitz in_order slides_pdf None
      (Some (llm_ocr unit Fixtures.json_loads Fixtures.b64encode
               Fixtures.create env_no_key)) true w_course
    = (inl (RuntimeError "OPENAI_API_KEY is not set"), w')
    ∧ fs w' = fs w_course.
Proof.
  apply (ocr_without_api_key unit Fixtures.json_loads Fixtures.b64encode
           Fixtures.create pypdf fitz in_order env_no_key slides_pdf None
           fitz_open "one|!|three" ["one"; "!"; "three"] w_course);
    side.
Defined.

Lemma library_failure_propagates_witness :
  convert_to_markdown pypdf fitz in_order damaged_pdf None None false
    w_damaged
  = (inl (Other "PdfReadError" "Invalid content stream"),
     mkWorld (fs w_damaged) [EvPdfReader damaged_pdf]).
Proof.
  apply (proj1 (library_failure_propagates pypdf fitz in_order damaged_pdf
                  None "one|#|three" w_damaged
                  ltac:(vm_compute; reflexivity)
                  ltac:(vm_compute; reflexivity)
                  ltac:(vm_compute; reflexivity))
           PdfReader (Other "PdfReadError" "Invalid content stream") None
           eq_refl).
  right. exists [Some "one"], [inr (Some "three")].
  vm_compute. reflexivity.
Defined.

Lemma unreadable_pdf_ends_batch_witness :
  _gather_markdown_files pypdf fitz in_order ocr
    [damaged_pdf; Fixtures.notes_txt] false w_damaged
  = (inl (Other "PdfReadError" "Invalid content stream"),
     mkWorld (fs w_damaged) [EvPdfReader damaged_pdf]).
Proof.
  apply (proj1 (unreadable_pdf_ends_batch pypdf fitz in_order ocr
                  damaged_pdf PdfReader "one|#|three"
                  (Other "PdfReadError" "Invalid content stream") w_damaged
                  ltac:(vm_compute; reflexivity)
                  ltac:(vm_compute; reflexivity)
                  ltac:(vm_compute; reflexivity)
                  eq_refl
                  ltac:(right; exists [Some "one"], [inr (Some "three")];
                        vm_compute; reflexivity)
                  eq_refl)).
Defined.

End MoreExamples.
